(** * Package provenance verification pipeline

    A shallow embedding of [src/utils/virustotal.py] (artifact resolver,
    hasher, reputation client) and of [UnifiedCLI._virustotal_scan] in
    [src/cli.py] (verdict logic and operator prompts).

    Python code that talks to the outside world (sub-processes, HTTP, the file
    system, the terminal) is embedded as a well-founded interaction tree: every
    external call is a node whose children are indexed by the possible answers
    of the environment, including the exceptions the call may raise.  Pure
    Python (string methods, [dict.get], truthiness, [int()], [isinstance]) is
    embedded as ordinary functions.

    The callers of the scan come after it: the package managers of
    [src/managers], the cache of [src/utils/package_cache.py] and the commands
    [install_package], [upgrade_package] and [update_package] of [UnifiedCLI],
    as trees over a larger family of calls that contains those of the scan.
    Over that family the scan is embedded a second time, with [print] as a
    call that may raise. *)

From Stdlib Require Import ZArith QArith List String Ascii Bool Lia.
Import ListNotations.
Local Open Scope string_scope.
Local Open Scope Z_scope.

Set Implicit Arguments.

(* ------------------------------------------------------------------------- *)
(** ** Python strings

    Strings are sequences of code points below 256; a Rocq [ascii] stands for
    the code point of the same number. *)

Module PyStr.

Definition code (c : ascii) : Z := Z.of_nat (nat_of_ascii c).
Definition chr (z : Z) : ascii := ascii_of_nat (Z.to_nat z).

Definition chars (s : string) : list ascii := list_ascii_of_string s.
Definition of_chars (l : list ascii) : string := string_of_list_ascii l.

(** Truth value of a [str]: non-empty. *)
Definition truthy (s : string) : bool :=
  match s with EmptyString => false | String _ _ => true end.

(** [str.isspace] on one code point below 256. *)
Definition is_space (c : ascii) : bool :=
  let n := code c in
  ((9 <=? n) && (n <=? 13)) || ((28 <=? n) && (n <=? 32))
  || (n =? 133) || (n =? 160).

Fixpoint lstrip_chars (l : list ascii) : list ascii :=
  match l with
  | [] => []
  | c :: r => if is_space c then lstrip_chars r else l
  end.

(** [s.strip()] *)
Definition strip (s : string) : string :=
  of_chars (rev (lstrip_chars (rev (lstrip_chars (chars s))))).

Definition lower_char (c : ascii) : ascii :=
  let n := code c in
  if ((65 <=? n) && (n <=? 90))
     || ((192 <=? n) && (n <=? 222) && negb (n =? 215))
  then chr (n + 32) else c.

(** [s.lower()] *)
Definition lower (s : string) : string := of_chars (map lower_char (chars s)).

Fixpoint lstrip_char (x : ascii) (l : list ascii) : list ascii :=
  match l with
  | [] => []
  | c :: r => if Ascii.eqb c x then lstrip_char x r else l
  end.

(** [s.rstrip('/')] *)
Definition rstrip_slash (s : string) : string :=
  of_chars (rev (lstrip_char "/"%char (rev (chars s)))).

(** [s.startswith('@')] *)
Definition startswith_at (s : string) : bool :=
  match s with String c _ => Ascii.eqb c "@"%char | EmptyString => false end.

(** [s.split('/', 1)]: one element when there is no slash, two otherwise. *)
Fixpoint split_slash_once_chars (l acc : list ascii) : list string :=
  match l with
  | [] => [of_chars (rev acc)]
  | c :: r =>
      if Ascii.eqb c "/"%char then [of_chars (rev acc); of_chars r]
      else split_slash_once_chars r (c :: acc)
  end.

Definition split_slash_once (s : string) : list string :=
  split_slash_once_chars (chars s) [].

(** Line boundaries of [str.splitlines] among the code points below 256. *)
Definition is_linebreak (c : ascii) : bool :=
  let n := code c in
  ((10 <=? n) && (n <=? 13)) || ((28 <=? n) && (n <=? 30)) || (n =? 133).

Fixpoint splitlines_chars (l cur : list ascii) (after_cr : bool)
  : list string :=
  match l with
  | [] => match cur with [] => [] | _ => [of_chars (rev cur)] end
  | c :: r =>
      if after_cr && (code c =? 10) then splitlines_chars r cur false
      else if is_linebreak c
           then of_chars (rev cur) :: splitlines_chars r [] (code c =? 13)
           else splitlines_chars r (c :: cur) false
  end.

(** [s.splitlines()] *)
Definition splitlines (s : string) : list string :=
  splitlines_chars (chars s) [] false.

(** [os.path.join(a, b)] on a POSIX system. *)
Definition path_join (a b : string) : string :=
  match b with
  | String "/" _ => b
  | _ =>
      match rev (chars a) with
      | [] => b
      | c :: _ => if Ascii.eqb c "/"%char then a ++ b else a ++ "/" ++ b
      end
  end.

(** [urllib.parse.quote(s, safe='@/')]: the unreserved characters and the two
    safe ones are kept, every other code point is UTF-8 encoded and each byte
    written [%XX]. *)
Definition is_unreserved (c : ascii) : bool :=
  let n := code c in
  ((65 <=? n) && (n <=? 90)) || ((97 <=? n) && (n <=? 122))
  || ((48 <=? n) && (n <=? 57))
  || (n =? 95) || (n =? 46) || (n =? 45) || (n =? 126).

Definition hex_digit (n : Z) : ascii :=
  if n <? 10 then chr (48 + n) else chr (55 + n).

Definition percent_byte (n : Z) : list ascii :=
  ["%"%char; hex_digit (n / 16); hex_digit (n mod 16)].

Definition quote_char (c : ascii) : list ascii :=
  let n := code c in
  if is_unreserved c || (n =? 64) || (n =? 47) then [c]
  else if n <? 128 then percent_byte n
  else percent_byte (192 + n / 64) ++ percent_byte (128 + n mod 64).

Definition quote (s : string) : string :=
  of_chars (flat_map quote_char (chars s)).

End PyStr.

(* ------------------------------------------------------------------------- *)
(** ** Python exceptions *)

Inductive exn : Type :=
| FileNotFoundError | PermissionError | OSError
| ValueError | TypeError | AttributeError | IndexError | OverflowError
| EOFError | JSONDecodeError | UnicodeDecodeError | UnicodeEncodeError
| RequestException | ConnectionError | Timeout
| MemoryError
| OtherException (cls : string)
| KeyboardInterrupt | SystemExit | GeneratorExit.

(** [isinstance(e, Exception)]: everything but the three classes that derive
    from [BaseException] directly. *)
Definition is_Exception (e : exn) : bool :=
  match e with
  | KeyboardInterrupt | SystemExit | GeneratorExit => false
  | _ => true
  end.

(** Result of a call that may raise. *)
Inductive Res (A : Type) : Type :=
| Ok (a : A)
| Err (e : exn).
Arguments Err {A} e.

(* ------------------------------------------------------------------------- *)
(** ** JSON values as Python objects *)

Inductive pyfloat : Type :=
| FNaN
| FInf
| FFin (q : Q).

#[local] Unset Elimination Schemes.
Inductive JSON : Type :=
| JNull                                  (* None *)
| JBool (b : bool)
| JInt (z : Z)
| JFloat (f : pyfloat)
| JStr (s : string)
| JList (l : list JSON)
| JDict (d : list (string * JSON)).
#[local] Set Elimination Schemes.

Module Py.

(** Truth value of an object ([if x], [x or y], [not x]). *)
Definition truthy (v : JSON) : bool :=
  match v with
  | JNull => false
  | JBool b => b
  | JInt z => negb (z =? 0)
  | JFloat (FFin q) => negb (Qnum q =? 0)
  | JFloat _ => true
  | JStr s => PyStr.truthy s
  | JList l => match l with [] => false | _ => true end
  | JDict d => match d with [] => false | _ => true end
  end.

(** Lookup in a [dict] with [str] keys. *)
Fixpoint lookup (d : list (string * JSON)) (k : string) : option JSON :=
  match d with
  | [] => None
  | (k', v) :: r => if String.eqb k' k then Some v else lookup r k
  end.

(** [d.get(k, default)] *)
Definition get_default (d : list (string * JSON)) (k : string) (dflt : JSON)
  : JSON :=
  match lookup d k with Some v => v | None => dflt end.

(** [d.get(k)] *)
Definition get (d : list (string * JSON)) (k : string) : JSON :=
  get_default d k JNull.

(** [k in d] *)
Definition contains (d : list (string * JSON)) (k : string) : bool :=
  match lookup d k with Some _ => true | None => false end.

(** [x or {}] *)
Definition or_empty_dict (v : JSON) : JSON :=
  if truthy v then v else JDict [].

Definition is_digit (c : ascii) : bool :=
  let n := PyStr.code c in (48 <=? n) && (n <=? 57).

Fixpoint digits_value (l : list ascii) (acc : Z) (after_digit : bool)
  : option Z :=
  match l with
  | [] => if after_digit then Some acc else None
  | c :: r =>
      if is_digit c then digits_value r (10 * acc + (PyStr.code c - 48)) true
      else if Ascii.eqb c "_"%char
           then (if after_digit then digits_value r acc false else None)
           else None
  end.

(** The white space [int()] skips around a number, among the code points
    below 256: the six ASCII ones, U+0085 and U+00A0.  The separators
    U+001C..U+001F, which [str.strip] removes, are not skipped: [int] of
    such a string raises [ValueError]. *)
Definition is_int_space (c : ascii) : bool :=
  let n := PyStr.code c in
  ((9 <=? n) && (n <=? 13)) || (n =? 32) || (n =? 133) || (n =? 160).

Fixpoint lstrip_int_space (l : list ascii) : list ascii :=
  match l with
  | [] => []
  | c :: r => if is_int_space c then lstrip_int_space r else l
  end.

(** [sys.int_info.default_max_str_digits]: since CPython 3.11 (and the
    security releases of the older branches) [int()] refuses a decimal
    string of more digits with [ValueError]. *)
Definition max_str_digits : Z := 4300.

(** [int(s)] for a [str]: surrounding white space, an optional sign, decimal
    digits with single underscores between them, at most [max_str_digits]
    digits. *)
Definition int_of_str (s : string) : Res Z :=
  let body := rev (lstrip_int_space (rev (lstrip_int_space (PyStr.chars s)))) in
  let '(neg, ds) :=
    match body with
    | "-"%char :: r => (true, r)
    | "+"%char :: r => (false, r)
    | _ => (false, body)
    end in
  if max_str_digits <? Z.of_nat (List.length (filter is_digit ds))
  then Err ValueError
  else
    match digits_value ds 0 false with
    | Some z => Ok (if neg : bool then - z else z)
    | None => Err ValueError
    end.

(** [int(x)] *)
Definition int (v : JSON) : Res Z :=
  match v with
  | JInt z => Ok z
  | JBool b => Ok (if b then 1 else 0)
  | JFloat (FFin q) => Ok (Z.quot (Qnum q) (Zpos (Qden q)))
  | JFloat FNaN => Err ValueError
  | JFloat FInf => Err OverflowError
  | JStr s => int_of_str s
  | JNull | JList _ | JDict _ => Err TypeError
  end.

End Py.

(* ------------------------------------------------------------------------- *)
(** ** External calls

    One constructor per kind of call the two modules make to the outside
    world; the index is the type of what the environment gives back. *)

(** [subprocess.CompletedProcess] with [capture_output=True, text=True]. *)
Record CompletedProcess : Type :=
  { returncode : Z; stdout : string }.

(** [requests.Response]; [json] is what [resp.json()] gives. *)
Record Response : Type :=
  { status_code : Z; text : string; json : Res JSON }.

(** The lines [_virustotal_scan] prints, without their colour codes.  Their
    literal text is ASCII throughout. *)
Inductive Msg : Type :=
| MsgPreparing (package_name manager : string)
| MsgDownloadFailed
| MsgCancelled
| MsgProceedWithoutHash
| MsgPackageHash (file_hash : string)
| MsgQuerying
| MsgStatsTable (malicious suspicious harmless undetected : Z)
| MsgMalicious (package_name : string)
| MsgSuspicious (suspicious : Z) (package_name : string)
| MsgProceedDespiteSuspicious
| MsgClean
| MsgVTError (error message : JSON)
| MsgProceedDespiteError
| MsgNoData
| MsgScanSkipped (ex : exn).

Inductive Prompt : Type :=
| PromptProceedAnyway            (* "Proceed with installation anyway? (y/n): " *)
| PromptInstallAnyway.           (* "Do you want to install anyway? (y/n): " *)

Inductive Ext : Type -> Type :=
| MkDTemp (prefix : string) : Ext (Res string)
| SubprocessRun (cmd : list string) : Ext (Res CompletedProcess)
| ListDir (path : string) : Ext (Res (list string))
| IsFile (path : string) : Ext bool
| Sha256File (path : string) : Ext (Res string)
| RequestsGet (url : string) (headers : list (string * string))
    (timeout : option Z) (stream : bool) : Ext (Res Response)
| WriteBody (path : string) : Ext (Res unit)
| GetCwd : Ext (Res string)
| ShutilMove (src dst : string) : Ext (Res unit)
| RmTree (path : string) : Ext (Res unit)
| JsonLoads (s : string) : Ext (Res JSON)
| EnvironGet (name : string) : Ext (option string)
| EnvironSet (name value : string) : Ext unit
| Input (prompt : Prompt) : Ext (Res string)
| Print (m : Msg) : Ext unit.

(** A call together with the answer it got. *)
Inductive Event : Type :=
| Ev {X : Type} (c : Ext X) (x : X).

(* ------------------------------------------------------------------------- *)
(** ** Programs *)

Inductive Prog (A : Type) : Type :=
| Ret (a : A)
| Raise (e : exn)
| Vis {X : Type} (c : Ext X) (k : X -> Prog A).
Arguments Raise {A} e.

Fixpoint bind {A B : Type} (m : Prog A) (f : A -> Prog B) : Prog B :=
  match m with
  | Ret a => f a
  | Raise e => Raise e
  | Vis c k => Vis c (fun x => bind (k x) f)
  end.

Declare Scope prog_scope.
Delimit Scope prog_scope with prog.
Notation "x <- m ;; f" := (bind m (fun x => f))
  (at level 61, m at next level, right associativity) : prog_scope.
Notation "m ;; f" := (bind m (fun _ => f))
  (at level 61, right associativity) : prog_scope.
Local Open Scope prog_scope.

(** [try: body / except Exception as ex: handler ex] *)
Fixpoint try_except {A : Type} (body : Prog A) (handler : exn -> Prog A)
  : Prog A :=
  match body with
  | Ret a => Ret a
  | Raise e => if is_Exception e then handler e else Raise e
  | Vis c k => Vis c (fun x => try_except (k x) handler)
  end.

(** [try: body / finally: cleanup], for a [cleanup] without [return]. *)
Fixpoint try_finally {A : Type} (body : Prog A) (cleanup : Prog unit)
  : Prog A :=
  match body with
  | Ret a => cleanup ;; Ret a
  | Raise e => cleanup ;; Raise e
  | Vis c k => Vis c (fun x => try_finally (k x) cleanup)
  end.

(** A call that returns or raises. *)
Definition call {X : Type} (c : Ext (Res X)) : Prog X :=
  Vis c (fun r => match r with Ok x => Ret x | Err e => Raise e end).

(** A call that cannot raise. *)
Definition ask {X : Type} (c : Ext X) : Prog X := Vis c (fun x => Ret x).

(** [print(...)] on a standard output that takes the line.  A [print] that
    raises (a closed or broken stream, a character the stream's encoding
    lacks) has no answer in [Ext]: this tree describes the executions of the
    scan in which every line was written.  The executions in which a line
    could not be written are those of [cli_io._virustotal_scan] further
    down, a tree whose prints may raise; the lemma [prints_return] relates
    the two. *)
Definition print (m : Msg) : Prog unit := ask (Print m).

(* ------------------------------------------------------------------------- *)
(** ** Semantics *)

Inductive Outcome (A : Type) : Type :=
| Returned (a : A)
| Raised (e : exn).
Arguments Raised {A} e.

(** [exec p t o]: against some environment, [p] makes exactly the calls of
    [t], gets the answers recorded there, and ends with [o]. *)
Fixpoint exec {A : Type} (p : Prog A) (t : list Event) (o : Outcome A)
  : Prop :=
  match p with
  | Ret a => t = [] /\ o = Returned a
  | Raise e => t = [] /\ o = Raised e
  | Vis c k => exists x t', t = Ev c x :: t' /\ exec (k x) t' o
  end.

(** An environment: a state and the answer it gives to each call. *)
Definition Handler (W : Type) : Type := forall X : Type, Ext X -> W -> X * W.

Fixpoint run {A W : Type} (h : Handler W) (p : Prog A) (w : W)
  : list Event * Outcome A * W :=
  match p with
  | Ret a => ([], Returned a, w)
  | Raise e => ([], Raised e, w)
  | Vis c k =>
      let '(x, w1) := h _ c w in
      let '(t, o, w2) := run h (k x) w1 in
      (Ev c x :: t, o, w2)
  end.

(** Weakest precondition over every environment. *)
Fixpoint wp {A : Type} (p : Prog A) (Q : list Event -> Outcome A -> Prop)
  : Prop :=
  match p with
  | Ret a => Q [] (Returned a)
  | Raise e => Q [] (Raised e)
  | Vis c k => forall x, wp (k x) (fun t o => Q (Ev c x :: t) o)
  end.

(* ------------------------------------------------------------------------- *)
(** ** [src/utils/virustotal.py] *)

Module virustotal.

Definition VIRUSTOTAL_API_KEY_ENV : string := "VT_API_KEY".
Definition VIRUSTOTAL_API_URL (file_hash : string) : string :=
  "https://www.virustotal.com/api/v3/files/" ++ file_hash.
Definition DEFAULT_API_KEY : string :=
  "020700591df72dd76c943a1306d9de7a984cf4afbd5b3f868c723cf64f2413db".

(** Truth value of an [Optional[str]]. *)
Definition truthy_opt (o : option string) : bool :=
  match o with Some s => PyStr.truthy s | None => false end.

Definition get_virustotal_api_key : Prog string :=
  key <- ask (EnvironGet VIRUSTOTAL_API_KEY_ENV) ;;
  if negb (truthy_opt key)
  then ask (EnvironSet VIRUSTOTAL_API_KEY_ENV DEFAULT_API_KEY) ;;
       Ret DEFAULT_API_KEY
  else Ret (match key with Some k => k | None => "" end).

(** What [scan_file_hash_with_virustotal] makes of the answer: the decoded
    body of a 200, and for any other status the dict
    [{"error": status_code, "message": text}]. *)
Definition decode_reply (resp : Response) : Prog JSON :=
  if status_code resp =? 200
  then match json resp with Ok v => Ret v | Err e => Raise e end
  else Ret (JDict [("error", JInt (status_code resp));
                   ("message", JStr (text resp))]).

Definition scan_file_hash_with_virustotal (file_hash api_key : string)
  : Prog JSON :=
  let headers := [("x-apikey", api_key)] in
  let url := VIRUSTOTAL_API_URL file_hash in
  resp <- call (RequestsGet url headers None false) ;;
  decode_reply resp.

(** The hasher: opens the file, feeds it to SHA-256 in blocks of 4096 bytes
    and gives the hex digest; the file's content is the environment's. *)
Definition calculate_file_hash (file_path : string) : Prog string :=
  call (Sha256File file_path).

(** The loop [for fname in os.listdir(tmpdir)] of [_download_pip_artifact]. *)
Fixpoint first_file_hash (tmpdir : string) (names : list string)
  : Prog (option string) :=
  match names with
  | [] => Ret None
  | fname :: rest =>
      let fpath := PyStr.path_join tmpdir fname in
      isfile <- ask (IsFile fpath) ;;
      if isfile : bool
      then h <- calculate_file_hash fpath ;; Ret (Some h)
      else first_file_hash tmpdir rest
  end.

Definition _download_pip_artifact (package_name tmpdir : string)
  : Prog (option string) :=
  let cmd := ["pip3"; "download"; "--no-deps"; package_name; "-d"; tmpdir] in
  let listing :=
    names <- call (ListDir tmpdir) ;; first_file_hash tmpdir names in
  result <- call (SubprocessRun cmd) ;;
  if negb (returncode result =? 0)
  then
    let cmd2 := ["python"; "-m"; "pip"; "download"; "--no-deps";
                 package_name; "-d"; tmpdir] in
    result2 <- call (SubprocessRun cmd2) ;;
    if negb (returncode result2 =? 0) then Ret None else listing
  else listing.

Definition DEFAULT_REGISTRY : string := "https://registry.npmjs.org/".

Definition _get_npm_registry : Prog string :=
  found <- try_except
    (res <- call (SubprocessRun ["npm"; "config"; "get"; "registry"]) ;;
     let reg := PyStr.strip (stdout res) in
     if PyStr.truthy reg && negb (String.eqb reg "undefined")
     then Ret (Some (PyStr.rstrip_slash reg ++ "/"))
     else Ret None)
    (fun _ => Ret None) ;;
  match found with
  | Some reg => Ret reg
  | None => Ret DEFAULT_REGISTRY
  end.

(** [None] is [JNull]. *)
Definition _get_npm_metadata (package_name : string) : Prog JSON :=
  try_except
    (res <- call (SubprocessRun ["npm"; "view"; package_name; "--json"]) ;;
     if negb (returncode res =? 0) || negb (PyStr.truthy (PyStr.strip (stdout res)))
     then Ret JNull
     else call (JsonLoads (stdout res)))
    (fun _ => Ret JNull).

(** [dist.tarball] of a decoded package document, when it is a non-empty
    [str] inside a [dict]. *)
Definition dist_tarball (dist : JSON) : option string :=
  match dist with
  | JDict dd =>
      match Py.get dd "tarball" with
      | JStr t => if PyStr.truthy t then Some t else None
      | _ => None
      end
  | _ => None
  end.

Definition _get_npm_latest_tarball_from_registry
  (package_name registry : string) : Prog (option string) :=
  try_except
    (let encoded := PyStr.quote package_name in
     let url := registry ++ encoded ++ "/latest" in
     r <- call (RequestsGet url [] (Some 20) false) ;;
     if negb (status_code r =? 200) then Ret None
     else
       data <- match json r with Ok v => Ret v | Err e => Raise e end ;;
       match data with
       | JDict d => Ret (dist_tarball (Py.get d "dist"))
       | _ => Raise AttributeError
       end)
    (fun _ => Ret None).

Definition _construct_npm_tarball_url (package_name version registry : string)
  : Prog string :=
  if PyStr.startswith_at package_name
  then
    match PyStr.split_slash_once package_name with
    | [scope; name] =>
        let scope := match scope with String _ r => r | EmptyString => "" end in
        Ret ((registry ++ scope ++ "/" ++ name ++ "/-/")
             ++ (name ++ "-" ++ version ++ ".tgz"))
    | _ => Raise ValueError
    end
  else Ret ((registry ++ package_name ++ "/-/")
            ++ (package_name ++ "-" ++ version ++ ".tgz")).

Definition _download_npm_tarball (url tmpdir package_name : string)
  : Prog (option string) :=
  try_except
    (let tgz_path := PyStr.path_join tmpdir (package_name ++ ".tgz") in
     r <- call (RequestsGet url [] (Some 30) true) ;;
     if negb (status_code r =? 200) then Ret None
     else
       call (WriteBody tgz_path) ;;
       h <- calculate_file_hash tgz_path ;;
       Ret (Some h))
    (fun _ => Ret None).

Definition _npm_pack_fallback (package_name tmpdir : string)
  : Prog (option string) :=
  try_except
    (res <- call (SubprocessRun ["npm"; "pack"; package_name]) ;;
     if negb (returncode res =? 0) || negb (PyStr.truthy (PyStr.strip (stdout res)))
     then Ret None
     else
       packed_name <-
         match rev (PyStr.splitlines (PyStr.strip (stdout res))) with
         | last :: _ => Ret last
         | [] => Raise IndexError
         end ;;
       cwd <- call GetCwd ;;
       let src := PyStr.path_join cwd packed_name in
       isfile <- ask (IsFile src) ;;
       if negb isfile then Ret None
       else
         let dst := PyStr.path_join tmpdir packed_name in
         call (ShutilMove src dst) ;;
         h <- calculate_file_hash dst ;;
         Ret (Some h))
    (fun _ => Ret None).

(** The npm branch of [download_package_and_get_hash] once the registry and
    the metadata are known: lines 173-196. *)
Definition npm_after_metadata (package_name tmpdir registry : string)
  (meta : JSON) : Prog (option string) :=
  let tarball_url :=
    match meta with
    | JDict md => dist_tarball (Py.get md "dist")
    | _ => None
    end in
  tarball_url <-
    (if negb (truthy_opt tarball_url)
     then _get_npm_latest_tarball_from_registry package_name registry
     else Ret tarball_url) ;;
  tarball_url <-
    match meta with
    | JDict md =>
        if negb (truthy_opt tarball_url)
        then
          match Py.get md "version" with
          | JStr version =>
              if PyStr.truthy version
              then u <- _construct_npm_tarball_url package_name version registry ;;
                   Ret (Some u)
              else Ret tarball_url
          | _ => Ret tarball_url
          end
        else Ret tarball_url
    | _ => Ret tarball_url
    end ;;
  hash_val <-
    (if truthy_opt tarball_url
     then _download_npm_tarball
            (match tarball_url with Some u => u | None => "" end)
            tmpdir package_name
     else Ret None) ;;
  if truthy_opt hash_val then Ret hash_val
  else _npm_pack_fallback package_name tmpdir.

(** The npm branch of [download_package_and_get_hash], inside its [try]. *)
Definition npm_artifact_hash (package_name tmpdir : string)
  : Prog (option string) :=
  registry <- _get_npm_registry ;;
  meta <- _get_npm_metadata package_name ;;
  npm_after_metadata package_name tmpdir registry meta.

(** The [try] block of [download_package_and_get_hash]. *)
Definition artifact_hash_in (package_name manager tmpdir : string)
  : Prog (option string) :=
  if String.eqb manager "pip3"
  then _download_pip_artifact package_name tmpdir
  else if String.eqb manager "npm"
       then npm_artifact_hash package_name tmpdir
       else Ret None.

(** Its [finally] block: [shutil.rmtree(tmpdir)], errors swallowed. *)
Definition remove_scratch (tmpdir : string) : Prog unit :=
  try_except (call (RmTree tmpdir)) (fun _ => Ret tt).

Definition download_package_and_get_hash (package_name manager : string)
  : Prog (option string) :=
  tmpdir <- call (MkDTemp "pkgscan_") ;;
  try_finally (artifact_hash_in package_name manager tmpdir)
    (remove_scratch tmpdir).

End virustotal.

(* ------------------------------------------------------------------------- *)
(** ** [UnifiedCLI._virustotal_scan] of [src/cli.py] *)

Module cli.

Import virustotal.

(** A pure computation that may raise. *)
Definition lift {A : Type} (r : Res A) : Prog A :=
  match r with Ok a => Ret a | Err e => Raise e end.

(** The receiver of a [.get(...)] call: only a [dict] has the method. *)
Definition as_dict (x : JSON) : Prog (list (string * JSON)) :=
  match x with
  | JDict d => Ret d
  | _ => Raise AttributeError
  end.

(** [d.get(k, {}) or {}] *)
Definition get_or_empty (d : list (string * JSON)) (k : string) : JSON :=
  Py.or_empty_dict (Py.get_default d k (JDict [])).

(** [int(stats.get(k, 0))] *)
Definition stat_required (stats : list (string * JSON)) (k : string) : Prog Z :=
  lift (Py.int (Py.get_default stats k (JInt 0))).

(** [int(stats.get(k, 0)) if k in stats else 0] *)
Definition stat_optional (stats : list (string * JSON)) (k : string) : Prog Z :=
  if Py.contains stats k then lift (Py.int (Py.get_default stats k (JInt 0)))
  else Ret 0.

(** [input(prompt).strip().lower()] *)
Definition read_choice (p : Prompt) : Prog string :=
  answer <- call (Input p) ;;
  Ret (PyStr.lower (PyStr.strip answer)).

(** The three prompts share one shape: anything but [y] cancels. *)
Definition confirm (p : Prompt) (proceeding : Msg) : Prog bool :=
  choice <- read_choice p ;;
  if negb (String.eqb choice "y")
  then print MsgCancelled ;; Ret false
  else print proceeding ;; Ret true.

(** The [data] member of the decoded answer when the guard
    [isinstance(result, dict) and result.get('data')
     and isinstance(result['data'], dict)] holds. *)
Definition analysis_data (result : JSON) : option (list (string * JSON)) :=
  match result with
  | JDict rd =>
      match Py.get rd "data" with
      | JDict dd => if Py.truthy (JDict dd) then Some dd else None
      | _ => None
      end
  | _ => None
  end.

(** [(result.get('error'), result.get('message'))] when the guard
    [isinstance(result, dict) and result.get('error')] holds. *)
Definition error_info (result : JSON) : option (JSON * JSON) :=
  match result with
  | JDict rd =>
      if Py.truthy (Py.get rd "error")
      then Some (Py.get rd "error", Py.get rd "message")
      else None
  | _ => None
  end.

(** Lines 148-193: from the decoded answer of the reputation service to the
    value the scan returns. *)
Definition report (package_name : string) (result : JSON) : Prog bool :=
  match analysis_data result with
  | Some data =>
      attrs <- as_dict (get_or_empty data "attributes") ;;
      stats <- as_dict (get_or_empty attrs "last_analysis_stats") ;;
      malicious <- stat_required stats "malicious" ;;
      undetected <- stat_optional stats "undetected" ;;
      suspicious <- stat_optional stats "suspicious" ;;
      harmless <- stat_optional stats "harmless" ;;
      print (MsgStatsTable malicious suspicious harmless undetected) ;;
      if malicious >? 0
      then print (MsgMalicious package_name) ;; Ret false
      else if suspicious >? 0
      then print (MsgSuspicious suspicious package_name) ;;
           confirm PromptInstallAnyway MsgProceedDespiteSuspicious
      else print MsgClean ;; Ret true
  | None =>
      match error_info result with
      | Some (error, message) =>
          print (MsgVTError error message) ;;
          confirm PromptProceedAnyway MsgProceedDespiteError
      | None => print MsgNoData ;; Ret true
      end
  end.

(** [manager_name or dflt] for an [Optional[str]]. *)
Definition or_default (manager_name : option string) (dflt : string) : string :=
  match manager_name with
  | Some m => if PyStr.truthy m then m else dflt
  | None => dflt
  end.

(** The [try] block of [_virustotal_scan].  The progress spinner runs on a
    thread of its own, shares no data with the scan and is left out. *)
Definition scan_body (package_name : string) (manager_name : option string)
  : Prog bool :=
  print (MsgPreparing package_name (or_default manager_name "auto")) ;;
  file_hash <- download_package_and_get_hash package_name
                 (or_default manager_name "pip3") ;;
  if negb (truthy_opt file_hash)
  then
    print MsgDownloadFailed ;;
    confirm PromptProceedAnyway MsgProceedWithoutHash
  else
    let file_hash := match file_hash with Some h => h | None => "" end in
    print (MsgPackageHash file_hash) ;;
    print MsgQuerying ;;
    api_key <- get_virustotal_api_key ;;
    result <- scan_file_hash_with_virustotal file_hash api_key ;;
    report package_name result.

(** The clause [except Exception as ex]. *)
Definition on_exception (ex : exn) : Prog bool :=
  print (MsgScanSkipped ex) ;; Ret true.

Definition _virustotal_scan (package_name : string)
  (manager_name : option string) : Prog bool :=
  try_except (scan_body package_name manager_name) on_exception.

(** What is left of the scan once the reputation service has answered
    [resp]: decoding, the report, and the [except] clause around them. *)
Definition after_reply (package_name : string) (resp : Response) : Prog bool :=
  try_except (result <- decode_reply resp ;; report package_name result)
    on_exception.

(** What is left of the scan when the resolver gave no hash. *)
Definition after_no_artifact : Prog bool :=
  try_except
    (print MsgDownloadFailed ;;
     confirm PromptProceedAnyway MsgProceedWithoutHash)
    on_exception.

(** Where an execution of the scan stands once the resolver and the
    reputation query are behind it. *)
Inductive Stage : Type :=
| NoArtifact
| Replied (resp : Response)
| Failed (e : exn).

(** What is left of the scan from there. *)
Definition remainder (package_name : string) (s : Stage) : Prog bool :=
  match s with
  | NoArtifact => after_no_artifact
  | Replied resp => after_reply package_name resp
  | Failed e => if is_Exception e then on_exception e else Raise e
  end.

End cli.

(* ------------------------------------------------------------------------- *)
(** ** Observations on a trace *)

(** What was printed. *)
Definition printed_by (ev : Event) : list Msg :=
  match ev with
  | Ev c _ => match c with Print m => [m] | _ => [] end
  end.
Definition printed (t : list Event) : list Msg := flat_map printed_by t.

(** The operator prompts, each with the operator's answer. *)
Definition prompt_of (ev : Event) : list (Prompt * Res string) :=
  match ev with
  | Ev c x =>
      match c in Ext X return X -> list (Prompt * Res string) with
      | Input p => fun r => [(p, r)]
      | _ => fun _ => []
      end x
  end.
Definition prompts (t : list Event) : list (Prompt * Res string) :=
  flat_map prompt_of t.

(** The answers of the reputation service: the one [requests.get] that
    carries headers is the query of [scan_file_hash_with_virustotal]. *)
Definition vt_reply_of (ev : Event) : list (Res Response) :=
  match ev with
  | Ev c x =>
      match c in Ext X return X -> list (Res Response) with
      | RequestsGet _ (_ :: _) _ _ => fun r => [r]
      | _ => fun _ => []
      end x
  end.
Definition vt_replies (t : list Event) : list (Res Response) :=
  flat_map vt_reply_of t.

(** The query of the registry's latest-version endpoint: the one
    [requests.get] with [timeout=20], in
    [_get_npm_latest_tarball_from_registry]. *)
Definition registry_latest_query_of (ev : Event) : list string :=
  match ev with
  | Ev c _ =>
      match c with
      | RequestsGet url [] (Some 20) false => [url]
      | _ => []
      end
  end.
Definition registry_latest_queries (t : list Event) : list string :=
  flat_map registry_latest_query_of t.

(** The streamed downloads of [_download_npm_tarball]. *)
Definition tarball_download_of (ev : Event) : list string :=
  match ev with
  | Ev c _ =>
      match c with
      | RequestsGet url [] (Some 30) true => [url]
      | _ => []
      end
  end.
Definition tarball_downloads (t : list Event) : list string :=
  flat_map tarball_download_of t.

(** What [json.loads] gave for the output of [npm view]. *)
Definition json_loads_of (ev : Event) : list (Res JSON) :=
  match ev with
  | Ev c x =>
      match c in Ext X return X -> list (Res JSON) with
      | JsonLoads _ => fun r => [r]
      | _ => fun _ => []
      end x
  end.
Definition json_loads_results (t : list Event) : list (Res JSON) :=
  flat_map json_loads_of t.

(** Scratch directories: creations with their outcome, and removals. *)
Definition mkdtemp_of (ev : Event) : list (Res string) :=
  match ev with
  | Ev c x =>
      match c in Ext X return X -> list (Res string) with
      | MkDTemp _ => fun r => [r]
      | _ => fun _ => []
      end x
  end.
Definition mkdtemps (t : list Event) : list (Res string) :=
  flat_map mkdtemp_of t.

Definition rmtree_of (ev : Event) : list string :=
  match ev with
  | Ev c _ => match c with RmTree d => [d] | _ => [] end
  end.
Definition rmtrees (t : list Event) : list string := flat_map rmtree_of t.

(** Calls of the artifact resolver: it neither prints nor prompts, and sends
    no request with headers. *)
Definition resolver_call (X : Type) (c : Ext X) : Prop :=
  match c with
  | Print _ | Input _ | EnvironGet _ | EnvironSet _ _ => False
  | RequestsGet _ (_ :: _) _ _ => False
  | _ => True
  end.

(** Calls other than HTTP requests. *)
Definition not_a_request (X : Type) (c : Ext X) : Prop :=
  match c with RequestsGet _ _ _ _ => False | _ => True end.

(** Calls other than HTTP requests and JSON decoding. *)
Definition local_call (X : Type) (c : Ext X) : Prop :=
  match c with
  | RequestsGet _ _ _ _ | JsonLoads _ => False
  | _ => True
  end.

(** Calls other than JSON decoding. *)
Definition not_json_loads (X : Type) (c : Ext X) : Prop :=
  match c with JsonLoads _ => False | _ => True end.

(** Calls the body of the resolver makes between creating and removing its
    scratch directory. *)
Definition resolver_body_call (X : Type) (c : Ext X) : Prop :=
  match c with
  | MkDTemp _ | RmTree _ => False
  | _ => True
  end.

(** Lines the scan prints before the reputation service answers. *)
Definition opening_line (m : Msg) : Prop :=
  match m with
  | MsgPreparing _ _ | MsgPackageHash _ | MsgQuerying => True
  | _ => False
  end.

(** The answers of the reputation service seen before a stage is reached. *)
Definition replies_at (s : cli.Stage) (l : list (Res Response)) : Prop :=
  match s with
  | cli.NoArtifact => l = []
  | cli.Replied resp => l = [Ok resp]
  | cli.Failed e => l = [] \/ l = [Err e]
  end.

(** [calls_in P p]: every call [p] can make satisfies [P]. *)
Fixpoint calls_in {A : Type} (P : forall X : Type, Ext X -> Prop)
  (p : Prog A) : Prop :=
  match p with
  | Vis c k => P _ c /\ forall x, calls_in P (k x)
  | _ => True
  end.

Definition event_call (P : forall X : Type, Ext X -> Prop) (ev : Event)
  : Prop :=
  match ev with Ev c _ => P _ c end.

(* ------------------------------------------------------------------------- *)
(** ** The reputation result, as the specification names it *)

(** [Found{malicious, suspicious, harmless, undetected}]: a decoded answer
    whose [data.attributes.last_analysis_stats] holds the four per-engine
    counts as integers. *)
Definition found_stats (result : JSON) : option (Z * Z * Z * Z) :=
  match result with
  | JDict rd =>
      match Py.lookup rd "data" with
      | Some (JDict dd) =>
          match Py.lookup dd "attributes" with
          | Some (JDict ad) =>
              match Py.lookup ad "last_analysis_stats" with
              | Some (JDict sd) =>
                  match Py.lookup sd "malicious", Py.lookup sd "suspicious",
                        Py.lookup sd "harmless", Py.lookup sd "undetected" with
                  | Some (JInt m), Some (JInt s), Some (JInt h), Some (JInt u) =>
                      Some (m, s, h, u)
                  | _, _, _, _ => None
                  end
              | _ => None
              end
          | _ => None
          end
      | _ => None
      end
  | _ => None
  end.

(** The reputation service answered with HTTP 200 and a body of shape
    [Found]. *)
Definition Found (resp : Response) (m s h u : Z) : Prop :=
  status_code resp = 200 /\
  exists result, json resp = Ok result /\ found_stats result = Some (m, s, h, u).

(** The operator's normalised answer is [y]. *)
Definition says_yes (answer : string) : bool :=
  String.eqb (PyStr.lower (PyStr.strip answer)) "y".

(** Lines the scan prints after an operator prompt or from its [except]
    clause. *)
Definition closing_line (m : Msg) : Prop :=
  match m with
  | MsgCancelled | MsgProceedWithoutHash | MsgProceedDespiteSuspicious
  | MsgProceedDespiteError | MsgScanSkipped _ => True
  | _ => False
  end.

(** What the scan returns after a prompt, by the operator's answer. *)
Definition decision_after (answer : Res string) : Outcome bool :=
  match answer with
  | Ok r => Returned (says_yes r)
  | Err e => if is_Exception e then Returned true else Raised e
  end.

(* ------------------------------------------------------------------------- *)
(** ** Concrete environments *)

(** A world that gives the same answer each time it is asked the same
    thing. *)
Record World : Type :=
  { w_mkdtemp : Res string;
    w_run : list string -> Res CompletedProcess;
    w_listdir : Res (list string);
    w_isfile : string -> bool;
    w_sha256 : Res string;
    w_get : string -> list (string * string) -> Res Response;
    w_write : Res unit;
    w_getcwd : Res string;
    w_move : Res unit;
    w_rmtree : Res unit;
    w_json_loads : string -> Res JSON;
    w_environ : option string;
    w_input : Res string }.

Definition answer : Handler World :=
  fun X c w =>
    match c in Ext X return X * World with
    | MkDTemp _ => (w_mkdtemp w, w)
    | SubprocessRun cmd => (w_run w cmd, w)
    | ListDir _ => (w_listdir w, w)
    | IsFile p => (w_isfile w p, w)
    | Sha256File _ => (w_sha256 w, w)
    | RequestsGet url headers _ _ => (w_get w url headers, w)
    | WriteBody _ => (w_write w, w)
    | GetCwd => (w_getcwd w, w)
    | ShutilMove _ _ => (w_move w, w)
    | RmTree _ => (w_rmtree w, w)
    | JsonLoads s => (w_json_loads w s, w)
    | EnvironGet _ => (w_environ w, w)
    | EnvironSet _ _ => (tt, w)
    | Input _ => (w_input w, w)
    | Print _ => (tt, w)
    end.

Definition trace_of {A W : Type} (r : list Event * Outcome A * W) : list Event :=
  fst (fst r).
Definition outcome_of {A W : Type} (r : list Event * Outcome A * W) : Outcome A :=
  snd (fst r).

Definition stats_body (m s h u : Z) : JSON :=
  JDict [("data",
          JDict [("id", JStr "9f2c");
                 ("type", JStr "file");
                 ("attributes",
                  JDict [("last_analysis_stats",
                          JDict [("malicious", JInt m);
                                 ("suspicious", JInt s);
                                 ("undetected", JInt u);
                                 ("harmless", JInt h);
                                 ("timeout", JInt 0)])])])].

Definition found_response (m s h u : Z) : Response :=
  {| status_code := 200; text := "{...}"; json := Ok (stats_body m s h u) |}.

Definition error_response (code : Z) (message : string) : Response :=
  {| status_code := code; text := message; json := Err JSONDecodeError |}.

Definition digest : string :=
  "2c26b46b68ffc68ff99b453c1d30413413422d706483bfa0f98a5e886266e7ae".

(** pip is installed and downloads one file; the reputation service gives
    [vt]; the operator gives [operator] at any prompt. *)
Definition pip_world (vt : Res Response) (operator : Res string) : World :=
  {| w_mkdtemp := Ok "/tmp/pkgscan_k3x";
     w_run := fun _ => Ok {| returncode := 0; stdout := "Saved" |};
     w_listdir := Ok ["pkg-1.0.tar.gz"];
     w_isfile := fun _ => true;
     w_sha256 := Ok digest;
     w_get := fun _ _ => vt;
     w_write := Ok tt;
     w_getcwd := Ok "/home/dev";
     w_move := Ok tt;
     w_rmtree := Ok tt;
     w_json_loads := fun _ => Err JSONDecodeError;
     w_environ := Some "key";
     w_input := operator |}.

(** Both pip invocations exit with status 1: no artifact. *)
Definition no_artifact_world (operator : Res string) : World :=
  {| w_mkdtemp := Ok "/tmp/pkgscan_k3x";
     w_run := fun _ => Ok {| returncode := 1; stdout := "" |};
     w_listdir := Ok [];
     w_isfile := fun _ => false;
     w_sha256 := Err FileNotFoundError;
     w_get := fun _ _ => Err ConnectionError;
     w_write := Ok tt;
     w_getcwd := Ok "/home/dev";
     w_move := Ok tt;
     w_rmtree := Ok tt;
     w_json_loads := fun _ => Err JSONDecodeError;
     w_environ := None;
     w_input := operator |}.

(** The [pip3] executable is not on the path: [subprocess.run] raises. *)
Definition pip_missing_world : World :=
  {| w_mkdtemp := Ok "/tmp/pkgscan_k3x";
     w_run := fun _ => Err FileNotFoundError;
     w_listdir := Ok [];
     w_isfile := fun _ => false;
     w_sha256 := Err FileNotFoundError;
     w_get := fun _ _ => Err ConnectionError;
     w_write := Ok tt;
     w_getcwd := Ok "/home/dev";
     w_move := Ok tt;
     w_rmtree := Ok tt;
     w_json_loads := fun _ => Err JSONDecodeError;
     w_environ := None;
     w_input := Ok "y" |}.

Definition left_pad_url : string :=
  "https://registry.npmjs.org/left-pad/-/left-pad-1.3.0.tgz".

Definition left_pad_doc : list (string * JSON) :=
  [("name", JStr "left-pad");
   ("version", JStr "1.3.0");
   ("dist", JDict [("shasum", JStr "5b8a3a7765dfe001261dde915589e782f8c94d1e");
                   ("tarball", JStr left_pad_url)])].

(** npm is installed; [npm view] prints a document that decodes to [meta];
    any request without headers (registry, tarball) is answered with status
    [http_status] and a body that is not JSON; the reputation service gives
    [vt]. *)
Definition npm_world (meta : JSON) (http_status : Z) (vt : Res Response)
  : World :=
  {| w_mkdtemp := Ok "/tmp/pkgscan_q7m";
     w_run := fun cmd =>
       match cmd with
       | ["npm"; "config"; "get"; "registry"] =>
           Ok {| returncode := 0; stdout := "https://registry.npmjs.org/" |}
       | ["npm"; "view"; _; "--json"] =>
           Ok {| returncode := 0; stdout := "{...}" |}
       | _ => Ok {| returncode := 0; stdout := "left-pad-1.3.0.tgz" |}
       end;
     w_listdir := Ok [];
     w_isfile := fun _ => true;
     w_sha256 := Ok digest;
     w_get := fun _ headers =>
       match headers with
       | [] => Ok {| status_code := http_status; text := "";
                     json := Err JSONDecodeError |}
       | _ => vt
       end;
     w_write := Ok tt;
     w_getcwd := Ok "/home/dev";
     w_move := Ok tt;
     w_rmtree := Ok tt;
     w_json_loads := fun _ => Ok meta;
     w_environ := Some "key";
     w_input := Ok "n" |}.

(** The commands handed to [subprocess.run]. *)
Definition command_of (ev : Event) : list (list string) :=
  match ev with
  | Ev c _ => match c with SubprocessRun cmd => [cmd] | _ => [] end
  end.
Definition commands (t : list Event) : list (list string) :=
  flat_map command_of t.

(* ------------------------------------------------------------------------- *)
(** ** Characters and strings of the resolver's URLs *)

(** Characters [quote(s, safe='@/')] leaves as they are. *)
Definition kept_by_quote (c : ascii) : bool :=
  PyStr.is_unreserved c || Ascii.eqb c "@"%char || Ascii.eqb c "/"%char.

(** Characters that may appear in the output of [quote]. *)
Definition url_safe (c : ascii) : bool :=
  kept_by_quote c || Ascii.eqb c "%"%char.

(** ['/' in s] *)
Definition has_slash (s : string) : bool :=
  existsb (fun c => Ascii.eqb c "/"%char) (PyStr.chars s).

(** [s.endswith('/')] *)
Definition ends_with_slash (s : string) : bool :=
  match rev (PyStr.chars s) with
  | c :: _ => Ascii.eqb c "/"%char
  | [] => false
  end.

(* ------------------------------------------------------------------------- *)
(** ** More observations on a trace *)

(** Directory listings, with what [os.listdir] gave. *)
Definition listing_of (ev : Event) : list (string * Res (list string)) :=
  match ev with
  | Ev c x =>
      match c in Ext X return X -> list (string * Res (list string)) with
      | ListDir d => fun r => [(d, r)]
      | _ => fun _ => []
      end x
  end.
Definition listings (t : list Event) : list (string * Res (list string)) :=
  flat_map listing_of t.

(** The paths tested with [os.path.isfile], with the answers. *)
Definition isfile_of (ev : Event) : list (string * bool) :=
  match ev with
  | Ev c x =>
      match c in Ext X return X -> list (string * bool) with
      | IsFile p => fun b => [(p, b)]
      | _ => fun _ => []
      end x
  end.
Definition isfile_tests (t : list Event) : list (string * bool) :=
  flat_map isfile_of t.

(** The files hashed, with what [calculate_file_hash] gave. *)
Definition hashed_of (ev : Event) : list (string * Res string) :=
  match ev with
  | Ev c x =>
      match c in Ext X return X -> list (string * Res string) with
      | Sha256File p => fun r => [(p, r)]
      | _ => fun _ => []
      end x
  end.
Definition hashed (t : list Event) : list (string * Res string) :=
  flat_map hashed_of t.

(** What was written to [os.environ]. *)
Definition environ_write_of (ev : Event) : list (string * string) :=
  match ev with
  | Ev c _ => match c with EnvironSet n v => [(n, v)] | _ => [] end
  end.
Definition environ_writes (t : list Event) : list (string * string) :=
  flat_map environ_write_of t.

(** The two pip invocations of [_download_pip_artifact]. *)
Definition pip3_download (package_name tmpdir : string) : list string :=
  ["pip3"; "download"; "--no-deps"; package_name; "-d"; tmpdir].
Definition python_pip_download (package_name tmpdir : string) : list string :=
  ["python"; "-m"; "pip"; "download"; "--no-deps"; package_name; "-d"; tmpdir].

(* ------------------------------------------------------------------------- *)
(** ** Variations of an environment *)

Definition with_run (f : list string -> Res CompletedProcess) (w : World)
  : World :=
  {| w_mkdtemp := w_mkdtemp w; w_run := f; w_listdir := w_listdir w;
     w_isfile := w_isfile w; w_sha256 := w_sha256 w; w_get := w_get w;
     w_write := w_write w; w_getcwd := w_getcwd w; w_move := w_move w;
     w_rmtree := w_rmtree w; w_json_loads := w_json_loads w;
     w_environ := w_environ w; w_input := w_input w |}.

Definition with_get (f : string -> list (string * string) -> Res Response)
  (w : World) : World :=
  {| w_mkdtemp := w_mkdtemp w; w_run := w_run w; w_listdir := w_listdir w;
     w_isfile := w_isfile w; w_sha256 := w_sha256 w; w_get := f;
     w_write := w_write w; w_getcwd := w_getcwd w; w_move := w_move w;
     w_rmtree := w_rmtree w; w_json_loads := w_json_loads w;
     w_environ := w_environ w; w_input := w_input w |}.

Definition with_files (names : list string) (isfile : string -> bool)
  (w : World) : World :=
  {| w_mkdtemp := w_mkdtemp w; w_run := w_run w; w_listdir := Ok names;
     w_isfile := isfile; w_sha256 := w_sha256 w; w_get := w_get w;
     w_write := w_write w; w_getcwd := w_getcwd w; w_move := w_move w;
     w_rmtree := w_rmtree w; w_json_loads := w_json_loads w;
     w_environ := w_environ w; w_input := w_input w |}.

Definition with_environ (v : option string) (w : World) : World :=
  {| w_mkdtemp := w_mkdtemp w; w_run := w_run w; w_listdir := w_listdir w;
     w_isfile := w_isfile w; w_sha256 := w_sha256 w; w_get := w_get w;
     w_write := w_write w; w_getcwd := w_getcwd w; w_move := w_move w;
     w_rmtree := w_rmtree w; w_json_loads := w_json_loads w;
     w_environ := v; w_input := w_input w |}.

(** A registry answer carrying a distribution URL. *)
Definition latest_response (url : string) : Response :=
  {| status_code := 200; text := "{...}";
     json := Ok (JDict [("name", JStr "left-pad");
                        ("dist", JDict [("tarball", JStr url)])]) |}.

(** The commands handed to [subprocess.run], each with its outcome. *)
Definition run_of (ev : Event) : list (list string * Res CompletedProcess) :=
  match ev with
  | Ev c x =>
      match c in Ext X return X -> list (list string * Res CompletedProcess) with
      | SubprocessRun cmd => fun r => [(cmd, r)]
      | _ => fun _ => []
      end x
  end.
Definition runs (t : list Event) : list (list string * Res CompletedProcess) :=
  flat_map run_of t.

(* ------------------------------------------------------------------------- *)
(** ** Exceptions a program lets out *)

(** The postcondition: an instance of [Exception] that leaves the program
    satisfies [P]. *)
Definition lets_out {A : Type} (P : exn -> Prop) (t : list Event)
  (o : Outcome A) : Prop :=
  forall e, o = Raised e -> is_Exception e = true -> P e.

(** Calls other than printing the download-failed line. *)
Definition not_download_failed (X : Type) (c : Ext X) : Prop :=
  match c with
  | Print MsgDownloadFailed => False
  | _ => True
  end.

(** The [last_analysis_stats] dict the report reads its counts from, when
    the decoded answer leads it there: [data] a non-empty dict, and
    [attributes] and [last_analysis_stats] each a dict or missing or falsy
    (then [{}]). *)
Definition analysis_stats (result : JSON) : option (list (string * JSON)) :=
  match cli.analysis_data result with
  | Some data =>
      match cli.get_or_empty data "attributes" with
      | JDict attrs =>
          match cli.get_or_empty attrs "last_analysis_stats" with
          | JDict stats => Some stats
          | _ => None
          end
      | _ => None
      end
  | None => None
  end.

(** A reply with status 200 and decoded body [result]. *)
Definition ok_response (result : JSON) : Response :=
  {| status_code := 200; text := "{...}"; json := Ok result |}.

(** What was read from [os.environ], with the value found. *)
Definition environ_read_of (ev : Event) : list (string * option string) :=
  match ev with
  | Ev c x =>
      match c in Ext X return X -> list (string * option string) with
      | EnvironGet n => fun v => [(n, v)]
      | _ => fun _ => []
      end x
  end.
Definition environ_reads (t : list Event) : list (string * option string) :=
  flat_map environ_read_of t.

(** The requests that carry headers: URL and headers. *)
Definition vt_request_of (ev : Event)
  : list (string * list (string * string)) :=
  match ev with
  | Ev c _ =>
      match c with
      | RequestsGet url (h :: hs) _ _ => [(url, h :: hs)]
      | _ => []
      end
  end.
Definition vt_requests (t : list Event)
  : list (string * list (string * string)) :=
  flat_map vt_request_of t.

(** The postcondition: a hash that is returned was computed by
    [calculate_file_hash] during the run. *)
Definition hash_computed (t : list Event) (o : Outcome (option string))
  : Prop :=
  forall h, o = Returned (Some h) -> exists p, In (p, Ok h) (hashed t).

(* ------------------------------------------------------------------------- *)
(** ** The URL the npm resolver settles on *)

(** The answers to the queries of the registry's latest-version endpoint. *)
Definition registry_latest_reply_of (ev : Event) : list (Res Response) :=
  match ev with
  | Ev c x =>
      match c in Ext X return X -> list (Res Response) with
      | RequestsGet _ [] (Some 20) false => fun r => [r]
      | _ => fun _ => []
      end x
  end.
Definition registry_latest_replies (t : list Event) : list (Res Response) :=
  flat_map registry_latest_reply_of t.

(** [dist.tarball] of the metadata, when [npm view] embeds one. *)
Definition direct_url (meta : JSON) : option string :=
  match meta with
  | JDict md => virustotal.dist_tarball (Py.get md "dist")
  | _ => None
  end.

(** The URL a reply of the latest-version endpoint carries. *)
Definition latest_url_of (reply : Res Response) : option string :=
  match reply with
  | Ok resp =>
      if status_code resp =? 200
      then match json resp with
           | Ok (JDict d) => virustotal.dist_tarball (Py.get d "dist")
           | _ => None
           end
      else None
  | Err _ => None
  end.

(** The query was cut short by an exception that is not an [Exception]. *)
Definition latest_interrupted (reply : Res Response) : bool :=
  match reply with
  | Ok resp =>
      if status_code resp =? 200
      then match json resp with
           | Err e => negb (is_Exception e)
           | Ok _ => false
           end
      else false
  | Err e => negb (is_Exception e)
  end.

(** The URL built from the metadata's version, when it has one and the
    package name allows it. *)
Definition constructed_url (package_name registry : string) (meta : JSON)
  : option string :=
  match meta with
  | JDict md =>
      match Py.get md "version" with
      | JStr version =>
          if PyStr.truthy version
          then match virustotal._construct_npm_tarball_url
                       package_name version registry with
               | Ret u => Some u
               | _ => None
               end
          else None
      | _ => None
      end
  | _ => None
  end.

(* ------------------------------------------------------------------------- *)
(** ** The package managers and the commands that change packages

    [src/managers/base_manager.py], [src/managers/npm_manager.py],
    [src/managers/pip_manager.py], [src/utils/package_cache.py] and the
    commands of [UnifiedCLI] in [src/cli.py] that call the scan:
    [install_package], [upgrade_package] and [update_package].

    These functions make the calls of the scan and some of their own, so
    their programs are trees over a larger family of calls, [Call], into
    which the calls of the scan are injected by [Base]. *)

Unset Implicit Arguments.

(** The lines the managers and the commands print, without their colour
    codes.  Twelve of them start with a mark that is not an ASCII
    character: a check mark (U+2713), a ballot cross (U+2717) or a warning
    sign (U+26A0), written [<U+2713>], [<U+2717>] and [<U+26A0>] below.  The
    literal text of the others is ASCII. *)
Inductive Line : Type :=
| LineInstalling (package_name tool : string)  (* "Installing {p} via {tool}..." *)
| LineInstalled (package_name : string)        (* "<U+2713> Successfully installed {p}" *)
| LineNotInstalled (package_name : string)     (* "<U+2717> Failed to install {p}" *)
| LineInstallError (e : exn)                   (* "Error installing package: {e}" *)
| LineUpgrading (package_name tool : string)   (* "Upgrading {p} via {tool}..." *)
| LineUpgraded (package_name : string)         (* "<U+2713> Successfully upgraded {p}" *)
| LineNotUpgraded (package_name : string)      (* "<U+2717> Failed to upgrade {p}" *)
| LineUpgradeError (e : exn)                   (* "Error upgrading package: {e}" *)
| LineListWarning (tool : string)              (* "Warning: {tool} list returned non-zero exit code" *)
| LineListParseError (tool : string) (e : exn) (* "Error parsing {tool} output: {e}" *)
| LineListError (tool : string) (e : exn)      (* "Error listing {tool} packages: {e}" *)
| LineAvailable (name : string)                (* "<U+2713> {name} is available" *)
| LineUnavailable (name : string)              (* "<U+26A0> {name} is not available" *)
| LineManagerNotAvailable (manager_name : string)
                                               (* "Manager '{m}' not available" *)
| LineInstalledVia (package_name manager_name : string)
                                               (* "<U+2713> Successfully installed {p} via {m}" *)
| LineInstallFailed (package_name : string)    (* "<U+2717> Failed to install {p}" *)
| LineAvailableManagers                        (* "Available managers:" *)
| LineNumbered (idx : Z) (name : string)       (* "  {idx}. {name}" *)
| LineInvalidChoice                            (* "Invalid choice" *)
| LineUpgradedVia (package_name manager_name : string)
                                               (* "<U+2713> Successfully upgraded {p} via {m}" *)
| LineUpgradeFailed (package_name : string)    (* "<U+2717> Failed to upgrade {p}" *)
| LineUpgradeNotImplemented (manager_name : string)
                                               (* "Upgrade not implemented for {m}" *)
| LineDetecting (package_name : string)        (* "Detecting package manager for {p}..." *)
| LineNotFound (package_name : string)         (* "Package '{p}' not found in any installed packages" *)
| LineTip (package_name : string)              (* "Tip: Use '... install {p} -m <manager>' ..." *)
| LineFoundIn (package_name manager_name : string)
                                               (* "Found {p} in {m}" *)
| LineUpdatedVia (package_name manager_name : string)
                                               (* "<U+2713> Successfully updated {p} via {m}" *)
| LineUpdateFailed (package_name : string)     (* "<U+2717> Failed to update {p}" *)
| LineUpdateNotImplemented (manager_name : string)
                                               (* "Update not implemented for {m}" *)
| LineFoundInSeveral (package_name : string).  (* "Package '{p}' found in multiple managers:" *)

(** The two statements [PackageCacheDB] executes that write. *)
Inductive Statement : Type :=
| CreateTable
    (* CREATE TABLE IF NOT EXISTS installed_packages (...) *)
| InsertOrIgnore (name : string) (version : JSON) (manager : string).
    (* INSERT OR IGNORE INTO installed_packages (name, version, manager)
       VALUES (?, ?, ?) *)

Inductive Call : Type -> Type :=
| Base {X : Type} (c : Ext X) : Call X
    (* a call of [src/utils/virustotal.py] or of [_virustotal_scan], and
       [json.loads] *)
| Which (command : string) : Call (Res (option string))
    (* shutil.which(command) *)
| RunCommand (cmd : list string) (capture_output : bool)
    : Call (Res CompletedProcess)
    (* subprocess.run(cmd, capture_output=..., text=True, encoding='utf-8',
                      errors='replace', timeout=30);
       without capture_output the [stdout] of the result is not read *)
| Say (l : Line) : Call unit
    (* print(...) of a line whose literal text is ASCII, on a standard
       output that takes it *)
| SayMarked (l : Line) : Call (Res unit)
    (* print(...) of a line that starts with one of the three marks: it
       raises UnicodeEncodeError when the encoding of the standard output
       has no such character (cp1252 or ASCII, as when the output is
       redirected on Windows or the locale is C) *)
| PrintLine (m : Msg) : Call (Res unit)
    (* print(...) of a line of the scan, on a standard output that may
       refuse it *)
| SelectManager (n : Z) : Call (Res string)
    (* input("Select manager (1-{n}): ") *)
| SqliteConnect : Call (Res unit)
    (* sqlite3.connect(self.db_path) *)
| SqliteTransaction (s : Statement) : Call (Res unit)
    (* with self.conn: self.conn.execute(s) *)
| SqliteClose : Call (Res unit).
    (* self.conn.close() *)

(** A call together with the answer it got. *)
Inductive Step : Type :=
| St {X : Type} (c : Call X) (x : X).

Inductive Task (A : Type) : Type :=
| Done (a : A)
| Fail (e : exn)
| Do {X : Type} (c : Call X) (k : X -> Task A).
Arguments Done {A} a.
Arguments Fail {A} e.
Arguments Do {A X} c k.

Fixpoint and_then {A B : Type} (m : Task A) (f : A -> Task B) : Task B :=
  match m with
  | Done a => f a
  | Fail e => Fail e
  | Do c k => Do c (fun x => and_then (k x) f)
  end.

Declare Scope task_scope.
Delimit Scope task_scope with task.
Notation "x <- m ;; f" := (and_then m (fun x => f))
  (at level 61, m at next level, right associativity) : task_scope.
Notation "m ;; f" := (and_then m (fun _ => f))
  (at level 61, right associativity) : task_scope.
Local Open Scope task_scope.

(** [try: body / except ...]: [handler e] is the clause that catches [e],
    when there is one. *)
Fixpoint try_catch {A : Type} (body : Task A)
  (handler : exn -> option (Task A)) : Task A :=
  match body with
  | Done a => Done a
  | Fail e => match handler e with Some h => h | None => Fail e end
  | Do c k => Do c (fun x => try_catch (k x) handler)
  end.

(** The one clause [except Exception as e: h e]. *)
Definition except_Exception {A : Type} (h : exn -> Task A)
  : exn -> option (Task A) :=
  fun e => if is_Exception e then Some (h e) else None.

(** A call that returns or raises. *)
Definition invoke {X : Type} (c : Call (Res X)) : Task X :=
  Do c (fun r => match r with Ok x => Done x | Err e => Fail e end).

(** [print(...)] of a line whose literal text is ASCII.  As for the lines of
    the scan, the executions described are those in which the standard
    output takes such a line. *)
Definition say (l : Line) : Task unit := Do (Say l) (fun x => Done x).

(** [print(...)] of a line that starts with a mark: it returns or raises. *)
Definition say_marked (l : Line) : Task unit := invoke (SayMarked l).

(** A pure computation that may raise. *)
Definition evaluate {A : Type} (r : Res A) : Task A :=
  match r with Ok a => Done a | Err e => Fail e end.

(** A program of the scan, as a part of a larger one. *)
Fixpoint of_prog {A : Type} (p : Prog A) : Task A :=
  match p with
  | Ret a => Done a
  | Raise e => Fail e
  | Vis c k => Do (Base c) (fun x => of_prog (k x))
  end.

Definition base (ev : Event) : Step :=
  match ev with Ev c x => St (Base c) x end.

(** [texec p t o]: against some environment, [p] makes exactly the calls of
    [t], gets the answers recorded there, and ends with [o]. *)
Fixpoint texec {A : Type} (p : Task A) (t : list Step) (o : Outcome A)
  : Prop :=
  match p with
  | Done a => t = [] /\ o = Returned a
  | Fail e => t = [] /\ o = Raised e
  | Do c k => exists x t', t = St c x :: t' /\ texec (k x) t' o
  end.

Definition Replier (W : Type) : Type := forall X : Type, Call X -> W -> X * W.

Fixpoint trun {A W : Type} (h : Replier W) (p : Task A) (w : W)
  : list Step * Outcome A * W :=
  match p with
  | Done a => ([], Returned a, w)
  | Fail e => ([], Raised e, w)
  | Do c k =>
      let '(x, w1) := h _ c w in
      let '(t, o, w2) := trun h (k x) w1 in
      (St c x :: t, o, w2)
  end.

(** Weakest precondition over every environment. *)
Fixpoint twp {A : Type} (p : Task A) (Q : list Step -> Outcome A -> Prop)
  : Prop :=
  match p with
  | Done a => Q [] (Returned a)
  | Fail e => Q [] (Raised e)
  | Do c k => forall x, twp (k x) (fun t o => Q (St c x :: t) o)
  end.

(* ------------------------------------------------------------------------- *)
(** ** [_virustotal_scan] on a standard output that may refuse a line

    The scan once more, line for line as in [cli] above, with [print] as a
    call that returns or raises.  Every [print] of the [try] block sits
    inside that block, so what it raises reaches the [except] clause; the
    [print] of the [except] clause sits outside, so what it raises leaves
    the scan.  The parts that print nothing are those of [cli] and
    [virustotal]. *)

Module cli_io.

Definition print (m : Msg) : Task unit := invoke (PrintLine m).

(** [input(prompt).strip().lower()] *)
Definition read_choice (p : Prompt) : Task string :=
  of_prog (cli.read_choice p).

Definition confirm (p : Prompt) (proceeding : Msg) : Task bool :=
  choice <- read_choice p ;;
  if negb (String.eqb choice "y")
  then print MsgCancelled ;; Done false
  else print proceeding ;; Done true.

(** Lines 148-193. *)
Definition report (package_name : string) (result : JSON) : Task bool :=
  match cli.analysis_data result with
  | Some data =>
      attrs <- of_prog (cli.as_dict (cli.get_or_empty data "attributes")) ;;
      stats <- of_prog (cli.as_dict
                          (cli.get_or_empty attrs "last_analysis_stats")) ;;
      malicious <- of_prog (cli.stat_required stats "malicious") ;;
      undetected <- of_prog (cli.stat_optional stats "undetected") ;;
      suspicious <- of_prog (cli.stat_optional stats "suspicious") ;;
      harmless <- of_prog (cli.stat_optional stats "harmless") ;;
      print (MsgStatsTable malicious suspicious harmless undetected) ;;
      if malicious >? 0
      then print (MsgMalicious package_name) ;; Done false
      else if suspicious >? 0
      then print (MsgSuspicious suspicious package_name) ;;
           confirm PromptInstallAnyway MsgProceedDespiteSuspicious
      else print MsgClean ;; Done true
  | None =>
      match cli.error_info result with
      | Some (error, message) =>
          print (MsgVTError error message) ;;
          confirm PromptProceedAnyway MsgProceedDespiteError
      | None => print MsgNoData ;; Done true
      end
  end.

(** The [try] block. *)
Definition scan_body (package_name : string) (manager_name : option string)
  : Task bool :=
  print (MsgPreparing package_name (cli.or_default manager_name "auto")) ;;
  file_hash <- of_prog (virustotal.download_package_and_get_hash package_name
                          (cli.or_default manager_name "pip3")) ;;
  if negb (virustotal.truthy_opt file_hash)
  then
    print MsgDownloadFailed ;;
    confirm PromptProceedAnyway MsgProceedWithoutHash
  else
    let file_hash := match file_hash with Some h => h | None => "" end in
    print (MsgPackageHash file_hash) ;;
    print MsgQuerying ;;
    api_key <- of_prog virustotal.get_virustotal_api_key ;;
    result <- of_prog (virustotal.scan_file_hash_with_virustotal
                         file_hash api_key) ;;
    report package_name result.

(** The clause [except Exception as ex]. *)
Definition on_exception (ex : exn) : Task bool :=
  print (MsgScanSkipped ex) ;; Done true.

Definition _virustotal_scan (package_name : string)
  (manager_name : option string) : Task bool :=
  try_catch (scan_body package_name manager_name)
    (except_Exception on_exception).

End cli_io.

(** A call of the scan other than [print]. *)
Definition not_print (X : Type) (c : Ext X) : Prop :=
  match c with Print _ => False | _ => True end.

(** [refines p q]: [q] is [p] with every [print] turned into one that may
    raise. *)
Inductive refines {A : Type} : Prog A -> Task A -> Prop :=
| refines_ret (a : A) : refines (Ret a) (Done a)
| refines_raise (e : exn) : refines (Raise e) (Fail e)
| refines_print (m : Msg) (k : unit -> Prog A) (k' : Res unit -> Task A) :
    refines (k tt) (k' (Ok tt)) ->
    refines (Vis (Print m) k) (Do (PrintLine m) k')
| refines_call (X : Type) (c : Ext X) (k : X -> Prog A) (k' : X -> Task A) :
    not_print _ c -> (forall x, refines (k x) (k' x)) ->
    refines (Vis c k) (Do (Base c) k').

(** The step of [cli_io] an event of the scan stands for: a [print] that
    returned, or the same call. *)
Definition printing (ev : Event) : Step :=
  match ev with
  | Ev c x =>
      match c in Ext X return X -> Step with
      | Print m => fun _ => St (PrintLine m) (Ok tt)
      | c' => fun x => St (Base c') x
      end x
  end.

(** The lines of the scan handed to [print], with what [print] did. *)
Definition print_of (s : Step) : list (Msg * Res unit) :=
  match s with
  | St c x =>
      match c in Call X return X -> list (Msg * Res unit) with
      | PrintLine m => fun r => [(m, r)]
      | _ => fun _ => []
      end x
  end.
Definition prints (t : list Step) : list (Msg * Res unit) :=
  flat_map print_of t.

(** No [print] of the scan raised. *)
Definition print_returned (s : Step) : bool :=
  match s with
  | St c x =>
      match c in Call X return X -> bool with
      | PrintLine _ => fun r => match r with Ok _ => true | Err _ => false end
      | _ => fun _ => true
      end x
  end.
Definition prints_returned (t : list Step) : bool := forallb print_returned t.

(* ------------------------------------------------------------------------- *)
(** ** More Python *)

(** Exceptions the model has no constructor for. *)
Definition TimeoutExpired : exn := OtherException "subprocess.TimeoutExpired".
Definition KeyError : exn := OtherException "KeyError".
(** [Exception(...)], an instance of the base class itself. *)
Definition PlainException : exn := OtherException "Exception".

(** [isinstance(e, subprocess.TimeoutExpired)] *)
Definition is_TimeoutExpired (e : exn) : bool :=
  match e with
  | OtherException cls => String.eqb cls "subprocess.TimeoutExpired"
  | _ => false
  end.

(** [isinstance(e, FileNotFoundError)] *)
Definition is_FileNotFoundError (e : exn) : bool :=
  match e with FileNotFoundError => true | _ => false end.

(** [isinstance(e, json.JSONDecodeError)] *)
Definition is_JSONDecodeError (e : exn) : bool :=
  match e with JSONDecodeError => true | _ => false end.

(** [isinstance(e, (ValueError, IndexError))]: [JSONDecodeError],
    [UnicodeDecodeError] and [UnicodeEncodeError] derive from [ValueError];
    an [OtherException] stands for a class outside these. *)
Definition is_ValueError_or_IndexError (e : exn) : bool :=
  match e with
  | ValueError | JSONDecodeError | UnicodeDecodeError | UnicodeEncodeError
  | IndexError => true
  | _ => false
  end.

(** [l[idx]] for a list, with negative indices counted from the end. *)
Definition py_index {A : Type} (l : list A) (idx : Z) : Res A :=
  let n := Z.of_nat (List.length l) in
  let i := if idx <? 0 then idx + n else idx in
  if (0 <=? i) && (i <? n)
  then match nth_error l (Z.to_nat i) with
       | Some a => Ok a
       | None => Err IndexError
       end
  else Err IndexError.

(** [x[k]] for a string key [k]. *)
Definition subscript (x : JSON) (k : string) : Res JSON :=
  match x with
  | JDict d =>
      match Py.lookup d k with
      | Some v => Ok v
      | None => Err KeyError
      end
  | _ => Err TypeError
  end.

(** The items [for item in x] goes through. *)
Definition iterate (x : JSON) : Res (list JSON) :=
  match x with
  | JList l => Ok l
  | JDict d => Ok (map (fun kv => JStr (fst kv)) d)
  | JStr s => Ok (map (fun c => JStr (String c EmptyString)) (PyStr.chars s))
  | _ => Err TypeError
  end.

(** [needle in s] for two strings. *)
Fixpoint contains_str (needle s : string) : bool :=
  String.prefix needle s ||
  match s with
  | EmptyString => false
  | String _ r => contains_str needle r
  end.

(** [k in x] for a string [k]. *)
Definition py_in (k : string) (x : JSON) : Res bool :=
  match x with
  | JDict d => Ok (Py.contains d k)
  | JList l =>
      Ok (existsb (fun y => match y with
                            | JStr s => String.eqb k s
                            | _ => false
                            end) l)
  | JStr s => Ok (contains_str k s)
  | _ => Err TypeError
  end.

(** [x.items()] *)
Definition items (x : JSON) : Res (list (string * JSON)) :=
  match x with
  | JDict d => Ok d
  | _ => Err AttributeError
  end.

(** [x.get(k, dflt)] *)
Definition get_method (x : JSON) (k : string) (dflt : JSON) : Res JSON :=
  match x with
  | JDict d => Ok (Py.get_default d k dflt)
  | _ => Err AttributeError
  end.

(** [x.lower()] *)
Definition lower_method (x : JSON) : Res string :=
  match x with
  | JStr s => Ok (PyStr.lower s)
  | _ => Err AttributeError
  end.

(** [enumerate(l, start)] *)
Fixpoint enumerate {A : Type} (l : list A) (start : Z) : list (Z * A) :=
  match l with
  | [] => []
  | a :: r => (start, a) :: enumerate r (start + 1)
  end.

(* ------------------------------------------------------------------------- *)
(** ** [src/managers/base_manager.py] *)

Module base_manager.

Record BasePackageManager : Type :=
  { name : string; command : string }.

(** [_run_command]; [platform] is [sys.platform]. *)
Definition _run_command (platform : string) (self : BasePackageManager)
  (args : list string) (capture_output : bool) : Task CompletedProcess :=
  try_catch
    (cmd <- (if String.eqb platform "win32"
             then command_path <- invoke (Which (command self)) ;;
                  match command_path with
                  | None => Fail FileNotFoundError
                  | Some command_path => Done (command_path :: args)
                  end
             else Done (command self :: args)) ;;
     invoke (RunCommand cmd capture_output))
    (fun e =>
       if is_TimeoutExpired e then Some (Fail PlainException)
       else if is_FileNotFoundError e then Some (Fail PlainException)
       else None).

Definition is_available (platform : string) (self : BasePackageManager)
  : Task bool :=
  try_catch
    (result <- _run_command platform self ["--version"] true ;;
     Done (returncode result =? 0))
    (except_Exception (fun _ => Done false)).

End base_manager.

(** The dictionaries [list_packages] returns. *)
Record Package : Type :=
  { pkg_name : JSON; pkg_id : JSON; pkg_version : JSON; pkg_manager : string }.

(* ------------------------------------------------------------------------- *)
(** ** [src/managers/npm_manager.py] *)

Module npm_manager.

Import base_manager.

Definition NPMManager : BasePackageManager :=
  {| name := "npm"; command := "npm" |}.

(** The loop over [data['dependencies'].items()]. *)
Fixpoint packages_of (deps : list (string * JSON)) : Res (list Package) :=
  match deps with
  | [] => Ok []
  | (name, info) :: rest =>
      match get_method info "version" (JStr "unknown") with
      | Err e => Err e
      | Ok version =>
          match packages_of rest with
          | Err e => Err e
          | Ok packages =>
              Ok ({| pkg_name := JStr name; pkg_id := JStr name;
                     pkg_version := version; pkg_manager := "npm" |}
                  :: packages)
          end
      end
  end.

(** From the decoded output of [npm list] to the packages. *)
Definition decode_packages (data : JSON) : Res (list Package) :=
  match py_in "dependencies" data with
  | Err e => Err e
  | Ok false => Ok []
  | Ok true =>
      match subscript data "dependencies" with
      | Err e => Err e
      | Ok deps =>
          match items deps with
          | Err e => Err e
          | Ok deps => packages_of deps
          end
      end
  end.

Definition list_packages (platform : string) : Task (list Package) :=
  try_catch
    (result <- _run_command platform NPMManager
                 ["list"; "-g"; "--depth=0"; "--json"] true ;;
     if negb (returncode result =? 0)
     then say (LineListWarning "npm") ;; Done []
     else
       data <- invoke (Base (JsonLoads (stdout result))) ;;
       evaluate (decode_packages data))
    (fun e =>
       if is_JSONDecodeError e
       then Some (say (LineListParseError "npm" e) ;; Done [])
       else if is_Exception e
       then Some (say (LineListError "npm" e) ;; Done [])
       else None).

Definition install_package (platform : string) (package_name : string)
  (global_install : bool) : Task bool :=
  try_catch
    (let args := (["install"] ++ (if global_install then ["-g"] else [])
                  ++ [package_name])%list in
     say (LineInstalling package_name "npm") ;;
     result <- _run_command platform NPMManager args false ;;
     if returncode result =? 0
     then say_marked (LineInstalled package_name) ;; Done true
     else say_marked (LineNotInstalled package_name) ;; Done false)
    (except_Exception (fun e => say (LineInstallError e) ;; Done false)).

Definition upgrade_package (platform : string) (package_name : string)
  (global_upgrade : bool) : Task bool :=
  try_catch
    (let args := (["update"] ++ (if global_upgrade then ["-g"] else [])
                  ++ [package_name])%list in
     say (LineUpgrading package_name "npm") ;;
     result <- _run_command platform NPMManager args false ;;
     if returncode result =? 0
     then say_marked (LineUpgraded package_name) ;; Done true
     else say_marked (LineNotUpgraded package_name) ;; Done false)
    (except_Exception (fun e => say (LineUpgradeError e) ;; Done false)).

End npm_manager.

(* ------------------------------------------------------------------------- *)
(** ** [src/managers/pip_manager.py] *)

Module pip_manager.

Import base_manager.

Definition PipManager : BasePackageManager :=
  {| name := "pip3"; command := "pip3" |}.

(** The loop over the decoded output of [pip3 list]. *)
Fixpoint packages_of (data : list JSON) : Res (list Package) :=
  match data with
  | [] => Ok []
  | item :: rest =>
      match subscript item "name" with
      | Err e => Err e
      | Ok name =>
          match subscript item "version" with
          | Err e => Err e
          | Ok version =>
              match packages_of rest with
              | Err e => Err e
              | Ok packages =>
                  Ok ({| pkg_name := name; pkg_id := name;
                         pkg_version := version; pkg_manager := "pip3" |}
                      :: packages)
              end
          end
      end
  end.

Definition decode_packages (data : JSON) : Res (list Package) :=
  match iterate data with
  | Err e => Err e
  | Ok data => packages_of data
  end.

Definition list_packages (platform : string) : Task (list Package) :=
  try_catch
    (result <- _run_command platform PipManager ["list"; "--format=json"] true ;;
     if negb (returncode result =? 0)
     then say (LineListWarning "pip") ;; Done []
     else
       data <- invoke (Base (JsonLoads (stdout result))) ;;
       evaluate (decode_packages data))
    (fun e =>
       if is_JSONDecodeError e
       then Some (say (LineListParseError "pip" e) ;; Done [])
       else if is_Exception e
       then Some (say (LineListError "pip" e) ;; Done [])
       else None).

Definition install_package (platform : string) (package_name : string)
  (upgrade : bool) : Task bool :=
  try_catch
    (let args := (["install"] ++ (if upgrade then ["--upgrade"] else [])
                  ++ [package_name])%list in
     say (LineInstalling package_name "pip3") ;;
     result <- _run_command platform PipManager args false ;;
     if returncode result =? 0
     then say_marked (LineInstalled package_name) ;; Done true
     else say_marked (LineNotInstalled package_name) ;; Done false)
    (except_Exception (fun e => say (LineInstallError e) ;; Done false)).

Definition upgrade_package (platform : string) (package_name : string)
  : Task bool :=
  try_catch
    (let args := ["install"; "--upgrade"; package_name] in
     say (LineUpgrading package_name "pip3") ;;
     result <- _run_command platform PipManager args false ;;
     if returncode result =? 0
     then say_marked (LineUpgraded package_name) ;; Done true
     else say_marked (LineNotUpgraded package_name) ;; Done false)
    (except_Exception (fun e => say (LineUpgradeError e) ;; Done false)).

End pip_manager.

(* ------------------------------------------------------------------------- *)
(** ** [src/utils/package_cache.py] *)

Module package_cache.

(** [PackageCacheDB()]: the constructor connects and creates the table. *)
Definition _create_table : Task unit :=
  invoke (SqliteTransaction CreateTable).

Definition __init__ : Task unit :=
  invoke SqliteConnect ;;
  _create_table.

Definition add_package (name : string) (version : JSON) (manager : string)
  : Task unit :=
  invoke (SqliteTransaction (InsertOrIgnore name version manager)).

Definition close : Task unit :=
  invoke SqliteClose.

End package_cache.

(* ------------------------------------------------------------------------- *)
(** ** [UnifiedCLI] of [src/cli.py]: the commands that change packages *)

Module unified_cli.

(** The two manager objects. *)
Inductive Manager : Type :=
| NPMManager
| PipManager.

(** The fields [name] and [command] of each. *)
Definition fields (manager : Manager) : base_manager.BasePackageManager :=
  match manager with
  | NPMManager => npm_manager.NPMManager
  | PipManager => pip_manager.PipManager
  end.

(** [manager.is_available()] *)
Definition manager_is_available (platform : string) (manager : Manager)
  : Task bool :=
  base_manager.is_available platform (fields manager).

(** [manager.list_packages()] *)
Definition manager_list_packages (platform : string) (manager : Manager)
  : Task (list Package) :=
  match manager with
  | NPMManager => npm_manager.list_packages platform
  | PipManager => pip_manager.list_packages platform
  end.

(** [manager.install_package(package_name)] *)
Definition manager_install_package (platform : string) (manager : Manager)
  (package_name : string) : Task bool :=
  match manager with
  | NPMManager => npm_manager.install_package platform package_name false
  | PipManager => pip_manager.install_package platform package_name false
  end.

(** [manager.upgrade_package(package_name)] *)
Definition manager_upgrade_package (platform : string) (manager : Manager)
  (package_name : string) : Task bool :=
  match manager with
  | NPMManager => npm_manager.upgrade_package platform package_name true
  | PipManager => pip_manager.upgrade_package platform package_name
  end.

(** [hasattr(manager, 'upgrade_package')]: both classes define it. *)
Definition has_upgrade_package (manager : Manager) : bool :=
  match manager with
  | NPMManager => true
  | PipManager => true
  end.

(** [self.managers] *)
Definition managers : list (string * Manager) :=
  [("npm", NPMManager); ("pip3", PipManager)].

(** The loop of [__init__] that fills [self.available_managers]. *)
Fixpoint probe (platform : string) (managers : list (string * Manager))
  : Task (list (string * Manager)) :=
  match managers with
  | [] => Done []
  | (name, manager) :: rest =>
      available <- manager_is_available platform manager ;;
      if available
      then say_marked (LineAvailable name) ;;
           others <- probe platform rest ;;
           Done ((name, manager) :: others)
      else say_marked (LineUnavailable name) ;;
           probe platform rest
  end.

(** [UnifiedCLI()], giving [self.available_managers]. *)
Definition __init__ (platform : string) : Task (list (string * Manager)) :=
  probe platform managers.

(** [self.available_managers[manager_name]] *)
Fixpoint lookup_manager (available_managers : list (string * Manager))
  (manager_name : string) : Res Manager :=
  match available_managers with
  | [] => Err KeyError
  | (name, manager) :: rest =>
      if String.eqb name manager_name then Ok manager
      else lookup_manager rest manager_name
  end.

(** [manager_name in self.available_managers] *)
Definition is_available_manager (available_managers : list (string * Manager))
  (manager_name : string) : bool :=
  existsb (fun entry => String.eqb (fst entry) manager_name) available_managers.

(** The loop that looks for the installed version:
    [for pkg in pkgs: if pkg['name'].lower() == package_name.lower(): ...].
    [JNull] is the initial [None]. *)
Fixpoint installed_version (pkgs : list Package) (package_name : string)
  : Res JSON :=
  match pkgs with
  | [] => Ok JNull
  | pkg :: rest =>
      match lower_method (pkg_name pkg) with
      | Err e => Err e
      | Ok lowered =>
          if String.eqb lowered (PyStr.lower package_name)
          then Ok (pkg_version pkg)
          else installed_version rest package_name
      end
  end.

(** [version or ''] *)
Definition or_empty (version : JSON) : JSON :=
  if Py.truthy version then version else JStr "".

(** [print(...)] for each of [enumerate(names, 1)]. *)
Fixpoint say_numbered (entries : list (Z * string)) : Task unit :=
  match entries with
  | [] => Done tt
  | (idx, name) :: rest => say (LineNumbered idx name) ;; say_numbered rest
  end.

(** The cache entry written after a successful installation. *)
Definition remember (platform : string) (manager : Manager)
  (package_name manager_name : string) : Task unit :=
  pkgs <- manager_list_packages platform manager ;;
  version <- evaluate (installed_version pkgs package_name) ;;
  package_cache.__init__ ;;
  package_cache.add_package package_name (or_empty version) manager_name ;;
  package_cache.close.

(** What [install_package] does after a scan that returned [True]. *)
Definition install_cleared (platform : string)
  (available_managers : list (string * Manager))
  (package_name manager_name : string) : Task unit :=
  manager <- evaluate (lookup_manager available_managers manager_name) ;;
  success <- manager_install_package platform manager package_name ;;
  if success
  then
    say_marked (LineInstalledVia package_name manager_name) ;;
    remember platform manager package_name manager_name
  else say_marked (LineInstallFailed package_name).

(** The scan, the installation and the cache entry: the block that both
    branches of [install_package] run once [manager_name] is known. *)
Definition scan_and_install (platform : string)
  (available_managers : list (string * Manager))
  (package_name manager_name : string) : Task unit :=
  cleared <- of_prog (cli._virustotal_scan package_name (Some manager_name)) ;;
  if negb cleared then Done tt
  else install_cleared platform available_managers package_name manager_name.

(** The clause [except (ValueError, IndexError)]. *)
Definition invalid_choice : exn -> option (Task unit) :=
  fun e =>
    if is_ValueError_or_IndexError e then Some (say LineInvalidChoice)
    else None.

(** The question and [names[int(choice) - 1]]. *)
Definition select_manager (names : list string) : Task string :=
  choice <- invoke (SelectManager (Z.of_nat (List.length names))) ;;
  idx <- evaluate (Py.int_of_str choice) ;;
  evaluate (py_index names (idx - 1)).

Definition install_package (platform : string)
  (available_managers : list (string * Manager))
  (package_name : string) (manager_name : option string) : Task unit :=
  if virustotal.truthy_opt manager_name
  then
    let manager_name := match manager_name with Some m => m | None => "" end in
    if negb (is_available_manager available_managers manager_name)
    then say (LineManagerNotAvailable manager_name)
    else scan_and_install platform available_managers package_name manager_name
  else
    say LineAvailableManagers ;;
    say_numbered (enumerate (map fst available_managers) 1) ;;
    try_catch
      (manager_name <- select_manager (map fst available_managers) ;;
       scan_and_install platform available_managers package_name manager_name)
      invalid_choice.

(** What [upgrade_package] and [update_package] do after a scan that
    returned [True]; [report] says whether the result of the manager is
    looked at, and the three lines are the ones of the command: [done] and
    [failed] start with a mark. *)
Definition upgrade_cleared (platform : string) (manager : Manager)
  (package_name : string) (report : bool) (done failed not_implemented : Line)
  : Task unit :=
  if has_upgrade_package manager
  then
    success <- manager_upgrade_package platform manager package_name ;;
    if report
    then (if success then say_marked done else say_marked failed)
    else Done tt
  else say not_implemented.

(** The manager object, the scan and the upgrade. *)
Definition scan_and_upgrade (platform : string)
  (available_managers : list (string * Manager))
  (package_name manager_name : string) (report : bool)
  (done failed not_implemented : Line) : Task unit :=
  manager <- evaluate (lookup_manager available_managers manager_name) ;;
  cleared <- of_prog (cli._virustotal_scan package_name (Some manager_name)) ;;
  if negb cleared then Done tt
  else upgrade_cleared platform manager package_name report
         done failed not_implemented.

Definition upgrade_package (platform : string)
  (available_managers : list (string * Manager))
  (package_name : string) (manager_name : option string) : Task unit :=
  if virustotal.truthy_opt manager_name
  then
    let manager_name := match manager_name with Some m => m | None => "" end in
    if negb (is_available_manager available_managers manager_name)
    then say (LineManagerNotAvailable manager_name)
    else scan_and_upgrade platform available_managers package_name
           manager_name true
           (LineUpgradedVia package_name manager_name)
           (LineUpgradeFailed package_name)
           (LineUpgradeNotImplemented manager_name)
  else
    say LineAvailableManagers ;;
    say_numbered (enumerate (map fst available_managers) 1) ;;
    try_catch
      (manager_name <- select_manager (map fst available_managers) ;;
       scan_and_upgrade platform available_managers package_name
         manager_name false
         (LineUpgradedVia package_name manager_name)
         (LineUpgradeFailed package_name)
         (LineUpgradeNotImplemented manager_name))
      invalid_choice.

(** [any(pkg['name'].lower() == package_name.lower() for pkg in packages)] *)
Fixpoint any_named (packages : list Package) (package_name : string)
  : Res bool :=
  match packages with
  | [] => Ok false
  | pkg :: rest =>
      match lower_method (pkg_name pkg) with
      | Err e => Err e
      | Ok lowered =>
          if String.eqb lowered (PyStr.lower package_name)
          then Ok true
          else any_named rest package_name
      end
  end.

(** The loop of [update_package] that collects [found_managers]. *)
Fixpoint detect (platform : string) (managers : list (string * Manager))
  (package_name : string) : Task (list string) :=
  match managers with
  | [] => Done []
  | (name, manager) :: rest =>
      packages <- manager_list_packages platform manager ;;
      found <- evaluate (any_named packages package_name) ;;
      others <- detect platform rest package_name ;;
      Done (if found then name :: others else others)
  end.

Definition update_package (platform : string)
  (available_managers : list (string * Manager))
  (package_name : string) : Task unit :=
  say (LineDetecting package_name) ;;
  found_managers <- detect platform available_managers package_name ;;
  match found_managers with
  | [] =>
      say (LineNotFound package_name) ;;
      say (LineTip package_name)
  | [manager_name] =>
      say (LineFoundIn package_name manager_name) ;;
      scan_and_upgrade platform available_managers package_name
        manager_name true
        (LineUpdatedVia package_name manager_name)
        (LineUpdateFailed package_name)
        (LineUpdateNotImplemented manager_name)
  | _ =>
      say (LineFoundInSeveral package_name) ;;
      say_numbered (enumerate found_managers 1) ;;
      try_catch
        (manager_name <- select_manager found_managers ;;
         scan_and_upgrade platform available_managers package_name
           manager_name false
           (LineUpdatedVia package_name manager_name)
           (LineUpdateFailed package_name)
           (LineUpdateNotImplemented manager_name))
        invalid_choice
  end.

End unified_cli.

(* ------------------------------------------------------------------------- *)
(** ** Observations on the steps of a command *)

(** The commands handed to [subprocess.run] by a manager, with
    [capture_output] and what came back. *)
Definition launched_by (s : Step)
  : list (list string * bool * Res CompletedProcess) :=
  match s with
  | St c x =>
      match c in Call X return X -> list (list string * bool * Res CompletedProcess) with
      | RunCommand cmd capture_output => fun r => [(cmd, capture_output, r)]
      | _ => fun _ => []
      end x
  end.
Definition launched (t : list Step)
  : list (list string * bool * Res CompletedProcess) :=
  flat_map launched_by t.

(** The commands a manager runs without capturing their output: the ones
    that install, update or upgrade. *)
Definition changing_commands (t : list Step) : list (list string) :=
  map (fun l => fst (fst l))
    (filter (fun l => negb (snd (fst l))) (launched t)).

(** The lines printed: a line with a mark counts when its [print]
    returned. *)
Definition said_by (s : Step) : list Line :=
  match s with
  | St c x =>
      match c in Call X return X -> list Line with
      | Say l => fun _ => [l]
      | SayMarked l => fun r => match r with Ok _ => [l] | Err _ => [] end
      | _ => fun _ => []
      end x
  end.
Definition said (t : list Step) : list Line := flat_map said_by t.

(** The lines with a mark handed to [print], with what [print] did. *)
Definition marked_by (s : Step) : list (Line * Res unit) :=
  match s with
  | St c x =>
      match c in Call X return X -> list (Line * Res unit) with
      | SayMarked l => fun r => [(l, r)]
      | _ => fun _ => []
      end x
  end.
Definition marked (t : list Step) : list (Line * Res unit) :=
  flat_map marked_by t.

(** The statements sent to the cache. *)
Definition statement_of (s : Step) : list Statement :=
  match s with
  | St (SqliteTransaction stmt) _ => [stmt]
  | _ => []
  end.
Definition statements (t : list Step) : list Statement :=
  flat_map statement_of t.

(** The look-ups of an executable on the path, with what they found. *)
Definition lookup_of (s : Step) : list (string * Res (option string)) :=
  match s with
  | St c x =>
      match c in Call X return X -> list (string * Res (option string)) with
      | Which command => fun found => [(command, found)]
      | _ => fun _ => []
      end x
  end.
Definition lookups (t : list Step) : list (string * Res (option string)) :=
  flat_map lookup_of t.

(** The steps of the scan and of [json.loads]. *)
Definition base_of (s : Step) : list Event :=
  match s with
  | St (Base c) x => [Ev c x]
  | _ => []
  end.
Definition base_events (t : list Step) : list Event := flat_map base_of t.

(** The questions put to the operator about the manager, with the answers. *)
Definition selection_of (s : Step) : list (Z * Res string) :=
  match s with
  | St c x =>
      match c in Call X return X -> list (Z * Res string) with
      | SelectManager n => fun r => [(n, r)]
      | _ => fun _ => []
      end x
  end.
Definition selections (t : list Step) : list (Z * Res string) :=
  flat_map selection_of t.

(* ------------------------------------------------------------------------- *)
(** ** Shapes of the executions of a command *)

(** The arguments of the command that upgrades a package. *)
Definition upgrade_args (manager : unified_cli.Manager) (package_name : string)
  : list string :=
  match manager with
  | unified_cli.NPMManager => ["update"; "-g"; package_name]
  | unified_cli.PipManager => ["install"; "--upgrade"; package_name]
  end.

(** The exception that leaves [_run_command] when [e] is raised inside its
    [try]: a [TimeoutExpired] and a [FileNotFoundError] are replaced by a
    plain [Exception], anything else goes through. *)
Definition run_command_error (e : exn) : exn :=
  if is_TimeoutExpired e || is_FileNotFoundError e then PlainException
  else e.

(** How [_run_command] ends after [subprocess.run] gave [r]. *)
Definition run_command_end (r : Res CompletedProcess)
  : Outcome CompletedProcess :=
  match r with
  | Ok p => Returned p
  | Err e => Raised (run_command_error e)
  end.

(** How a function that installs or upgrades ends.  Either nothing was
    launched (on Windows, when the tool is not on the path), or exactly one
    command was, without capture.  When the command ran, one line with a
    mark is handed to [print], [ok] after exit status 0 and [ko] otherwise,
    and the function returns whether the status was 0 when that [print]
    returned.  An [Exception] raised on the way, by the command or by that
    [print], gives [False]; anything else leaves the function. *)
Definition guarded_run (platform : string)
  (self : base_manager.BasePackageManager) (args : list string)
  (ok ko : Line) (t : list Step) (o : Outcome bool) : Prop :=
  statements t = [] /\ base_events t = [] /\ selections t = [] /\
  ((launched t = [] /\ String.eqb platform "win32" = true /\
    marked t = [] /\
    (o = Returned false \/
     exists e, o = Raised e /\ is_Exception e = false)) \/
   (exists head r,
      launched t = [(head :: args, false, r)] /\
      (String.eqb platform "win32" = false ->
       head = base_manager.command self) /\
      match r with
      | Ok p =>
          exists x,
            marked t = [(if returncode p =? 0 then ok else ko, x)] /\
            o = match x with
                | Ok _ => Returned (returncode p =? 0)
                | Err e => if is_Exception e then Returned false else Raised e
                end
      | Err e =>
          marked t = [] /\
          o = if is_Exception e then Returned false else Raised e
      end)).

(** What the cache is sent: nothing, the table alone, or the table and one
    row for the package, whose version is [''] or a truthy value. *)
Definition cache_entry (package_name manager_name : string)
  (l : list Statement) : Prop :=
  l = [] \/ l = [CreateTable] \/
  exists version,
    l = [CreateTable; InsertOrIgnore package_name version manager_name] /\
    (version = JStr "" \/ Py.truthy version = true).

(** [t] is a complete run of the scan of [package_name] for [manager_name]
    followed by [rest]; [rest] is empty unless the scan returned [True], and
    the command ends as [o] does. *)
Definition scan_then (package_name manager_name : string)
  (R : list Step -> Outcome unit -> Prop)
  (t : list Step) (o : Outcome unit) : Prop :=
  exists ts verdict rest,
    exec (cli._virustotal_scan package_name (Some manager_name)) ts verdict /\
    t = (map base ts ++ rest)%list /\
    match verdict with
    | Returned true => R rest o
    | Returned false => rest = [] /\ o = Returned tt
    | Raised e => rest = [] /\ o = Raised e
    end.

(** The steps of [install_package] after a scan that returned [True]:
    at most one command that changes packages, the installation; the cache
    is written only when it exited with status 0. *)
Definition installation (platform : string)
  (available_managers : list (string * unified_cli.Manager))
  (package_name manager_name : string)
  (t : list Step) (o : Outcome unit) : Prop :=
  selections t = [] /\
  ((changing_commands t = [] /\ statements t = []) \/
   (exists manager head r more,
      unified_cli.lookup_manager available_managers manager_name
      = Ok manager /\
      launched t = ((head :: ["install"; package_name], false, r) :: more)%list /\
      (String.eqb platform "win32" = false ->
       head = base_manager.command (unified_cli.fields manager)) /\
      changing_commands t = [head :: ["install"; package_name]] /\
      cache_entry package_name manager_name (statements t) /\
      (statements t <> [] -> exists p, r = Ok p /\ returncode p = 0))).

(** The steps of an upgrade after a scan that returned [True]: at most one
    command that changes packages, and nothing for the cache. *)
Definition upgrade (platform : string) (manager : unified_cli.Manager)
  (package_name : string) (t : list Step) (o : Outcome unit) : Prop :=
  selections t = [] /\ statements t = [] /\ base_events t = [] /\
  (changing_commands t = [] \/
   exists head,
     changing_commands t = [head :: upgrade_args manager package_name] /\
     (String.eqb platform "win32" = false ->
      head = base_manager.command (unified_cli.fields manager))).

(** A command that ran and exited with status 0. *)
Definition exited_zero (r : Res CompletedProcess) : bool :=
  match r with
  | Ok p => returncode p =? 0
  | Err _ => false
  end.

(** The manager [names[int(choice) - 1]] picks for an answer at the
    prompt. *)
Definition selected (names : list string) (reply : Res string) : Res string :=
  match reply with
  | Err e => Err e
  | Ok choice =>
      match Py.int_of_str choice with
      | Err e => Err e
      | Ok idx => py_index names (idx - 1)
      end
  end.

(** The clause [except (ValueError, IndexError)] around steps [body] that
    ended as [o']: the steps [rest] and the end [o] of the whole. *)
Definition caught (body : list Step) (o' : Outcome unit)
  (rest : list Step) (o : Outcome unit) : Prop :=
  match o' with
  | Raised e =>
      if is_ValueError_or_IndexError e
      then rest = (body ++ [St (Say LineInvalidChoice) tt])%list /\
           o = Returned tt
      else rest = body /\ o = o'
  | Returned _ => rest = body /\ o = o'
  end.

(** An execution that asks for the manager among [names] and goes on as
    [R] says with the one picked. *)
Definition chosen (names : list string)
  (R : string -> list Step -> Outcome unit -> Prop)
  (t : list Step) (o : Outcome unit) : Prop :=
  exists reply rest,
    t = St (SelectManager (Z.of_nat (List.length names))) reply :: rest /\
    match selected names reply with
    | Err e => caught [] (Raised e) rest o
    | Ok manager_name =>
        exists body o', R manager_name body o' /\ caught body o' rest o
    end.

(** Steps that only print. *)
Definition only_says (t : list Step) : Prop :=
  launched t = [] /\ statements t = [] /\ base_events t = [] /\
  selections t = [].

(* ------------------------------------------------------------------------- *)
(** ** Hosts for the commands *)

Record Host : Type :=
  { h_world : World;
    h_which : Res (option string);
    h_run : list string -> bool -> Res CompletedProcess;
    h_select : Res string;
    h_sqlite : Statement -> Res unit }.

(** What the standard output does with a line that starts with a mark and
    with a line of the scan. *)
Record Console : Type :=
  { c_marked : Line -> Res unit;
    c_print : Msg -> Res unit }.

(** A console that takes every line. *)
Definition utf8_console : Console :=
  {| c_marked := fun _ => Ok tt; c_print := fun _ => Ok tt |}.

(** A standard output encoded in cp1252: the three marks are not in its
    character set. *)
Definition cp1252_console : Console :=
  {| c_marked := fun _ => Err UnicodeEncodeError; c_print := fun _ => Ok tt |}.

(** A standard output that is closed: [print] raises [ValueError]. *)
Definition closed_console : Console :=
  {| c_marked := fun _ => Err ValueError; c_print := fun _ => Err ValueError |}.

Definition reply_on (console : Console) : Replier Host :=
  fun X c h =>
    match c in Call X return X * Host with
    | Base c' =>
        let '(x, w) := answer c' (h_world h) in
        (x, {| h_world := w; h_which := h_which h; h_run := h_run h;
               h_select := h_select h; h_sqlite := h_sqlite h |})
    | Which _ => (h_which h, h)
    | RunCommand cmd capture_output => (h_run h cmd capture_output, h)
    | Say _ => (tt, h)
    | SayMarked l => (c_marked console l, h)
    | PrintLine m => (c_print console m, h)
    | SelectManager _ => (h_select h, h)
    | SqliteConnect => (Ok tt, h)
    | SqliteTransaction s => (h_sqlite h s, h)
    | SqliteClose => (Ok tt, h)
    end.

Definition reply : Replier Host := reply_on utf8_console.

Definition steps_of {A W : Type} (r : list Step * Outcome A * W) : list Step :=
  fst (fst r).
Definition result_of {A W : Type} (r : list Step * Outcome A * W)
  : Outcome A :=
  snd (fst r).

(** A host where every command of a manager exits with [status] and prints
    [out], on top of world [w]; the operator picks [choice]. *)
Definition host (w : World) (status : Z) (out : string) (choice : Res string)
  : Host :=
  {| h_world := w;
     h_which := Ok None;
     h_run := fun _ _ => Ok {| returncode := status; stdout := out |};
     h_select := choice;
     h_sqlite := fun _ => Ok tt |}.

Local Close Scope task_scope.
Set Implicit Arguments.

(* ------------------------------------------------------------------------- *)
(** ** The semantics: [exec], [run] and [wp] agree *)

Local Open Scope list_scope.

Lemma wp_bind {A B : Type} (m : Prog A) (f : A -> Prog B)
  (Q : list Event -> Outcome B -> Prop) :
  wp m (fun t1 o1 =>
    match o1 with
    | Returned a => wp (f a) (fun t2 o => Q (t1 ++ t2) o)
    | Raised e => Q t1 (Raised e)
    end) ->
  wp (bind m f) Q.
Proof.
  revert Q; induction m as [a | e | X c k IH]; intros Q; simpl.
  - trivial.
  - trivial.
  - intros H x. apply IH. exact (H x).
Qed.

Section Semantics.

Context {A : Type}.

Lemma wp_exec (p : Prog A) (Q : list Event -> Outcome A -> Prop) :
  wp p Q <-> (forall t o, exec p t o -> Q t o).
Proof.
  revert Q; induction p as [a | e | X c k IH]; intros Q; simpl.
  - split.
    + intros HQ t o [-> ->]; exact HQ.
    + intros H; apply H; split; reflexivity.
  - split.
    + intros HQ t o [-> ->]; exact HQ.
    + intros H; apply H; split; reflexivity.
  - split.
    + intros H t o (x & t' & -> & Hex).
      specialize (H x). rewrite IH in H. exact (H t' o Hex).
    + intros H x. rewrite IH. intros t o Hex.
      apply H. exists x, t. split; [reflexivity | exact Hex].
Qed.

Lemma wp_mono (p : Prog A) (Q Q' : list Event -> Outcome A -> Prop) :
  (forall t o, Q t o -> Q' t o) -> wp p Q -> wp p Q'.
Proof.
  intros HQ H. rewrite wp_exec in *. intros t o Hex. apply HQ, H, Hex.
Qed.

(** Every program ends, whatever the environment answers: the run against a
    handler is an execution. *)
Lemma run_exec {W : Type} (h : Handler W) (p : Prog A) (w : W) :
  exec p (trace_of (run h p w)) (outcome_of (run h p w)).
Proof.
  revert w; induction p as [a | e | X c k IH]; intros w; simpl.
  - split; reflexivity.
  - split; reflexivity.
  - destruct (h X c w) as [x w1] eqn:Hh.
    specialize (IH x w1).
    destruct (run h (k x) w1) as [[t o] w2] eqn:Hr.
    exists x, t. split; [reflexivity | exact IH].
Qed.

Lemma wp_try_except (body : Prog A) (handler : exn -> Prog A)
  (Q : list Event -> Outcome A -> Prop) :
  wp body (fun t1 o1 =>
    match o1 with
    | Returned a => Q t1 (Returned a)
    | Raised e =>
        if is_Exception e
        then wp (handler e) (fun t2 o => Q (t1 ++ t2) o)
        else Q t1 (Raised e)
    end) ->
  wp (try_except body handler) Q.
Proof.
  revert Q; induction body as [a | e | X c k IH]; intros Q; simpl.
  - trivial.
  - destruct (is_Exception e); trivial.
  - intros H x. apply IH. exact (H x).
Qed.

End Semantics.

Lemma wp_try_finally {A : Type} (body : Prog A) (cleanup : Prog unit)
  (Q : list Event -> Outcome A -> Prop) :
  wp body (fun t1 o1 =>
    wp cleanup (fun t2 o2 =>
      match o2 with
      | Returned _ => Q (t1 ++ t2) o1
      | Raised e => Q (t1 ++ t2) (Raised e)
      end)) ->
  wp (try_finally body cleanup) Q.
Proof.
  revert Q; induction body as [a | e | X c k IH]; intros Q; simpl.
  - intros H. apply wp_bind. revert H. apply wp_mono.
    intros t [u | e]; simpl; rewrite ?app_nil_r; auto.
  - intros H. apply wp_bind. revert H. apply wp_mono.
    intros t [u | e']; simpl; rewrite ?app_nil_r; auto.
  - intros H x. apply IH. exact (H x).
Qed.



(* ------------------------------------------------------------------------- *)
(** ** The Python helpers on small inputs *)

Example strip_lower_yes : PyStr.lower (PyStr.strip "  Y ") = "y"%string.
Proof. reflexivity. Qed.

Example says_yes_only_y :
  says_yes "y" = true /\ says_yes " Y" = true /\ says_yes "" = false /\
  says_yes "yes" = false /\ says_yes "n" = false.
Proof. repeat split. Qed.

Example quote_scoped_name :
  PyStr.quote "@scope/na me+x" = "@scope/na%20me%2Bx"%string.
Proof. reflexivity. Qed.

Example splitlines_last :
  PyStr.splitlines "npm notice" = ["npm notice"%string] /\
  rev (PyStr.splitlines (String "a" (String "010" (String "b" EmptyString))))
  = ["b"; "a"]%string.
Proof. split; reflexivity. Qed.

Example int_of_objects :
  Py.int (JInt 3) = Ok 3 /\ Py.int (JStr " -1_000 ") = Ok (-1000) /\
  Py.int (JFloat (FFin (-7 # 2))) = Ok (-3) /\ Py.int JNull = Err TypeError /\
  Py.int (JStr "three") = Err ValueError.
Proof. repeat split. Qed.

(** [int()] does not skip the separator U+001F, which [str.strip] removes,
    and refuses a string of more than 4300 digits. *)
Example int_of_str_edges :
  let unit_separator := String (PyStr.chr 31) EmptyString in
  PyStr.strip (unit_separator ++ "1") = "1"%string /\
  Py.int_of_str (unit_separator ++ "1") = Err ValueError /\
  Py.int_of_str (String (PyStr.chr 160) "+1_0 ") = Ok 10 /\
  Py.int_of_str "1__0" = Err ValueError /\
  Py.int_of_str "" = Err ValueError /\
  Py.int_of_str (PyStr.of_chars (repeat "1"%char 4301)) = Err ValueError /\
  Py.int_of_str (PyStr.of_chars (repeat "0"%char 4300)) = Ok 0.
Proof. vm_compute. repeat split. Qed.

Example found_stats_of_body :
  found_stats (stats_body 1 5 60 4) = Some (1, 5, 60, 4) /\
  found_stats (JDict [("error", JInt 404); ("message", JStr "not found")]) = None.
Proof. split; reflexivity. Qed.

(* ------------------------------------------------------------------------- *)
(** ** Which calls a program can make *)

Section Calls.

Variable P : forall X : Type, Ext X -> Prop.

Lemma calls_in_bind {A B : Type} (m : Prog A) (f : A -> Prog B) :
  calls_in P m -> (forall a, calls_in P (f a)) -> calls_in P (bind m f).
Proof.
  intros Hm Hf; induction m as [a | e | X c k IH]; simpl in *.
  - apply Hf.
  - exact I.
  - destruct Hm as [Hc Hk]. split; [exact Hc | intros x; apply IH, Hk].
Qed.

Lemma calls_in_try_except {A : Type} (body : Prog A) (handler : exn -> Prog A) :
  calls_in P body -> (forall e, calls_in P (handler e)) ->
  calls_in P (try_except body handler).
Proof.
  intros Hb Hh; induction body as [a | e | X c k IH]; simpl in *.
  - exact I.
  - destruct (is_Exception e); [apply Hh | exact I].
  - destruct Hb as [Hc Hk]. split; [exact Hc | intros x; apply IH, Hk].
Qed.

Lemma calls_in_try_finally {A : Type} (body : Prog A) (cleanup : Prog unit) :
  calls_in P body -> calls_in P cleanup ->
  calls_in P (try_finally body cleanup).
Proof.
  intros Hb Hc; induction body as [a | e | X c k IH]; simpl in *.
  - apply calls_in_bind; [exact Hc | intros; exact I].
  - apply calls_in_bind; [exact Hc | intros; exact I].
  - destruct Hb as [Hc' Hk]. split; [exact Hc' | intros x; apply IH, Hk].
Qed.

Lemma calls_in_wp {A : Type} (p : Prog A) :
  calls_in P p -> wp p (fun t _ => Forall (event_call P) t).
Proof.
  induction p as [a | e | X c k IH]; simpl.
  - intros _; constructor.
  - intros _; constructor.
  - intros [Hc Hk] x. specialize (IH x (Hk x)). revert IH. apply wp_mono.
    intros t _ Ht. constructor; [exact Hc | exact Ht].
Qed.

End Calls.

Ltac calls_step :=
  first
    [ exact I
    | apply calls_in_bind
    | apply calls_in_try_except
    | apply calls_in_try_finally
    | match goal with
      | |- _ /\ _ => split
      | |- forall _, _ => intro
      | |- calls_in _ (match ?x with _ => _ end) => destruct x
      | |- calls_in _ (if ?b then _ else _) => destruct b
      | |- calls_in _ (call _) => unfold call; simpl
      | |- calls_in _ (ask _) => unfold ask; simpl
      end ].

Lemma first_file_hash_calls (P : forall X : Type, Ext X -> Prop)
  (tmpdir : string) (names : list string) :
  (forall p, P _ (IsFile p)) -> (forall p, P _ (Sha256File p)) ->
  calls_in P (virustotal.first_file_hash tmpdir names).
Proof.
  intros Hf Hs; induction names as [| fname rest IH]; simpl.
  - exact I.
  - split; [apply Hf |]. intros [|]; [| exact IH].
    simpl. split; [apply Hs |]. intros [h | e]; exact I.
Qed.

(** The resolver makes no call of the scan's own: no print, no prompt, no
    request to the reputation service. *)
Lemma resolver_calls (package_name manager : string) :
  calls_in resolver_call
    (virustotal.download_package_and_get_hash package_name manager).
Proof.
  unfold virustotal.download_package_and_get_hash,
    virustotal.artifact_hash_in, virustotal.remove_scratch,
    virustotal._download_pip_artifact, virustotal.npm_artifact_hash,
    virustotal.npm_after_metadata,
    virustotal._get_npm_registry, virustotal._get_npm_metadata,
    virustotal._get_npm_latest_tarball_from_registry,
    virustotal._construct_npm_tarball_url, virustotal._download_npm_tarball,
    virustotal._npm_pack_fallback, virustotal.calculate_file_hash.
  repeat first
    [ apply first_file_hash_calls; intros; exact I
    | calls_step ].
Qed.

(* ------------------------------------------------------------------------- *)
(** ** Observations distribute over a trace *)

Lemma printed_app (t1 t2 : list Event) :
  printed (t1 ++ t2) = printed t1 ++ printed t2.
Proof. apply flat_map_app. Qed.

Lemma prompts_app (t1 t2 : list Event) :
  prompts (t1 ++ t2) = prompts t1 ++ prompts t2.
Proof. apply flat_map_app. Qed.

Lemma vt_replies_app (t1 t2 : list Event) :
  vt_replies (t1 ++ t2) = vt_replies t1 ++ vt_replies t2.
Proof. apply flat_map_app. Qed.

Lemma flat_map_silent {B : Type} (f : Event -> list B)
  (P : forall X : Type, Ext X -> Prop) (t : list Event) :
  (forall ev, event_call P ev -> f ev = []) ->
  Forall (event_call P) t -> flat_map f t = [].
Proof.
  intros Hf Ht; induction Ht as [| ev t Hev _ IH]; simpl.
  - reflexivity.
  - rewrite (Hf ev Hev), IH. reflexivity.
Qed.

Lemma resolver_trace_silent (t : list Event) :
  Forall (event_call resolver_call) t ->
  printed t = [] /\ prompts t = [] /\ vt_replies t = [].
Proof.
  intros Ht; repeat split;
    (apply flat_map_silent with (P := resolver_call); [| exact Ht]);
    intros [X c x]; destruct c; simpl; try tauto;
    destruct headers; simpl; tauto.
Qed.

Lemma wp_try_except_bind {A B : Type} (m : Prog A) (f : A -> Prog B)
  (handler : exn -> Prog B) (Q : list Event -> Outcome B -> Prop) :
  wp m (fun t1 o1 =>
    match o1 with
    | Returned a => wp (try_except (f a) handler) (fun t2 o => Q (t1 ++ t2) o)
    | Raised e =>
        if is_Exception e
        then wp (handler e) (fun t2 o => Q (t1 ++ t2) o)
        else Q t1 (Raised e)
    end) ->
  wp (try_except (bind m f) handler) Q.
Proof.
  revert Q; induction m as [a | e | X c k IH]; intros Q; simpl.
  - trivial.
  - destruct (is_Exception e); trivial.
  - intros H x. apply IH. exact (H x).
Qed.

Lemma remainder_calls (package_name : string) (s : cli.Stage) :
  calls_in not_a_request (cli.remainder package_name s).
Proof.
  destruct s as [| resp | e];
    unfold cli.remainder, cli.after_no_artifact, cli.after_reply,
      virustotal.decode_reply, cli.report, cli.confirm,
      cli.read_choice, cli.on_exception, cli.as_dict, cli.stat_required,
      cli.stat_optional, cli.lift, print;
    repeat calls_step.
Qed.

Lemma not_a_request_silent (t : list Event) :
  Forall (event_call not_a_request) t -> vt_replies t = [].
Proof.
  apply flat_map_silent. intros [X c x]; destruct c; simpl; tauto.
Qed.

Lemma remainder_silent (package_name : string) (s : cli.Stage)
  (t : list Event) (o : Outcome bool) :
  exec (cli.remainder package_name s) t o -> vt_replies t = [].
Proof.
  intros Hex. apply not_a_request_silent.
  exact (proj1 (wp_exec _ _)
           (@calls_in_wp _ _ _ (remainder_calls package_name s)) t o Hex).
Qed.

(** Every execution of the scan is a silent opening (the resolver, the hash
    and the query lines, the query itself) followed by one of three
    remainders. *)
Lemma scan_stages (package_name : string) (manager_name : option string)
  (t : list Event) (o : Outcome bool) :
  exec (cli._virustotal_scan package_name manager_name) t o ->
  exists pre s post,
    t = pre ++ post /\ prompts pre = [] /\ Forall opening_line (printed pre) /\
    replies_at s (vt_replies pre) /\
    exec (cli.remainder package_name s) post o.
Proof.
  intros Hex. pattern t, o. revert t o Hex.
  apply (proj1 (wp_exec (cli._virustotal_scan package_name manager_name) _)).
  unfold cli._virustotal_scan, cli.scan_body.
  pose proof (@calls_in_wp _ _ _ (resolver_calls package_name
                (cli.or_default manager_name "pip3"))) as Hdl.
  remember (virustotal.download_package_and_get_hash _ _) as dl eqn:Edl.
  clear Edl. simpl. intros [].
  apply wp_try_except_bind. revert Hdl.
  apply wp_mono. intros t1 o1 Hs.
  destruct (resolver_trace_silent Hs) as (Hpr & Hpm & Hvt).
  destruct o1 as [fh | e].
  - destruct (virustotal.truthy_opt fh) eqn:Hfh.
    + simpl. intros u1 u2 key.
      destruct (negb (virustotal.truthy_opt key)); simpl; [intros u3 |];
        intros [r | e]; simpl.
      * apply wp_exec. intros t o Hex.
        match goal with
        | |- exists pre s post, ?a :: t1 ++ ?b :: ?c :: ?d :: ?g :: ?f :: t = _ /\ _ =>
            exists (a :: t1 ++ [b; c; d; g; f]), (cli.Replied r), t
        end.
        simpl. rewrite <- app_assoc, prompts_app, printed_app, vt_replies_app,
          Hpm, Hpr, Hvt. simpl.
        repeat split; [repeat constructor | exact Hex].
      * apply wp_exec. intros t o Hex.
        match goal with
        | |- exists pre s post, ?a :: t1 ++ ?b :: ?c :: ?d :: ?g :: ?f :: t = _ /\ _ =>
            exists (a :: t1 ++ [b; c; d; g; f]), (cli.Failed e), t
        end.
        simpl. rewrite <- app_assoc, prompts_app, printed_app, vt_replies_app,
          Hpm, Hpr, Hvt. simpl.
        repeat split; [repeat constructor | right; reflexivity | exact Hex].
      * apply wp_exec. intros t o Hex.
        match goal with
        | |- exists pre s post, ?a :: t1 ++ ?b :: ?c :: ?d :: ?g :: t = _ /\ _ =>
            exists (a :: t1 ++ [b; c; d; g]), (cli.Replied r), t
        end.
        simpl. rewrite <- app_assoc, prompts_app, printed_app, vt_replies_app,
          Hpm, Hpr, Hvt. simpl.
        repeat split; [repeat constructor | exact Hex].
      * apply wp_exec. intros t o Hex.
        match goal with
        | |- exists pre s post, ?a :: t1 ++ ?b :: ?c :: ?d :: ?g :: t = _ /\ _ =>
            exists (a :: t1 ++ [b; c; d; g]), (cli.Failed e), t
        end.
        simpl. rewrite <- app_assoc, prompts_app, printed_app, vt_replies_app,
          Hpm, Hpr, Hvt. simpl.
        repeat split; [repeat constructor | right; reflexivity | exact Hex].
    + apply wp_exec. intros t o Hex.
      match goal with
      | |- exists pre s post, ?a :: t1 ++ t = _ /\ _ =>
          exists (a :: t1), cli.NoArtifact, t
      end.
      simpl. rewrite Hpm, Hpr, Hvt.
      repeat split; [repeat constructor | ].
      exact Hex.
  - destruct (is_Exception e) eqn:He.
    + apply wp_exec. intros t o Hex.
      match goal with
      | |- exists pre s post, ?a :: t1 ++ t = _ /\ _ =>
          exists (a :: t1), (cli.Failed e), t
      end.
      simpl. rewrite Hpm, Hpr, Hvt, He.
      repeat split; [repeat constructor | left; reflexivity | exact Hex].
    + match goal with
      | |- exists pre s post, ?a :: t1 = _ /\ _ =>
          exists (a :: t1), (cli.Failed e), []
      end.
      simpl. rewrite Hpm, Hpr, Hvt, He, app_nil_r.
      repeat split; [repeat constructor | left; reflexivity].
Qed.

(* ------------------------------------------------------------------------- *)
(** ** The report, by shape of the answer *)

Lemma lookup_nonempty (d : list (string * JSON)) (k : string) (v : JSON) :
  Py.lookup d k = Some v -> Py.truthy (JDict d) = true.
Proof. destruct d; [discriminate | reflexivity]. Qed.

(** On a [Found] body the report is the table followed by the three-way
    test on the counts. *)
Lemma report_found (package_name : string) (result : JSON) (m s h u : Z) :
  found_stats result = Some (m, s, h, u) ->
  cli.report package_name result =
  (print (MsgStatsTable m s h u) ;;
   if m >? 0
   then print (MsgMalicious package_name) ;; Ret false
   else if s >? 0
   then print (MsgSuspicious s package_name) ;;
        cli.confirm PromptInstallAnyway MsgProceedDespiteSuspicious
   else print MsgClean ;; Ret true)%prog.
Proof.
  unfold found_stats. intros H.
  destruct result as [| | | | | | rd]; try discriminate.
  destruct (Py.lookup rd "data") as [[| | | | | | dd] |] eqn:E1; try discriminate.
  destruct (Py.lookup dd "attributes") as [[| | | | | | ad] |] eqn:E2;
    try discriminate.
  destruct (Py.lookup ad "last_analysis_stats") as [[| | | | | | sd] |] eqn:E3;
    try discriminate.
  destruct (Py.lookup sd "malicious") as [[| | m' | | | |] |] eqn:E4;
    try discriminate.
  destruct (Py.lookup sd "suspicious") as [[| | s' | | | |] |] eqn:E5;
    try discriminate.
  destruct (Py.lookup sd "harmless") as [[| | h' | | | |] |] eqn:E6;
    try discriminate.
  destruct (Py.lookup sd "undetected") as [[| | u' | | | |] |] eqn:E7;
    try discriminate.
  injection H as -> -> -> ->.
  unfold cli.report, cli.analysis_data, cli.get_or_empty, cli.stat_required,
    cli.stat_optional, Py.get, Py.get_default, Py.contains, Py.or_empty_dict.
  rewrite E1, (lookup_nonempty _ _ E2). simpl.
  rewrite E2, (lookup_nonempty _ _ E3). simpl.
  rewrite E3, (lookup_nonempty _ _ E4). simpl.
  rewrite E4, E5, E6, E7. simpl. reflexivity.
Qed.

Lemma after_reply_found (package_name : string) (resp : Response)
  (m s h u : Z) :
  Found resp m s h u ->
  cli.after_reply package_name resp =
  try_except
    (print (MsgStatsTable m s h u) ;;
     if m >? 0
     then print (MsgMalicious package_name) ;; Ret false
     else if s >? 0
     then print (MsgSuspicious s package_name) ;;
          cli.confirm PromptInstallAnyway MsgProceedDespiteSuspicious
     else print MsgClean ;; Ret true)%prog
    cli.on_exception.
Proof.
  intros (Hst & result & Hjs & Hf).
  unfold cli.after_reply, virustotal.decode_reply.
  rewrite Hst, Hjs. simpl. rewrite (report_found package_name _ Hf).
  reflexivity.
Qed.


(* ------------------------------------------------------------------------- *)
(** ** The verdict *)

Lemma scan_replied (package_name : string) (manager_name : option string)
  (t : list Event) (o : Outcome bool) (resp : Response) :
  exec (cli._virustotal_scan package_name manager_name) t o ->
  In (Ok resp) (vt_replies t) ->
  exists pre post,
    t = pre ++ post /\ prompts pre = [] /\ Forall opening_line (printed pre) /\
    exec (cli.after_reply package_name resp) post o.
Proof.
  intros Hex Hin.
  destruct (@scan_stages _ _ _ _ Hex) as (pre & s & post & -> & Hpm & Hpr & Hat & Hrem).
  rewrite vt_replies_app, (@remainder_silent _ _ _ _ Hrem), app_nil_r in Hin.
  destruct s as [| r | e]; simpl in Hat.
  - rewrite Hat in Hin. destruct Hin.
  - rewrite Hat in Hin. destruct Hin as [Heq | []]. injection Heq as ->.
    exists pre, post. repeat split; assumption.
  - destruct Hat as [Hat | Hat]; rewrite Hat in Hin.
    + destruct Hin.
    + destruct Hin as [Heq | []]. discriminate Heq.
Qed.

Lemma opening_not (pre : list Event) (m : Msg) :
  Forall opening_line (printed pre) -> ~ opening_line m -> ~ In m (printed pre).
Proof.
  intros Hall Hm Hin. rewrite Forall_forall in Hall. exact (Hm (Hall m Hin)).
Qed.

(** C1.  When the reputation service answers [Found] with [malicious > 0],
    the scan takes the Block branch whatever the suspicious, harmless and
    undetected counts are: it prints the malicious line and returns [False];
    the suspicious warning and the clean line are never printed. *)
Theorem malicious_blocks (package_name : string) (manager_name : option string)
  (t : list Event) (o : Outcome bool) (resp : Response) (m s h u : Z) :
  exec (cli._virustotal_scan package_name manager_name) t o ->
  In (Ok resp) (vt_replies t) ->
  Found resp m s h u ->
  0 < m ->
  o = Returned false /\
  In (MsgMalicious package_name) (printed t) /\
  (forall n p, ~ In (MsgSuspicious n p) (printed t)) /\
  ~ In MsgClean (printed t).
Proof.
  intros Hex Hin Hf Hm.
  destruct (@scan_replied _ _ _ _ _ Hex Hin) as (pre & post & -> & Hpm & Hpr & Hpost).
  rewrite (@after_reply_found package_name _ _ _ _ _ Hf) in Hpost.
  destruct (Z.gtb_spec m 0); [| lia].
  simpl in Hpost.
  destruct Hpost as ([] & t1 & -> & [] & t2 & -> & -> & ->).
  rewrite printed_app. simpl.
  split; [reflexivity |]. split; [| split].
  - apply in_or_app. right. simpl. auto.
  - intros n p Hn. apply in_app_or in Hn. destruct Hn as [Hn | Hn].
    + revert Hn. apply opening_not; [exact Hpr | simpl; tauto].
    + simpl in Hn. destruct Hn as [Hn | [Hn | []]]; discriminate Hn.
  - intros Hn. apply in_app_or in Hn. destruct Hn as [Hn | Hn].
    + revert Hn. apply opening_not; [exact Hpr | simpl; tauto].
    + simpl in Hn. destruct Hn as [Hn | [Hn | []]]; discriminate Hn.
Qed.

(** A prompt inside the scan: one [input], then one closing line. *)
Lemma confirm_exec (p : Prompt) (proceeding : Msg) (t : list Event)
  (o : Outcome bool) :
  closing_line proceeding ->
  exec (try_except (cli.confirm p proceeding) cli.on_exception) t o ->
  exists answer rest,
    t = Ev (Input p) answer :: rest /\ prompts rest = [] /\
    Forall closing_line (printed rest) /\ o = decision_after answer.
Proof.
  intros Hc Hex. simpl in Hex. destruct Hex as (answer & rest & -> & Hex).
  exists answer, rest. split; [reflexivity |].
  destruct answer as [r | e]; simpl in Hex.
  - unfold decision_after, says_yes.
    destruct (String.eqb (PyStr.lower (PyStr.strip r)) "y"); simpl in Hex;
      destruct Hex as ([] & t' & -> & -> & ->); simpl;
      repeat split; repeat constructor; assumption.
  - unfold decision_after. destruct (is_Exception e); simpl in Hex.
    + destruct Hex as ([] & t' & -> & -> & ->); simpl.
      repeat split; repeat constructor.
    + destruct Hex as (-> & ->). simpl. repeat split; constructor.
Qed.

Lemma closing_not (rest : list Event) (m : Msg) :
  Forall closing_line (printed rest) -> ~ closing_line m -> ~ In m (printed rest).
Proof.
  intros Hall Hm Hin. rewrite Forall_forall in Hall. exact (Hm (Hall m Hin)).
Qed.

(** C2.  When the reputation service answers [Found] with [malicious = 0]
    and [suspicious > 0], the scan takes the warning branch: it prints the
    warning that carries the suspicious count and asks the operator whether to
    install anyway; neither the malicious line nor the clean line is
    printed, and the value returned is the one the operator's answer gives. *)
Theorem suspicious_warns (package_name : string) (manager_name : option string)
  (t : list Event) (o : Outcome bool) (resp : Response) (s h u : Z) :
  exec (cli._virustotal_scan package_name manager_name) t o ->
  In (Ok resp) (vt_replies t) ->
  Found resp 0 s h u ->
  0 < s ->
  In (MsgSuspicious s package_name) (printed t) /\
  (exists answer,
      prompts t = [(PromptInstallAnyway, answer)] /\ o = decision_after answer) /\
  (forall p, ~ In (MsgMalicious p) (printed t)) /\
  ~ In MsgClean (printed t).
Proof.
  intros Hex Hin Hf Hs.
  destruct (@scan_replied _ _ _ _ _ Hex Hin) as (pre & post & -> & Hpm & Hpr & Hpost).
  rewrite (@after_reply_found package_name _ _ _ _ _ Hf) in Hpost.
  destruct (Z.gtb_spec s 0); [| lia].
  simpl in Hpost.
  destruct Hpost as ([] & t1 & -> & [] & t2 & -> & Hpost).
  apply confirm_exec in Hpost; [| exact I].
  destruct Hpost as (answer & rest & -> & Hrp & Hrc & ->).
  rewrite printed_app, prompts_app, Hpm. simpl.
  fold (prompts rest). fold (printed rest). rewrite Hrp.
  split; [apply in_or_app; right; simpl; auto |].
  split; [exists answer; split; reflexivity |].
  split.
  - intros p Hn. apply in_app_or in Hn. destruct Hn as [Hn | Hn].
    + revert Hn. apply opening_not; [exact Hpr | simpl; tauto].
    + simpl in Hn. destruct Hn as [Hn | [Hn | Hn]]; try discriminate Hn.
      revert Hn. apply closing_not; [exact Hrc | simpl; tauto].
  - intros Hn. apply in_app_or in Hn. destruct Hn as [Hn | Hn].
    + revert Hn. apply opening_not; [exact Hpr | simpl; tauto].
    + simpl in Hn. destruct Hn as [Hn | [Hn | Hn]]; try discriminate Hn.
      revert Hn. apply closing_not; [exact Hrc | simpl; tauto].
Qed.

(** C3.  When the reputation service answers [Found] with [malicious = 0]
    and [suspicious = 0], the scan takes the Allow branch: it prints the
    clean line, issues no operator prompt at all, and returns [True]. *)
Theorem clean_allows (package_name : string) (manager_name : option string)
  (t : list Event) (o : Outcome bool) (resp : Response) (h u : Z) :
  exec (cli._virustotal_scan package_name manager_name) t o ->
  In (Ok resp) (vt_replies t) ->
  Found resp 0 0 h u ->
  o = Returned true /\ prompts t = [] /\ In MsgClean (printed t).
Proof.
  intros Hex Hin Hf.
  destruct (@scan_replied _ _ _ _ _ Hex Hin) as (pre & post & -> & Hpm & Hpr & Hpost).
  rewrite (@after_reply_found package_name _ _ _ _ _ Hf) in Hpost.
  simpl in Hpost.
  destruct Hpost as ([] & t1 & -> & [] & t2 & -> & -> & ->).
  rewrite printed_app, prompts_app, Hpm. simpl.
  repeat split. apply in_or_app. right. simpl. auto.
Qed.


(** C5 (as the code has it).  When the reputation service answers [Found]
    with [malicious > 0], the scan issues no operator prompt at all and
    returns [False]: no answer of the operator can turn a Block into a
    proceed. *)
Theorem malicious_never_prompts (package_name : string)
  (manager_name : option string) (t : list Event) (o : Outcome bool)
  (resp : Response) (m s h u : Z) :
  exec (cli._virustotal_scan package_name manager_name) t o ->
  In (Ok resp) (vt_replies t) ->
  Found resp m s h u ->
  0 < m ->
  prompts t = [] /\ o = Returned false.
Proof.
  intros Hex Hin Hf Hm.
  destruct (@scan_replied _ _ _ _ _ Hex Hin) as (pre & post & -> & Hpm & Hpr & Hpost).
  rewrite (@after_reply_found package_name _ _ _ _ _ Hf) in Hpost.
  destruct (Z.gtb_spec m 0); [| lia].
  simpl in Hpost.
  destruct Hpost as ([] & t1 & -> & [] & t2 & -> & -> & ->).
  rewrite prompts_app, Hpm. simpl. split; reflexivity.
Qed.

(* ------------------------------------------------------------------------- *)
(** ** The operator prompts *)

Ltac wp_step :=
  match goal with
  | |- forall _, _ => intro
  | |- wp ?p _ =>
      match p with
      | context [match ?x with _ => _ end] => destruct x eqn:?
      end
  end.

Lemma after_reply_prompt (package_name : string) (resp : Response) :
  wp (cli.after_reply package_name resp) (fun t o =>
    forall p answer, In (p, answer) (prompts t) -> o = decision_after answer).
Proof.
  unfold cli.after_reply, virustotal.decode_reply, cli.report, cli.confirm,
    cli.read_choice, cli.on_exception, cli.as_dict, cli.stat_required,
    cli.stat_optional, cli.lift, print, ask, call.
  repeat (simpl; wp_step).
  all: simpl in *; intros.
  all: repeat match goal with
       | H : _ \/ _ |- _ => destruct H
       | H : False |- _ => destruct H
       | H : (_, _) = (_, _) |- _ => injection H as <- <-
       end.
  all: unfold decision_after, says_yes.
  all: repeat match goal with
       | H : negb _ = _ |- _ => apply (f_equal negb) in H; rewrite negb_involutive in H; simpl in H
       end.
  all: try match goal with H : String.eqb _ _ = _ |- _ => rewrite H end.
  all: try match goal with H : is_Exception _ = _ |- _ => rewrite H end.
  all: try reflexivity.
Qed.

Lemma remainder_prompt (package_name : string) (s : cli.Stage)
  (t : list Event) (o : Outcome bool) (p : Prompt) (answer : Res string) :
  exec (cli.remainder package_name s) t o ->
  In (p, answer) (prompts t) -> o = decision_after answer.
Proof.
  destruct s as [| resp | e]; simpl; intros Hex Hin.
  - destruct Hex as ([] & t1 & -> & Hex).
    apply confirm_exec in Hex; [| exact I].
    destruct Hex as (a & rest & -> & Hrp & _ & ->).
    simpl in Hin. fold (prompts rest) in Hin. rewrite Hrp in Hin.
    destruct Hin as [Heq | []]. injection Heq as <- <-. reflexivity.
  - exact (proj1 (wp_exec _ _) (after_reply_prompt package_name resp)
             t o Hex p answer Hin).
  - destruct (is_Exception e); simpl in Hex.
    + destruct Hex as ([] & t1 & -> & -> & ->). destruct Hin.
    + destruct Hex as (-> & ->). destruct Hin.
Qed.

(** C9 (as the code has it).  At every operator prompt of the scan (no
    artifact obtainable, suspicious finding, reputation-service error) the
    value returned is decided by what [input()] gave.  When it gave an
    answer, the scan returns [True] exactly when the answer, stripped and
    lowered, is [y]; any other answer, the empty one included, gives [False].
    When [input()] raised, there is no answer to judge: an instance of
    [Exception] ([EOFError] on a closed standard input) is caught by the
    [except] clause and the scan returns [True]; anything else
    ([KeyboardInterrupt]) leaves the scan. *)
Theorem prompt_defaults_to_cancel (package_name : string)
  (manager_name : option string) (t : list Event) (o : Outcome bool)
  (p : Prompt) (answer : Res string) :
  exec (cli._virustotal_scan package_name manager_name) t o ->
  In (p, answer) (prompts t) ->
  match answer with
  | Ok r =>
      o = Returned (says_yes r) /\
      (says_yes r = true <-> PyStr.lower (PyStr.strip r) = "y"%string)
  | Err e => o = if is_Exception e then Returned true else Raised e
  end.
Proof.
  intros Hex Hin.
  destruct (@scan_stages _ _ _ _ Hex) as (pre & s & post & -> & Hpm & _ & _ & Hrem).
  rewrite prompts_app, Hpm in Hin. simpl in Hin.
  pose proof (@remainder_prompt _ _ _ _ _ _ Hrem Hin) as Ho.
  destruct answer as [r | e]; simpl in Ho.
  - split; [exact Ho |]. unfold says_yes. apply String.eqb_eq.
  - exact Ho.
Qed.

(* ------------------------------------------------------------------------- *)
(** ** The scratch directory of the resolver *)

Lemma mkdtemps_app (t1 t2 : list Event) :
  mkdtemps (t1 ++ t2) = mkdtemps t1 ++ mkdtemps t2.
Proof. apply flat_map_app. Qed.

Lemma rmtrees_app (t1 t2 : list Event) :
  rmtrees (t1 ++ t2) = rmtrees t1 ++ rmtrees t2.
Proof. apply flat_map_app. Qed.

(** Between creation and removal the resolver touches no scratch
    directory. *)
Lemma artifact_hash_calls (package_name manager tmpdir : string) :
  calls_in resolver_body_call
    (virustotal.artifact_hash_in package_name manager tmpdir).
Proof.
  unfold virustotal.artifact_hash_in,
    virustotal._download_pip_artifact, virustotal.npm_artifact_hash,
    virustotal.npm_after_metadata,
    virustotal._get_npm_registry, virustotal._get_npm_metadata,
    virustotal._get_npm_latest_tarball_from_registry,
    virustotal._construct_npm_tarball_url, virustotal._download_npm_tarball,
    virustotal._npm_pack_fallback, virustotal.calculate_file_hash.
  repeat first
    [ apply first_file_hash_calls; intros; exact I
    | calls_step ].
Qed.

Lemma resolver_body_silent (t : list Event) :
  Forall (event_call resolver_body_call) t -> mkdtemps t = [] /\ rmtrees t = [].
Proof.
  intros Ht; split;
    (apply flat_map_silent with (P := resolver_body_call); [| exact Ht]);
    intros [X c x]; destruct c; simpl; tauto.
Qed.

(** C7.  Every call of the resolver, for any package name and any manager,
    asks for exactly one scratch directory, as its first action; once the
    directory exists, [shutil.rmtree] is called on it, once, as the last
    action before the call returns or raises, whichever path the resolution
    took in between. *)
Theorem scratch_directory_scoped (package_name manager : string)
  (t : list Event) (o : Outcome (option string)) :
  exec (virustotal.download_package_and_get_hash package_name manager) t o ->
  exists created,
    mkdtemps t = [created] /\
    match created with
    | Ok tmpdir =>
        rmtrees t = [tmpdir] /\
        exists body removal,
          t = Ev (MkDTemp "pkgscan_") (Ok tmpdir) :: body
              ++ [Ev (RmTree tmpdir) removal]
    | Err e => t = [Ev (MkDTemp "pkgscan_") (Err e)] /\ o = Raised e
    end.
Proof.
  intros Hex. pattern t, o. revert t o Hex.
  apply (proj1 (wp_exec
          (virustotal.download_package_and_get_hash package_name manager) _)).
  unfold virustotal.download_package_and_get_hash. simpl.
  intros [tmpdir | e]; simpl.
  - apply wp_try_finally.
    generalize (@calls_in_wp _ _ _
                  (artifact_hash_calls package_name manager tmpdir)).
    apply wp_mono. intros t1 o1 Hs.
    destruct (resolver_body_silent Hs) as (Hmk & Hrm).
    unfold virustotal.remove_scratch. simpl.
    intros [[] | e]; simpl; [| destruct (is_Exception e); simpl];
      (exists (Ok tmpdir); rewrite mkdtemps_app, rmtrees_app, Hmk, Hrm; simpl;
       repeat split; eexists t1, _; reflexivity).
  - exists (Err e). repeat split.
Qed.

(** C8 (the failing input).  With the manager [pip3], when [subprocess.run]
    cannot launch the [pip3] executable and raises, the exception leaves
    [download_package_and_get_hash]: the resolver does not turn it into the
    no-artifact result [None]. *)
Theorem pip_launch_failure_escapes (package_name tmpdir : string) (e : exn) :
  exec (virustotal.download_package_and_get_hash package_name "pip3")
    [Ev (MkDTemp "pkgscan_") (Ok tmpdir);
     Ev (SubprocessRun ["pip3"; "download"; "--no-deps"; package_name; "-d";
                        tmpdir]%string) (Err e);
     Ev (RmTree tmpdir) (Ok tt)]
    (Raised e).
Proof.
  simpl. eexists _, _. split; [reflexivity |].
  eexists _, _. split; [reflexivity |].
  eexists _, _. split; [reflexivity |]. split; reflexivity.
Qed.

(* ------------------------------------------------------------------------- *)
(** ** The fallback chain of the npm resolver *)

Lemma registry_latest_queries_app (t1 t2 : list Event) :
  registry_latest_queries (t1 ++ t2)
  = registry_latest_queries t1 ++ registry_latest_queries t2.
Proof. apply flat_map_app. Qed.

Lemma tarball_downloads_app (t1 t2 : list Event) :
  tarball_downloads (t1 ++ t2) = tarball_downloads t1 ++ tarball_downloads t2.
Proof. apply flat_map_app. Qed.

Lemma json_loads_results_app (t1 t2 : list Event) :
  json_loads_results (t1 ++ t2)
  = json_loads_results t1 ++ json_loads_results t2.
Proof. apply flat_map_app. Qed.

Lemma local_trace_silent (t : list Event) :
  Forall (event_call local_call) t ->
  registry_latest_queries t = [] /\ tarball_downloads t = [] /\
  json_loads_results t = [].
Proof.
  intros Ht; repeat split;
    (apply flat_map_silent with (P := local_call); [| exact Ht]);
    intros [X c x]; destruct c; simpl; tauto.
Qed.

Lemma not_json_loads_silent (t : list Event) :
  Forall (event_call not_json_loads) t -> json_loads_results t = [].
Proof.
  apply flat_map_silent. intros [X c x]; destruct c; simpl; tauto.
Qed.

Lemma dist_tarball_truthy (dist : JSON) (url : string) :
  virustotal.dist_tarball dist = Some url ->
  virustotal.truthy_opt (Some url) = true.
Proof.
  unfold virustotal.dist_tarball. destruct dist as [| | | | | | dd]; try discriminate.
  destruct (Py.get dd "tarball") as [| | | | t | |]; try discriminate.
  destruct (PyStr.truthy t) eqn:Ht; [| discriminate].
  intros Heq. injection Heq as <-. exact Ht.
Qed.

Lemma registry_calls : calls_in local_call virustotal._get_npm_registry.
Proof. unfold virustotal._get_npm_registry. repeat calls_step. Qed.

Lemma pack_fallback_calls (package_name tmpdir : string) :
  calls_in local_call (virustotal._npm_pack_fallback package_name tmpdir).
Proof.
  unfold virustotal._npm_pack_fallback, virustotal.calculate_file_hash.
  repeat calls_step.
Qed.

Lemma remove_scratch_calls (tmpdir : string) :
  calls_in local_call (virustotal.remove_scratch tmpdir).
Proof. unfold virustotal.remove_scratch. repeat calls_step. Qed.

Lemma after_metadata_calls (package_name tmpdir registry : string)
  (meta : JSON) :
  calls_in not_json_loads
    (virustotal.npm_after_metadata package_name tmpdir registry meta).
Proof.
  unfold virustotal.npm_after_metadata,
    virustotal._get_npm_latest_tarball_from_registry,
    virustotal._construct_npm_tarball_url, virustotal._download_npm_tarball,
    virustotal._npm_pack_fallback, virustotal.calculate_file_hash.
  repeat calls_step.
Qed.

(** What [_get_npm_metadata] returns is what [json.loads] gave, when it
    gave something. *)
Lemma metadata_spec (package_name : string) :
  wp (virustotal._get_npm_metadata package_name) (fun t o =>
    registry_latest_queries t = [] /\ tarball_downloads t = [] /\
    forall v, In (Ok v) (json_loads_results t) -> o = Returned v).
Proof.
  unfold virustotal._get_npm_metadata, call.
  repeat (simpl; wp_step).
  all: simpl; repeat split; intros.
  all: repeat match goal with
       | H : _ \/ _ |- _ => destruct H
       | H : False |- _ => destruct H
       | H : Ok _ = Ok _ |- _ => injection H as <-
       | H : Err _ = Ok _ |- _ => discriminate H
       end.
  all: reflexivity.
Qed.

(** One streamed download, of the URL it was given. *)
Lemma download_tarball_spec (url tmpdir package_name : string) :
  wp (virustotal._download_npm_tarball url tmpdir package_name) (fun t o =>
    registry_latest_queries t = [] /\ tarball_downloads t = [url]).
Proof.
  unfold virustotal._download_npm_tarball, virustotal.calculate_file_hash, call.
  repeat (simpl; wp_step).
  all: simpl; split; reflexivity.
Qed.

Lemma after_metadata_direct (package_name tmpdir registry : string)
  (md : list (string * JSON)) (url : string) :
  virustotal.dist_tarball (Py.get md "dist") = Some url ->
  wp (virustotal.npm_after_metadata package_name tmpdir registry (JDict md))
    (fun t o => registry_latest_queries t = [] /\ tarball_downloads t = [url]).
Proof.
  intros Hurl. pose proof (dist_tarball_truthy _ Hurl) as Ht. simpl in Ht.
  unfold virustotal.npm_after_metadata.
  rewrite Hurl. unfold virustotal.truthy_opt at 1. rewrite Ht.
  simpl negb. cbv iota. simpl bind at 1.
  unfold virustotal.truthy_opt at 1. rewrite Ht.
  simpl negb. cbv iota. simpl bind at 1.
  unfold virustotal.truthy_opt at 1. rewrite Ht.
  apply wp_bind.
  generalize (download_tarball_spec url tmpdir package_name).
  apply wp_mono. intros t1 o1 (Hq & Hd).
  destruct o1 as [hash_val | e].
  - assert (Hpack : wp (virustotal._npm_pack_fallback package_name tmpdir)
              (fun t2 _ => registry_latest_queries (t1 ++ t2) = [] /\
                           tarball_downloads (t1 ++ t2) = [url])).
    { generalize (@calls_in_wp _ _ _ (pack_fallback_calls package_name tmpdir)).
      apply wp_mono. intros t2 o2 Hs.
      destruct (local_trace_silent Hs) as (Hq2 & Hd2 & _).
      rewrite registry_latest_queries_app, tarball_downloads_app, Hq, Hd, Hq2, Hd2.
      split; reflexivity. }
    destruct hash_val as [hv |]; [destruct (PyStr.truthy hv) |]; simpl;
      try exact Hpack.
    rewrite app_nil_r. split; assumption.
  - split; assumption.
Qed.

Lemma npm_artifact_direct (package_name tmpdir : string) :
  wp (virustotal.npm_artifact_hash package_name tmpdir) (fun t _ =>
    forall md url,
      In (Ok (JDict md)) (json_loads_results t) ->
      virustotal.dist_tarball (Py.get md "dist") = Some url ->
      registry_latest_queries t = [] /\ tarball_downloads t = [url]).
Proof.
  unfold virustotal.npm_artifact_hash. apply wp_bind.
  generalize (@calls_in_wp _ _ _ registry_calls).
  apply wp_mono. intros t1 o1 Hs.
  destruct (local_trace_silent Hs) as (Hq1 & Hd1 & Hj1).
  destruct o1 as [registry | e]; [| intros md url Hin; rewrite Hj1 in Hin; destruct Hin].
  apply wp_bind. generalize (metadata_spec package_name).
  apply wp_mono. intros t2 o2 (Hq2 & Hd2 & Hj2).
  destruct o2 as [meta | e].
  - apply wp_exec. intros t3 o Hex md url Hin Hurl.
    assert (Hj3 : json_loads_results t3 = []).
    { apply not_json_loads_silent.
      exact (proj1 (wp_exec _ _)
               (@calls_in_wp _ _ _
                  (after_metadata_calls package_name tmpdir registry meta))
               t3 o Hex). }
    rewrite !json_loads_results_app, Hj1, Hj3, app_nil_r in Hin. simpl in Hin.
    specialize (Hj2 _ Hin). injection Hj2 as ->.
    destruct (proj1 (wp_exec _ _)
                (after_metadata_direct package_name tmpdir registry md Hurl)
                t3 o Hex) as (Hq3 & Hd3).
    rewrite !registry_latest_queries_app, !tarball_downloads_app,
      Hq1, Hq2, Hq3, Hd1, Hd2, Hd3.
    split; reflexivity.
  - intros md url Hin. rewrite json_loads_results_app, Hj1 in Hin. simpl in Hin.
    specialize (Hj2 _ Hin). discriminate Hj2.
Qed.

(** With a distribution URL in the document decoded from [npm view], the
    whole resolver makes no query to the latest-version endpoint and one
    tarball download, of that URL. *)
Lemma resolver_direct (package_name : string) (t : list Event)
  (o : Outcome (option string)) (md : list (string * JSON)) (url : string) :
  exec (virustotal.download_package_and_get_hash package_name "npm") t o ->
  In (Ok (JDict md)) (json_loads_results t) ->
  virustotal.dist_tarball (Py.get md "dist") = Some url ->
  registry_latest_queries t = [] /\ tarball_downloads t = [url].
Proof.
  intros Hex. revert md url. pattern t, o. revert t o Hex.
  apply (proj1 (wp_exec
          (virustotal.download_package_and_get_hash package_name "npm") _)).
  unfold virustotal.download_package_and_get_hash.
  remember (virustotal.artifact_hash_in package_name "npm") as body eqn:Ebody.
  remember virustotal.remove_scratch as cleanup eqn:Ecleanup.
  simpl. intros [tmpdir | e]; simpl; [| intros md url []].
  apply wp_try_finally. subst body cleanup.
  change (virustotal.artifact_hash_in package_name "npm" tmpdir)
    with (virustotal.npm_artifact_hash package_name tmpdir).
  generalize (npm_artifact_direct package_name tmpdir).
  apply wp_mono. intros t1 o1 H1.
  generalize (@calls_in_wp _ _ _ (remove_scratch_calls tmpdir)).
  apply wp_mono. intros t2 o2 Hs.
  destruct (local_trace_silent Hs) as (Hq2 & Hd2 & Hj2).
  rewrite json_loads_results_app, registry_latest_queries_app,
    tarball_downloads_app, Hq2, Hd2, Hj2, !app_nil_r.
  destruct o2; exact H1.
Qed.

(* ------------------------------------------------------------------------- *)
(** ** The theorems at concrete environments *)

Lemma found_response_Found (m s h u : Z) : Found (found_response m s h u) m s h u.
Proof. split; [reflexivity |]. eexists. split; reflexivity. Qed.

(** The tie-break test of the specification: [malicious = 1],
    [suspicious = 5]. *)
Lemma malicious_blocks_witness :
  let r := run answer (cli._virustotal_scan "evil-pkg" (Some "pip3"))
             (pip_world (Ok (found_response 1 5 60 4)) (Ok "y")) in
  outcome_of r = Returned false /\
  In (MsgMalicious "evil-pkg") (printed (trace_of r)) /\
  (forall n p, ~ In (MsgSuspicious n p) (printed (trace_of r))) /\
  ~ In MsgClean (printed (trace_of r)).
Proof.
  intros r.
  apply (@malicious_blocks "evil-pkg" (Some "pip3") (trace_of r) (outcome_of r)
           (found_response 1 5 60 4) 1 5 60 4).
  - apply run_exec.
  - vm_compute. left. reflexivity.
  - apply found_response_Found.
  - lia.
Defined.

Lemma suspicious_warns_witness :
  let r := run answer (cli._virustotal_scan "left-pad" (Some "pip3"))
             (pip_world (Ok (found_response 0 2 60 8)) (Ok " Y ")) in
  In (MsgSuspicious 2 "left-pad") (printed (trace_of r)) /\
  (exists answer,
      prompts (trace_of r) = [(PromptInstallAnyway, answer)] /\
      outcome_of r = decision_after answer) /\
  (forall p, ~ In (MsgMalicious p) (printed (trace_of r))) /\
  ~ In MsgClean (printed (trace_of r)).
Proof.
  intros r.
  apply (@suspicious_warns "left-pad" (Some "pip3") (trace_of r) (outcome_of r)
           (found_response 0 2 60 8) 2 60 8).
  - apply run_exec.
  - vm_compute. left. reflexivity.
  - apply found_response_Found.
  - lia.
Defined.

(** End-to-end scenario A of the specification. *)
Lemma clean_allows_witness :
  let r := run answer (cli._virustotal_scan "left-pad" (Some "npm"))
             (npm_world (JDict left_pad_doc) 200
                (Ok (found_response 0 0 70 0))) in
  outcome_of r = Returned true /\ prompts (trace_of r) = [] /\
  In MsgClean (printed (trace_of r)).
Proof.
  intros r.
  apply (@clean_allows "left-pad" (Some "npm") (trace_of r) (outcome_of r)
           (found_response 0 0 70 0) 70 0).
  - apply run_exec.
  - vm_compute. left. reflexivity.
  - apply found_response_Found.
Defined.


Lemma malicious_never_prompts_witness :
  let r := run answer (cli._virustotal_scan "evil-pkg" (Some "pip3"))
             (pip_world (Ok (found_response 3 0 0 60)) (Ok "y")) in
  prompts (trace_of r) = [] /\ outcome_of r = Returned false.
Proof.
  intros r.
  apply (@malicious_never_prompts "evil-pkg" (Some "pip3") (trace_of r)
           (outcome_of r) (found_response 3 0 0 60) 3 0 0 60).
  - apply run_exec.
  - vm_compute. left. reflexivity.
  - apply found_response_Found.
  - lia.
Defined.

(** C5, refuted as stated.  End-to-end scenario B: the reputation service
    reports [malicious = 3] and the operator would answer [y] to any prompt;
    the operator is never asked and the scan returns [False]. *)
Lemma block_has_no_override :
  let r := run answer (cli._virustotal_scan "evil-pkg" (Some "pip3"))
             (pip_world (Ok (found_response 3 0 0 60)) (Ok "y")) in
  exec (cli._virustotal_scan "evil-pkg" (Some "pip3")) (trace_of r) (outcome_of r) /\
  vt_replies (trace_of r) = [Ok (found_response 3 0 0 60)] /\
  Found (found_response 3 0 0 60) 3 0 0 60 /\
  prompts (trace_of r) = [] /\
  outcome_of r = Returned false.
Proof.
  intros r. split; [apply run_exec |].
  split; [reflexivity |]. split; [apply found_response_Found |].
  split; reflexivity.
Qed.

(** Without a distribution URL in the metadata, the latest-version endpoint
    is queried. *)
Example registry_queried_without_direct_url :
  registry_latest_queries
    (trace_of (run answer
       (virustotal.download_package_and_get_hash "left-pad" "npm")
       (npm_world (JDict [("version", JStr "1.3.0")]) 200 (Err ConnectionError))))
  = ["https://registry.npmjs.org/left-pad/latest"%string].
Proof. reflexivity. Qed.

Lemma scratch_directory_scoped_witness :
  let r := run answer (virustotal.download_package_and_get_hash "left-pad" "npm")
             (npm_world (JDict left_pad_doc) 404 (Err ConnectionError)) in
  exists created,
    mkdtemps (trace_of r) = [created] /\
    match created with
    | Ok tmpdir =>
        rmtrees (trace_of r) = [tmpdir] /\
        exists body removal,
          trace_of r = Ev (MkDTemp "pkgscan_") (Ok tmpdir) :: body
                       ++ [Ev (RmTree tmpdir) removal]
    | Err e => trace_of r = [Ev (MkDTemp "pkgscan_") (Err e)] /\
               outcome_of r = Raised e
    end.
Proof.
  intros r.
  apply (@scratch_directory_scoped "left-pad" "npm" (trace_of r) (outcome_of r)).
  apply run_exec.
Defined.

(** C8 at the level of the scan: with [pip3] missing the scan asks nothing
    and returns [True]. *)
Example pip_missing_scan_proceeds :
  let r := run answer (cli._virustotal_scan "requests" (Some "pip3"))
             pip_missing_world in
  outcome_of r = Returned true /\ prompts (trace_of r) = [] /\
  printed (trace_of r)
  = [MsgPreparing "requests" "pip3"; MsgScanSkipped FileNotFoundError].
Proof. repeat split. Qed.

(** Whereas both pip invocations exiting with a non-zero status gives the
    no-artifact result and a prompt. *)
Example pip_nonzero_exit_prompts :
  let r := run answer (cli._virustotal_scan "requests" (Some "pip3"))
             (no_artifact_world (Ok "n")) in
  outcome_of r = Returned false /\
  prompts (trace_of r) = [(PromptProceedAnyway, Ok "n"%string)].
Proof. repeat split. Qed.

(** The standard input is closed at the no-artifact prompt. *)
Lemma prompt_defaults_to_cancel_witness :
  let r := run answer (cli._virustotal_scan "left-pad" (Some "pip3"))
             (no_artifact_world (Err EOFError)) in
  outcome_of r = if is_Exception EOFError then Returned true else Raised EOFError.
Proof.
  intros r.
  apply (@prompt_defaults_to_cancel "left-pad" (Some "pip3") (trace_of r)
           (outcome_of r) PromptProceedAnyway (Err EOFError)).
  - apply run_exec.
  - vm_compute. left. reflexivity.
Defined.

(** C9, refuted as stated.  At each of the three prompts an empty or
    unrecognised answer makes the scan return [False]. *)
Lemma unclear_answer_cancels :
  (let r := run answer (cli._virustotal_scan "left-pad" (Some "pip3"))
              (no_artifact_world (Ok "")) in
   prompts (trace_of r) = [(PromptProceedAnyway, Ok ""%string)] /\
   outcome_of r = Returned false) /\
  (let r := run answer (cli._virustotal_scan "left-pad" (Some "pip3"))
              (pip_world (Ok (found_response 0 2 60 8)) (Ok "")) in
   prompts (trace_of r) = [(PromptInstallAnyway, Ok ""%string)] /\
   outcome_of r = Returned false) /\
  (let r := run answer (cli._virustotal_scan "left-pad" (Some "pip3"))
              (pip_world (Ok (error_response 503 "unavailable")) (Ok "maybe")) in
   prompts (trace_of r) = [(PromptProceedAnyway, Ok "maybe"%string)] /\
   outcome_of r = Returned false).
Proof. repeat split. Qed.

(** C10, refuted as stated.  The operator interrupts at the prompt:
    [KeyboardInterrupt] is not an instance of [Exception], the [except] clause
    does not catch it, and the scan raises instead of returning [True]. *)
Lemma interrupt_is_not_caught :
  let r := run answer (cli._virustotal_scan "left-pad" (Some "pip3"))
             (no_artifact_world (Err KeyboardInterrupt)) in
  exec (cli._virustotal_scan "left-pad" (Some "pip3")) (trace_of r) (outcome_of r) /\
  prompts (trace_of r) = [(PromptProceedAnyway, Err KeyboardInterrupt)] /\
  outcome_of r = Raised KeyboardInterrupt /\
  outcome_of r <> Returned true.
Proof.
  intros r. split; [apply run_exec |].
  split; [reflexivity |]. split; [reflexivity | discriminate].
Qed.


Unset Implicit Arguments.

(* ------------------------------------------------------------------------- *)
(** ** Strings: conversions, [quote], [rstrip], [split] *)

Lemma chars_of_chars (l : list ascii) : PyStr.chars (PyStr.of_chars l) = l.
Proof. apply list_ascii_of_string_of_list_ascii. Qed.

Lemma of_chars_chars (s : string) : PyStr.of_chars (PyStr.chars s) = s.
Proof. apply string_of_list_ascii_of_string. Qed.

Lemma chars_app (s1 s2 : string) :
  PyStr.chars (s1 ++ s2)%string = PyStr.chars s1 ++ PyStr.chars s2.
Proof.
  induction s1 as [| c s1 IH]; simpl; [reflexivity |].
  unfold PyStr.chars in *. simpl. rewrite IH. reflexivity.
Qed.

Lemma of_chars_app (l1 l2 : list ascii) :
  PyStr.of_chars (l1 ++ l2) = (PyStr.of_chars l1 ++ PyStr.of_chars l2)%string.
Proof.
  induction l1 as [| c l1 IH]; simpl; [reflexivity |].
  unfold PyStr.of_chars in *. simpl. rewrite IH. reflexivity.
Qed.

Lemma quote_char_safe (c : ascii) : forallb url_safe (PyStr.quote_char c) = true.
Proof.
  destruct c as [[] [] [] [] [] [] [] []]; vm_compute; reflexivity.
Qed.

Lemma quote_char_kept (c : ascii) :
  kept_by_quote c = true -> PyStr.quote_char c = [c].
Proof.
  destruct c as [[] [] [] [] [] [] [] []]; vm_compute; intros H;
    try reflexivity; discriminate H.
Qed.

Lemma quote_char_escaped (c : ascii) :
  kept_by_quote c = false ->
  exists rest, PyStr.quote_char c = "%"%char :: rest.
Proof.
  destruct c as [[] [] [] [] [] [] [] []]; vm_compute; intros H;
    try discriminate H; eexists; reflexivity.
Qed.

(** X1.  Whatever the package name, [quote(name, safe='@/')] consists of
    unreserved characters, [@], [/] and [%] only. *)
Theorem quote_output_safe (s : string) :
  forallb url_safe (PyStr.chars (PyStr.quote s)) = true.
Proof.
  unfold PyStr.quote. rewrite chars_of_chars.
  induction (PyStr.chars s) as [| c l IH]; simpl; [reflexivity |].
  rewrite forallb_app, quote_char_safe, IH. reflexivity.
Qed.

Lemma quote_app (s1 s2 : string) :
  PyStr.quote (s1 ++ s2) = (PyStr.quote s1 ++ PyStr.quote s2)%string.
Proof.
  unfold PyStr.quote. rewrite chars_app, flat_map_app, of_chars_app.
  reflexivity.
Qed.

(** X2.  [quote] keeps the shape of a scoped name: the leading [@] and the
    separator [/] stay where they are and the scope and the name are encoded
    each on its own. *)
Theorem quote_scoped (scope name : string) :
  PyStr.quote ("@" ++ scope ++ "/" ++ name)
  = ("@" ++ PyStr.quote scope ++ "/" ++ PyStr.quote name)%string.
Proof.
  rewrite !quote_app. reflexivity.
Qed.

Lemma quote_char_length (c : ascii) :
  (if kept_by_quote c then List.length (PyStr.quote_char c) = 1
   else 3 <= List.length (PyStr.quote_char c))%nat.
Proof.
  destruct c as [[] [] [] [] [] [] [] []]; vm_compute; repeat constructor.
Qed.

Lemma quote_chars_length (l : list ascii) :
  (List.length l <= List.length (flat_map PyStr.quote_char l))%nat /\
  (List.length (flat_map PyStr.quote_char l) = List.length l ->
   forallb kept_by_quote l = true).
Proof.
  induction l as [| c l (IHle & IHeq)]; simpl; [split; auto |].
  rewrite List.length_app. pose proof (quote_char_length c) as Hc.
  destruct (kept_by_quote c); simpl.
  - split; [lia |]. intros H. apply IHeq. lia.
  - split; [lia |]. intros H. exfalso. lia.
Qed.

(** X3.  [quote] changes nothing in a name made of unreserved characters,
    [@] and [/]; any other name comes out longer, so a name that [quote]
    leaves unchanged is made of those characters only. *)
Theorem quote_fixes_exactly_kept (s : string) :
  PyStr.quote s = s <-> forallb kept_by_quote (PyStr.chars s) = true.
Proof.
  unfold PyStr.quote. split.
  - intros H. apply (f_equal PyStr.chars) in H. rewrite chars_of_chars in H.
    apply quote_chars_length. rewrite H. reflexivity.
  - intros H. rewrite <- (of_chars_chars s) at 2. f_equal.
    revert H. generalize (PyStr.chars s) as l.
    induction l as [| c l IH]; simpl; intros H; [reflexivity |].
    apply andb_prop in H. destruct H as (Hc & Hl).
    rewrite (quote_char_kept c Hc), (IH Hl). reflexivity.
Qed.

Lemma lstrip_char_head (x : ascii) (l : list ascii) :
  match PyStr.lstrip_char x l with
  | c :: _ => Ascii.eqb c x = false
  | [] => True
  end.
Proof.
  induction l as [| c l IH]; simpl; [exact I |].
  destruct (Ascii.eqb c x) eqn:E; [exact IH | exact E].
Qed.

Lemma rstrip_slash_end (s : string) :
  ends_with_slash (PyStr.rstrip_slash s) = false.
Proof.
  unfold ends_with_slash, PyStr.rstrip_slash.
  rewrite chars_of_chars, rev_involutive.
  pose proof (lstrip_char_head "/"%char (rev (PyStr.chars s))) as H.
  destruct (PyStr.lstrip_char "/"%char (rev (PyStr.chars s))); [reflexivity | exact H].
Qed.

(* ------------------------------------------------------------------------- *)
(** ** The helpers of the npm resolver *)

(** X4.  [_get_npm_registry] runs [npm config get registry] once and lets no
    [Exception] out; whatever the command prints, the URL it returns ends in
    exactly one slash. *)
Theorem registry_url_normalised (t : list Event) (o : Outcome string) :
  exec virustotal._get_npm_registry t o ->
  commands t = [["npm"; "config"; "get"; "registry"]%string] /\
  (forall e, o = Raised e -> is_Exception e = false) /\
  (forall r, o = Returned r ->
     exists base, r = (base ++ "/")%string /\ ends_with_slash base = false).
Proof.
  intros Hex. pattern t, o. revert t o Hex.
  apply (proj1 (wp_exec virustotal._get_npm_registry _)).
  unfold virustotal._get_npm_registry, call.
  repeat (simpl; wp_step).
  all: simpl; repeat split; intros; try discriminate.
  all: try match goal with
       | H : Raised _ = Raised _ |- _ => injection H as <-; assumption
       | H : Returned _ = Returned _ |- _ => injection H as <-
       end.
  - eexists. split; [reflexivity | apply rstrip_slash_end].
  - exists "https://registry.npmjs.org"%string. split; reflexivity.
  - exists "https://registry.npmjs.org"%string. split; reflexivity.
Qed.

Lemma registry_url_normalised_witness :
  let r := run answer virustotal._get_npm_registry
             (with_run (fun _ => Ok {| returncode := 0;
                                       stdout := "https://npm.example.org//" |})
                (no_artifact_world (Ok "n"))) in
  commands (trace_of r) = [["npm"; "config"; "get"; "registry"]%string] /\
  (forall e, outcome_of r = Raised e -> is_Exception e = false) /\
  (forall u, outcome_of r = Returned u ->
     exists base, u = (base ++ "/")%string /\ ends_with_slash base = false).
Proof.
  intros r. apply (@registry_url_normalised (trace_of r) (outcome_of r)).
  apply run_exec.
Defined.

(** X5.  [_get_npm_latest_tarball_from_registry] makes exactly one call, the
    GET of [registry + quote(name) + "/latest"] with a timeout of 20 and no
    headers.  No [Exception] leaves it.  It returns a URL only when the answer
    is a 200 whose body is a dict with a non-empty string [dist.tarball], and
    then that string. *)
Theorem latest_tarball_query (package_name registry : string)
  (t : list Event) (o : Outcome (option string)) :
  exec (virustotal._get_npm_latest_tarball_from_registry package_name registry)
    t o ->
  exists reply,
    t = [Ev (RequestsGet (registry ++ PyStr.quote package_name ++ "/latest")
               [] (Some 20) false) reply] /\
    (forall e, o = Raised e -> is_Exception e = false) /\
    (forall u, o = Returned (Some u) ->
       PyStr.truthy u = true /\
       exists resp d,
         reply = Ok resp /\ status_code resp = 200 /\
         json resp = Ok (JDict d) /\
         virustotal.dist_tarball (Py.get d "dist") = Some u).
Proof.
  intros Hex. pattern t, o. revert t o Hex.
  apply (proj1 (wp_exec
    (virustotal._get_npm_latest_tarball_from_registry package_name registry) _)).
  unfold virustotal._get_npm_latest_tarball_from_registry, call.
  simpl. intros [resp | e]; simpl.
  - destruct (status_code resp =? 200) eqn:Es; simpl.
    + apply Z.eqb_eq in Es.
      destruct (json resp) as [data | e] eqn:Ej; simpl.
      * destruct data as [| | | | | | d]; simpl;
          try (eexists; split; [reflexivity |]; split; intros; discriminate).
        eexists; split; [reflexivity |]. split; [intros; discriminate |].
        intros u Hu. injection Hu as Hu. split.
        -- exact (dist_tarball_truthy _ Hu).
        -- exists resp, d. repeat split; assumption.
      * destruct (is_Exception e) eqn:He; simpl;
          (eexists; split; [reflexivity |]; split; intros; try discriminate).
        congruence.
    + eexists; split; [reflexivity |]; split; intros; discriminate.
  - destruct (is_Exception e) eqn:He; simpl;
      (eexists; split; [reflexivity |]; split; intros; try discriminate).
    congruence.
Qed.

Lemma latest_tarball_query_witness :
  let r := run answer
             (virustotal._get_npm_latest_tarball_from_registry "@babel/core"
                "https://registry.npmjs.org/")
             (with_get (fun _ _ => Ok (latest_response left_pad_url))
                (no_artifact_world (Ok "n"))) in
  exists reply,
    trace_of r
    = [Ev (RequestsGet ("https://registry.npmjs.org/"
                        ++ PyStr.quote "@babel/core" ++ "/latest")
             [] (Some 20) false) reply] /\
    (forall e, outcome_of r = Raised e -> is_Exception e = false) /\
    (forall u, outcome_of r = Returned (Some u) ->
       PyStr.truthy u = true /\
       exists resp d,
         reply = Ok resp /\ status_code resp = 200 /\
         json resp = Ok (JDict d) /\
         virustotal.dist_tarball (Py.get d "dist") = Some u).
Proof.
  intros r.
  apply (@latest_tarball_query "@babel/core" "https://registry.npmjs.org/"
           (trace_of r) (outcome_of r)).
  apply run_exec.
Defined.

(* ------------------------------------------------------------------------- *)
(** ** The pip resolver *)

Lemma first_file_hash_spec (tmpdir : string) (names : list string) :
  wp (virustotal.first_file_hash tmpdir names) (fun t o =>
    listings t = [] /\ runs t = [] /\
    (forall h, o = Returned (Some h) ->
       exists before fname after,
         names = before ++ fname :: after /\
         isfile_tests t
         = map (fun n => (PyStr.path_join tmpdir n, false)) before
           ++ [(PyStr.path_join tmpdir fname, true)] /\
         hashed t = [(PyStr.path_join tmpdir fname, Ok h)]) /\
    (o = Returned None ->
       isfile_tests t = map (fun n => (PyStr.path_join tmpdir n, false)) names /\
       hashed t = [])).
Proof.
  induction names as [| fname rest IH]; simpl.
  - repeat split; intros; discriminate.
  - intros [|]; simpl.
    + unfold virustotal.calculate_file_hash, call. simpl.
      intros [h | e]; simpl; repeat split; intros; try discriminate.
      injection H as <-. exists [], fname, rest. repeat split.
    + revert IH. apply wp_mono. intros t o (Hl & Hr & Hsome & Hnone).
      simpl. fold (listings t) (runs t) (isfile_tests t) (hashed t).
      repeat split; try assumption.
      * intros h Ho. destruct (Hsome h Ho) as (before & f & after & -> & Hi & Hh).
        exists (fname :: before), f, after. simpl. rewrite Hi.
        repeat split. exact Hh.
      * destruct (Hnone H) as (Hi & _). rewrite Hi. reflexivity.
      * destruct (Hnone H) as (_ & Hh). exact Hh.
Qed.

(** X6.  When [_download_pip_artifact] returns a hash, it is the digest of
    the first entry of the scratch directory, in listing order, that is a
    regular file: the entries before it were tested and were not files, the
    entries after it were not looked at, and nothing else was hashed. *)
Theorem pip_hash_is_first_file (package_name tmpdir : string)
  (t : list Event) (o : Outcome (option string)) (h : string) :
  exec (virustotal._download_pip_artifact package_name tmpdir) t o ->
  o = Returned (Some h) ->
  exists before fname after,
    listings t = [(tmpdir, Ok (before ++ fname :: after))] /\
    isfile_tests t
    = map (fun n => (PyStr.path_join tmpdir n, false)) before
      ++ [(PyStr.path_join tmpdir fname, true)] /\
    hashed t = [(PyStr.path_join tmpdir fname, Ok h)].
Proof.
  intros Hex. revert h. pattern t, o. revert t o Hex.
  apply (proj1 (wp_exec
    (virustotal._download_pip_artifact package_name tmpdir) _)).
  assert (Hlist :
    wp (names <- call (ListDir tmpdir) ;; virustotal.first_file_hash tmpdir names)
      (fun t o => forall h, o = Returned (Some h) ->
         exists before fname after,
           listings t = [(tmpdir, Ok (before ++ fname :: after))] /\
           isfile_tests t
           = map (fun n => (PyStr.path_join tmpdir n, false)) before
             ++ [(PyStr.path_join tmpdir fname, true)] /\
           hashed t = [(PyStr.path_join tmpdir fname, Ok h)])).
  { unfold call. simpl. intros [names | e]; simpl.
    - generalize (first_file_hash_spec tmpdir names). apply wp_mono.
      intros t o (Hl' & _ & Hsome & _) h Ho.
      destruct (Hsome h Ho) as (before & f & after & -> & Hi' & Hh').
      exists before, f, after.
      fold (listings t) (isfile_tests t) (hashed t).
      rewrite Hl', Hi', Hh'. repeat split.
    - intros h Ho. discriminate Ho. }
  unfold virustotal._download_pip_artifact, call. simpl.
  intros [r1 | e]; simpl; [| intros h Ho; discriminate Ho].
  destruct (returncode r1 =? 0); simpl.
  - exact Hlist.
  - intros [r2 | e]; simpl; [| intros h Ho; discriminate Ho].
    destruct (returncode r2 =? 0); simpl.
    + exact Hlist.
    + intros h Ho; discriminate Ho.
Qed.

Lemma pip_hash_is_first_file_witness :
  let r := run answer (virustotal._download_pip_artifact "requests" "/tmp/s")
             (with_files ["__pycache__"; "requests-2.31.0.tar.gz"; "x.whl"]
                (fun p => String.eqb p "/tmp/s/requests-2.31.0.tar.gz")
                (pip_world (Err Timeout) (Ok "n"))) in
  exists before fname after,
    listings (trace_of r) = [("/tmp/s"%string, Ok (before ++ fname :: after))] /\
    isfile_tests (trace_of r)
    = map (fun n => (PyStr.path_join "/tmp/s" n, false)) before
      ++ [(PyStr.path_join "/tmp/s" fname, true)] /\
    hashed (trace_of r) = [(PyStr.path_join "/tmp/s" fname, Ok digest)].
Proof.
  intros r.
  apply (@pip_hash_is_first_file "requests" "/tmp/s" (trace_of r) (outcome_of r)
           digest).
  - apply run_exec.
  - reflexivity.
Defined.

(** X7.  [_download_pip_artifact] runs [pip3 download] first and
    [python -m pip download] only when the first exits with a non-zero
    status; it never runs a third command.  When both exit with a non-zero
    status it returns [None] without listing the scratch directory.  An
    exception raised by either [subprocess.run] is not caught: it leaves the
    function, and after one raised by the first the second is not tried. *)
Theorem pip_retry_policy (package_name tmpdir : string)
  (t : list Event) (o : Outcome (option string)) :
  exec (virustotal._download_pip_artifact package_name tmpdir) t o ->
  match runs t with
  | [(c1, Ok r1)] =>
      c1 = pip3_download package_name tmpdir /\ returncode r1 = 0
  | [(c1, Err e)] =>
      c1 = pip3_download package_name tmpdir /\ o = Raised e /\ listings t = []
  | [(c1, Ok r1); (c2, Ok r2)] =>
      c1 = pip3_download package_name tmpdir /\
      c2 = python_pip_download package_name tmpdir /\
      returncode r1 <> 0 /\
      (returncode r2 <> 0 -> o = Returned None /\ listings t = [])
  | [(c1, Ok r1); (c2, Err e)] =>
      c1 = pip3_download package_name tmpdir /\
      c2 = python_pip_download package_name tmpdir /\
      returncode r1 <> 0 /\ o = Raised e /\ listings t = []
  | _ => False
  end.
Proof.
  intros Hex. pattern t, o. revert t o Hex.
  apply (proj1 (wp_exec
    (virustotal._download_pip_artifact package_name tmpdir) _)).
  assert (Hlist : forall (P : Prop), P ->
    wp (names <- call (ListDir tmpdir) ;; virustotal.first_file_hash tmpdir names)
      (fun t _ => runs t = [] /\ P)).
  { intros P HP. unfold call. simpl. intros [names | e]; simpl; [| auto].
    generalize (first_file_hash_spec tmpdir names). apply wp_mono.
    intros t o (_ & Hr & _). fold (runs t). auto. }
  unfold virustotal._download_pip_artifact. cbv zeta.
  remember (names <- call (ListDir tmpdir) ;;
            virustotal.first_file_hash tmpdir names) as listing eqn:El.
  unfold call. simpl.
  intros [r1 | e]; simpl; [| repeat split].
  destruct (returncode r1 =? 0) eqn:E1; simpl.
  - apply Z.eqb_eq in E1. subst listing.
    generalize (Hlist _ (conj (eq_refl (pip3_download package_name tmpdir)) E1)).
    apply wp_mono. intros t o (Hr & Hc & H0). simpl. fold (runs t). rewrite Hr.
    split; assumption.
  - apply Z.eqb_neq in E1.
    intros [r2 | e]; simpl; [| repeat split; assumption].
    destruct (returncode r2 =? 0) eqn:E2; simpl.
    + apply Z.eqb_eq in E2. subst listing.
      generalize (Hlist _ E1). apply wp_mono.
      intros t o (Hr & _). simpl. fold (runs t). rewrite Hr.
      repeat split; try assumption; contradiction.
    + repeat split; assumption.
Qed.

Lemma pip_retry_policy_witness :
  let r := run answer (virustotal._download_pip_artifact "requests" "/tmp/s")
             (with_run (fun cmd =>
                          match cmd with
                          | "pip3"%string :: _ =>
                              Ok {| returncode := 127; stdout := "" |}
                          | _ => Ok {| returncode := 0; stdout := "Saved" |}
                          end)
                (pip_world (Err Timeout) (Ok "n"))) in
  match runs (trace_of r) with
  | [(c1, Ok r1)] =>
      c1 = pip3_download "requests" "/tmp/s" /\ returncode r1 = 0
  | [(c1, Err e)] =>
      c1 = pip3_download "requests" "/tmp/s" /\ outcome_of r = Raised e /\
      listings (trace_of r) = []
  | [(c1, Ok r1); (c2, Ok r2)] =>
      c1 = pip3_download "requests" "/tmp/s" /\
      c2 = python_pip_download "requests" "/tmp/s" /\
      returncode r1 <> 0 /\
      (returncode r2 <> 0 -> outcome_of r = Returned None /\
                             listings (trace_of r) = [])
  | [(c1, Ok r1); (c2, Err e)] =>
      c1 = pip3_download "requests" "/tmp/s" /\
      c2 = python_pip_download "requests" "/tmp/s" /\
      returncode r1 <> 0 /\ outcome_of r = Raised e /\
      listings (trace_of r) = []
  | _ => False
  end.
Proof.
  intros r.
  apply (@pip_retry_policy "requests" "/tmp/s" (trace_of r) (outcome_of r)).
  apply run_exec.
Defined.

(* ------------------------------------------------------------------------- *)
(** ** The constructed tarball URL *)

Lemma split_no_slash (l acc : list ascii) :
  existsb (fun c => Ascii.eqb c "/"%char) l = false ->
  PyStr.split_slash_once_chars l acc = [PyStr.of_chars (rev acc ++ l)].
Proof.
  revert acc; induction l as [| c l IH]; intros acc; simpl.
  - intros _. rewrite app_nil_r. reflexivity.
  - destruct (Ascii.eqb c "/"%char); simpl; [discriminate |].
    intros H. rewrite (IH (c :: acc) H). simpl. rewrite <- app_assoc.
    reflexivity.
Qed.

Lemma split_at_first_slash (a b acc : list ascii) :
  existsb (fun c => Ascii.eqb c "/"%char) a = false ->
  PyStr.split_slash_once_chars (a ++ "/"%char :: b) acc
  = [PyStr.of_chars (rev acc ++ a); PyStr.of_chars b].
Proof.
  revert acc; induction a as [| c a IH]; intros acc; simpl.
  - intros _. rewrite app_nil_r. reflexivity.
  - destruct (Ascii.eqb c "/"%char); simpl; [discriminate |].
    intros H. rewrite (IH (c :: acc) H). simpl. rewrite <- app_assoc.
    reflexivity.
Qed.

Lemma split_scoped (scope name : string) :
  has_slash scope = false ->
  PyStr.split_slash_once ("@" ++ scope ++ "/" ++ name)
  = [("@" ++ scope)%string; name].
Proof.
  intros Hs. unfold PyStr.split_slash_once.
  rewrite !chars_app.
  change (PyStr.chars "@") with ["@"%char].
  change (PyStr.chars "/") with ["/"%char].
  change (["@"%char] ++ PyStr.chars scope ++ ["/"%char] ++ PyStr.chars name)
    with (("@"%char :: PyStr.chars scope) ++ "/"%char :: PyStr.chars name).
  rewrite split_at_first_slash by (simpl; exact Hs).
  simpl. rewrite of_chars_chars.
  change (PyStr.of_chars ("@"%char :: PyStr.chars scope))
    with (String "@" (PyStr.of_chars (PyStr.chars scope))).
  rewrite of_chars_chars. reflexivity.
Qed.

(** X8.  For a scoped name [@scope/name], [_construct_npm_tarball_url] gives
    [registry + scope + "/" + name + "/-/" + name + "-" + version + ".tgz"]:
    the [@] is dropped from the path and the file name carries the name
    without its scope. *)
Theorem construct_scoped_url (scope name version registry : string) :
  has_slash scope = false ->
  virustotal._construct_npm_tarball_url ("@" ++ scope ++ "/" ++ name)
    version registry
  = Ret ((registry ++ scope ++ "/" ++ name ++ "/-/")
         ++ (name ++ "-" ++ version ++ ".tgz"))%string.
Proof.
  intros Hs. unfold virustotal._construct_npm_tarball_url.
  rewrite (split_scoped scope name Hs). reflexivity.
Qed.

Lemma construct_scoped_url_witness :
  virustotal._construct_npm_tarball_url ("@" ++ "babel" ++ "/" ++ "core")
    "7.24.0" "https://registry.npmjs.org/"
  = Ret (("https://registry.npmjs.org/" ++ "babel" ++ "/" ++ "core" ++ "/-/")
         ++ ("core" ++ "-" ++ "7.24.0" ++ ".tgz"))%string.
Proof.
  apply (@construct_scoped_url "babel" "core" "7.24.0"
           "https://registry.npmjs.org/").
  reflexivity.
Defined.

(** The two ways [_construct_npm_tarball_url] ends. *)
Lemma construct_cases (package_name version registry : string) :
  if PyStr.startswith_at package_name && negb (has_slash package_name)
  then virustotal._construct_npm_tarball_url package_name version registry
       = Raise ValueError
  else exists url,
         virustotal._construct_npm_tarball_url package_name version registry
         = Ret url.
Proof.
  unfold virustotal._construct_npm_tarball_url.
  destruct (PyStr.startswith_at package_name) eqn:Ha; simpl;
    [| eexists; reflexivity].
  unfold has_slash, PyStr.split_slash_once.
  destruct (existsb (fun c => Ascii.eqb c "/"%char) (PyStr.chars package_name))
    eqn:Hs; simpl.
  - apply existsb_exists in Hs. destruct Hs as (c & Hin & Hc).
    apply Ascii.eqb_eq in Hc. subst c.
    apply in_split in Hin. destruct Hin as (l1 & l2 & Hl).
    revert Hl. generalize (PyStr.chars package_name) as l. intros l ->.
    assert (Hfirst : exists a b,
              l1 ++ "/"%char :: l2 = a ++ "/"%char :: b /\
              existsb (fun c => Ascii.eqb c "/"%char) a = false).
    { clear. induction l1 as [| c l1 (a & b & Heq & Ha)]; simpl.
      - exists [], l2. split; reflexivity.
      - destruct (Ascii.eqb c "/"%char) eqn:Ec.
        + apply Ascii.eqb_eq in Ec. subst c. exists [], (l1 ++ "/"%char :: l2).
          split; reflexivity.
        + exists (c :: a), b. simpl. rewrite Heq, Ec. split; [reflexivity | exact Ha]. }
    destruct Hfirst as (a & b & -> & Ha').
    rewrite (split_at_first_slash a b [] Ha'). eexists. reflexivity.
  - rewrite (split_no_slash _ [] Hs). reflexivity.
Qed.

(** X9.  [_construct_npm_tarball_url] raises [ValueError] exactly for the
    names that start with [@] and hold no [/]; for every other name it gives a
    URL. *)
Theorem construct_raises_exactly (package_name version registry : string) :
  if PyStr.startswith_at package_name && negb (has_slash package_name)
  then virustotal._construct_npm_tarball_url package_name version registry
       = Raise ValueError
  else exists url,
         virustotal._construct_npm_tarball_url package_name version registry
         = Ret url.
Proof. exact (construct_cases package_name version registry). Qed.

(* ------------------------------------------------------------------------- *)
(** ** Exceptions that leave the npm resolver *)

Section LetsOut.

Variable P : exn -> Prop.

Lemma lets_out_ret {A : Type} (a : A) : wp (Ret a) (lets_out P).
Proof. simpl. intros e He. discriminate He. Qed.

Lemma lets_out_bind {A B : Type} (m : Prog A) (f : A -> Prog B) :
  wp m (lets_out P) -> (forall a, wp (f a) (lets_out P)) ->
  wp (bind m f) (lets_out P).
Proof.
  intros Hm Hf. apply wp_bind. revert Hm. apply wp_mono.
  intros t [a | e] Ho.
  - generalize (Hf a). apply wp_mono. intros t2 o2 H. exact H.
  - intros e' Heq He'. injection Heq as ->. exact (Ho e' eq_refl He').
Qed.

Lemma lets_out_try_except {A : Type} (body : Prog A) (handler : exn -> Prog A) :
  (forall e, wp (handler e) (lets_out P)) ->
  wp (try_except body handler) (lets_out P).
Proof.
  intros Hh. apply wp_try_except. apply wp_exec. intros t [a | e] _.
  - intros e He. discriminate He.
  - destruct (is_Exception e) eqn:He.
    + generalize (Hh e). apply wp_mono. intros t2 o2 H. exact H.
    + intros e' Heq He'. injection Heq as ->. congruence.
Qed.

End LetsOut.

Lemma construct_lets_out (package_name version registry : string) :
  wp (virustotal._construct_npm_tarball_url package_name version registry)
    (lets_out (fun e =>
       e = ValueError /\ PyStr.startswith_at package_name = true /\
       has_slash package_name = false)).
Proof.
  pose proof (construct_cases package_name version registry) as H.
  destruct (PyStr.startswith_at package_name) eqn:Ha;
    destruct (has_slash package_name) eqn:Hs; simpl in H.
  - destruct H as (url & ->). apply lets_out_ret.
  - rewrite H. simpl. intros e He _. injection He as <-. repeat split.
  - destruct H as (url & ->). apply lets_out_ret.
  - destruct H as (url & ->). apply lets_out_ret.
Qed.

Ltac lets_out_step :=
  first
    [ apply lets_out_ret
    | apply lets_out_try_except; intros
    | apply construct_lets_out
    | apply lets_out_bind; [| intros]
    | match goal with
      | |- wp (match ?x with _ => _ end) _ => destruct x
      | |- wp (if ?b then _ else _) _ => destruct b
      end ].

(** X10.  The npm branch of the resolver lets out one [Exception] only: the
    [ValueError] that [_construct_npm_tarball_url] raises for a name that
    starts with [@] and holds no [/].  Whatever the registry, the network
    and the npm tool do, no other instance of [Exception] leaves it. *)
Theorem npm_resolver_lets_out (package_name tmpdir : string)
  (t : list Event) (o : Outcome (option string)) (e : exn) :
  exec (virustotal.artifact_hash_in package_name "npm" tmpdir) t o ->
  o = Raised e ->
  is_Exception e = true ->
  e = ValueError /\ PyStr.startswith_at package_name = true /\
  has_slash package_name = false.
Proof.
  intros Hex. revert e.
  change (lets_out (fun e => e = ValueError /\
                             PyStr.startswith_at package_name = true /\
                             has_slash package_name = false) t o).
  revert t o Hex.
  apply (proj1 (wp_exec (virustotal.artifact_hash_in package_name "npm" tmpdir) _)).
  change (virustotal.artifact_hash_in package_name "npm" tmpdir)
    with (virustotal.npm_artifact_hash package_name tmpdir).
  unfold virustotal.npm_artifact_hash, virustotal.npm_after_metadata,
    virustotal._get_npm_registry, virustotal._get_npm_metadata,
    virustotal._get_npm_latest_tarball_from_registry,
    virustotal._download_npm_tarball, virustotal._npm_pack_fallback.
  repeat lets_out_step.
Qed.

Lemma npm_resolver_lets_out_witness :
  let r := run answer (virustotal.artifact_hash_in "@babel" "npm" "/tmp/s")
             (npm_world (JDict [("version", JStr "7.24.0")]) 404
                (Err ConnectionError)) in
  ValueError = ValueError /\ PyStr.startswith_at "@babel" = true /\
  has_slash "@babel" = false.
Proof.
  intros r.
  apply (@npm_resolver_lets_out "@babel" "/tmp/s" (trace_of r) (outcome_of r)
           ValueError).
  - apply run_exec.
  - reflexivity.
  - reflexivity.
Defined.

(* ------------------------------------------------------------------------- *)
(** ** The reputation query inside the scan *)

Lemma replied_calls (package_name : string) (resp : Response) :
  calls_in not_download_failed (cli.after_reply package_name resp).
Proof.
  unfold cli.after_reply, virustotal.decode_reply, cli.report, cli.confirm,
    cli.read_choice, cli.on_exception, cli.as_dict, cli.stat_required,
    cli.stat_optional, cli.lift, print.
  repeat calls_step.
Qed.

Lemma not_download_failed_trace (t : list Event) :
  Forall (event_call not_download_failed) t -> ~ In MsgDownloadFailed (printed t).
Proof.
  induction 1 as [| [X c x] t Hc _ IH]; simpl; [tauto |].
  intros Hin. apply in_app_or in Hin. destruct Hin as [Hin | Hin]; [| tauto].
  destruct c; simpl in Hin; try tauto.
  destruct Hin as [Heq | []]. subst m. exact Hc.
Qed.

(** X11.  One call of the scan queries the reputation service at most once:
    there is no retry after an error answer or a transport failure.  When
    the download-failed line was printed (the resolver gave no hash), the
    service was not queried at all. *)
Theorem reputation_queried_at_most_once (package_name : string)
  (manager_name : option string) (t : list Event) (o : Outcome bool) :
  exec (cli._virustotal_scan package_name manager_name) t o ->
  (List.length (vt_replies t) <= 1)%nat /\
  (In MsgDownloadFailed (printed t) -> vt_replies t = []).
Proof.
  intros Hex.
  destruct (@scan_stages _ _ _ _ Hex) as (pre & s & post & -> & _ & Hpr & Hat & Hrem).
  rewrite vt_replies_app, (@remainder_silent _ _ _ _ Hrem), app_nil_r.
  split.
  - destruct s as [| resp | e]; simpl in Hat.
    + rewrite Hat. simpl. lia.
    + rewrite Hat. simpl. lia.
    + destruct Hat as [-> | ->]; simpl; lia.
  - rewrite printed_app. intros Hin. apply in_app_or in Hin.
    destruct Hin as [Hin | Hin].
    + exfalso. revert Hin. apply opening_not; [exact Hpr | simpl; tauto].
    + destruct s as [| resp | e]; simpl in Hat, Hrem.
      * exact Hat.
      * exfalso. revert Hin. apply not_download_failed_trace.
        exact (proj1 (wp_exec _ _)
                 (@calls_in_wp _ _ _ (replied_calls package_name resp))
                 post o Hrem).
      * exfalso. destruct (is_Exception e); simpl in Hrem.
        -- destruct Hrem as ([] & t1 & -> & -> & ->). simpl in Hin.
           destruct Hin as [Hin | []]. discriminate Hin.
        -- destruct Hrem as (-> & ->). destruct Hin.
Qed.

Lemma reputation_queried_at_most_once_witness :
  let r := run answer (cli._virustotal_scan "left-pad" (Some "pip3"))
             (pip_world (Ok (error_response 500 "oops")) (Ok "y")) in
  (List.length (vt_replies (trace_of r)) <= 1)%nat /\
  (In MsgDownloadFailed (printed (trace_of r)) -> vt_replies (trace_of r) = []).
Proof.
  intros r.
  apply (@reputation_queried_at_most_once "left-pad" (Some "pip3") (trace_of r)
           (outcome_of r)).
  apply run_exec.
Defined.

(* ------------------------------------------------------------------------- *)
(** ** The report on bodies of other shapes *)

Lemma scan_after_200 (package_name : string) (manager_name : option string)
  (t : list Event) (o : Outcome bool) (resp : Response) (result : JSON) :
  exec (cli._virustotal_scan package_name manager_name) t o ->
  In (Ok resp) (vt_replies t) ->
  status_code resp = 200 -> json resp = Ok result ->
  exists pre post,
    t = pre ++ post /\ prompts pre = [] /\ Forall opening_line (printed pre) /\
    exec (try_except (cli.report package_name result) cli.on_exception) post o.
Proof.
  intros Hex Hin Hs Hj.
  destruct (@scan_replied _ _ _ _ _ Hex Hin) as (pre & post & -> & Hpm & Hpr & Hpost).
  exists pre, post. repeat split; try assumption.
  unfold cli.after_reply, virustotal.decode_reply in Hpost.
  rewrite Hs, Hj in Hpost. exact Hpost.
Qed.

(** X12.  When the reputation service answers 200 with a body that has
    neither a non-empty dict under [data] nor a truthy [error] (the hash is
    unknown to the service), the scan prints the no-data line and returns
    [True] without asking the operator. *)
Theorem unknown_hash_allows (package_name : string)
  (manager_name : option string) (t : list Event) (o : Outcome bool)
  (resp : Response) (result : JSON) :
  exec (cli._virustotal_scan package_name manager_name) t o ->
  In (Ok resp) (vt_replies t) ->
  status_code resp = 200 -> json resp = Ok result ->
  cli.analysis_data result = None -> cli.error_info result = None ->
  o = Returned true /\ prompts t = [] /\ In MsgNoData (printed t).
Proof.
  intros Hex Hin Hs Hj Hd He.
  destruct (scan_after_200 _ _ _ _ _ _ Hex Hin Hs Hj)
    as (pre & post & -> & Hpm & Hpr & Hpost).
  unfold cli.report in Hpost. rewrite Hd, He in Hpost. simpl in Hpost.
  destruct Hpost as ([] & t1 & -> & -> & ->).
  rewrite prompts_app, printed_app, Hpm. simpl.
  repeat split. apply in_or_app. right. simpl. auto.
Qed.

Lemma unknown_hash_allows_witness :
  let r := run answer (cli._virustotal_scan "left-pad" (Some "pip3"))
             (pip_world (Ok (ok_response (JDict []))) (Ok "n")) in
  outcome_of r = Returned true /\ prompts (trace_of r) = [] /\
  In MsgNoData (printed (trace_of r)).
Proof.
  intros r.
  apply (@unknown_hash_allows "left-pad" (Some "pip3") (trace_of r)
           (outcome_of r) (ok_response (JDict [])) (JDict [])).
  - apply run_exec.
  - vm_compute. left. reflexivity.
  - reflexivity.
  - reflexivity.
  - reflexivity.
  - reflexivity.
Defined.

(** X13.  When the reputation service answers 200 with a body that
    [resp.json()] cannot decode, the exception reaches the [except] clause:
    the scan prints the skipped line and returns [True] without asking the
    operator. *)
Theorem undecodable_body_allows (package_name : string)
  (manager_name : option string) (t : list Event) (o : Outcome bool)
  (resp : Response) (e : exn) :
  exec (cli._virustotal_scan package_name manager_name) t o ->
  In (Ok resp) (vt_replies t) ->
  status_code resp = 200 -> json resp = Err e -> is_Exception e = true ->
  o = Returned true /\ prompts t = [] /\ In (MsgScanSkipped e) (printed t).
Proof.
  intros Hex Hin Hs Hj He.
  destruct (@scan_replied _ _ _ _ _ Hex Hin) as (pre & post & -> & Hpm & Hpr & Hpost).
  unfold cli.after_reply, virustotal.decode_reply in Hpost.
  rewrite Hs, Hj in Hpost. simpl in Hpost. rewrite He in Hpost. simpl in Hpost.
  destruct Hpost as ([] & t1 & -> & -> & ->).
  rewrite prompts_app, printed_app, Hpm. simpl.
  repeat split. apply in_or_app. right. simpl. auto.
Qed.

Lemma undecodable_body_allows_witness :
  let resp := {| status_code := 200; text := "<html>";
                 json := Err JSONDecodeError |} in
  let r := run answer (cli._virustotal_scan "left-pad" (Some "pip3"))
             (pip_world (Ok resp) (Ok "n")) in
  outcome_of r = Returned true /\ prompts (trace_of r) = [] /\
  In (MsgScanSkipped JSONDecodeError) (printed (trace_of r)).
Proof.
  intros resp r.
  apply (@undecodable_body_allows "left-pad" (Some "pip3") (trace_of r)
           (outcome_of r) resp JSONDecodeError).
  - apply run_exec.
  - vm_compute. left. reflexivity.
  - reflexivity.
  - reflexivity.
  - reflexivity.
Defined.

Lemma int_error_is_Exception (v : JSON) (e : exn) :
  Py.int v = Err e -> is_Exception e = true.
Proof.
  destruct v as [| b | z | [| | q] | s | l | d]; simpl; try discriminate;
    try (intros H; injection H as <-; reflexivity).
  unfold Py.int_of_str.
  match goal with
  | |- context [let '(_, _) := ?x in _] => destruct x as [neg ds]
  end.
  destruct (Py.max_str_digits <? _);
    [| destruct (Py.digits_value ds 0 false); [discriminate |]].
  all: intros H; injection H as <-; reflexivity.
Qed.

Lemma report_with_stats (package_name : string) (result : JSON)
  (stats : list (string * JSON)) :
  analysis_stats result = Some stats ->
  cli.report package_name result =
  (malicious <- cli.stat_required stats "malicious" ;;
   undetected <- cli.stat_optional stats "undetected" ;;
   suspicious <- cli.stat_optional stats "suspicious" ;;
   harmless <- cli.stat_optional stats "harmless" ;;
   print (MsgStatsTable malicious suspicious harmless undetected) ;;
   if malicious >? 0
   then print (MsgMalicious package_name) ;; Ret false
   else if suspicious >? 0
   then print (MsgSuspicious suspicious package_name) ;;
        cli.confirm PromptInstallAnyway MsgProceedDespiteSuspicious
   else print MsgClean ;; Ret true)%prog.
Proof.
  unfold analysis_stats, cli.report. intros H.
  destruct (cli.analysis_data result) as [data |]; [| discriminate].
  destruct (cli.get_or_empty data "attributes") as [| | | | | | attrs];
    try discriminate.
  simpl.
  destruct (cli.get_or_empty attrs "last_analysis_stats") as [| | | | | | sd];
    try discriminate.
  injection H as ->. reflexivity.
Qed.

(** X14.  When the stats of a 200 answer hold a [malicious] value that
    [int()] rejects ([null], a list, a non-numeric string), the scan does not
    block: the conversion error reaches the [except] clause and the scan
    returns [True] without asking the operator, whatever the suspicious count
    is. *)
Theorem unreadable_malicious_allows (package_name : string)
  (manager_name : option string) (t : list Event) (o : Outcome bool)
  (resp : Response) (result : JSON) (stats : list (string * JSON)) (e : exn) :
  exec (cli._virustotal_scan package_name manager_name) t o ->
  In (Ok resp) (vt_replies t) ->
  status_code resp = 200 -> json resp = Ok result ->
  analysis_stats result = Some stats ->
  Py.int (Py.get_default stats "malicious" (JInt 0)) = Err e ->
  o = Returned true /\ prompts t = [] /\ In (MsgScanSkipped e) (printed t).
Proof.
  intros Hex Hin Hs Hj Hst Hint.
  destruct (scan_after_200 _ _ _ _ _ _ Hex Hin Hs Hj)
    as (pre & post & -> & Hpm & Hpr & Hpost).
  rewrite (report_with_stats package_name _ _ Hst) in Hpost.
  unfold cli.stat_required in Hpost. rewrite Hint in Hpost. simpl in Hpost.
  rewrite (int_error_is_Exception _ _ Hint) in Hpost. simpl in Hpost.
  destruct Hpost as ([] & t1 & -> & -> & ->).
  rewrite prompts_app, printed_app, Hpm. simpl.
  repeat split. apply in_or_app. right. simpl. auto.
Qed.

Lemma unreadable_malicious_allows_witness :
  let body := JDict [("data",
                JDict [("attributes",
                  JDict [("last_analysis_stats",
                    JDict [("malicious", JNull); ("suspicious", JInt 9)])])])] in
  let r := run answer (cli._virustotal_scan "evil-pkg" (Some "pip3"))
             (pip_world (Ok (ok_response body)) (Ok "n")) in
  outcome_of r = Returned true /\ prompts (trace_of r) = [] /\
  In (MsgScanSkipped TypeError) (printed (trace_of r)).
Proof.
  intros body r.
  apply (unreadable_malicious_allows "evil-pkg" (Some "pip3") (trace_of r)
           (outcome_of r) (ok_response body) body
           [("malicious", JNull); ("suspicious", JInt 9)]%string TypeError).
  - apply run_exec.
  - vm_compute. left. reflexivity.
  - reflexivity.
  - reflexivity.
  - reflexivity.
  - reflexivity.
Defined.

Lemma stat_optional_absent (stats : list (string * JSON)) (k : string) :
  Py.lookup stats k = None -> cli.stat_optional stats k = Ret 0.
Proof.
  intros H. unfold cli.stat_optional, Py.contains. rewrite H. reflexivity.
Qed.

Lemma stat_optional_cases (stats : list (string * JSON)) (k : string) :
  (exists z, cli.stat_optional stats k = Ret z) \/
  (exists e, cli.stat_optional stats k = Raise e /\ is_Exception e = true).
Proof.
  unfold cli.stat_optional. destruct (Py.contains stats k).
  - destruct (Py.int (Py.get_default stats k (JInt 0))) as [z | e] eqn:E; simpl.
    + left. exists z. reflexivity.
    + right. exists e. split; [reflexivity |].
      exact (int_error_is_Exception _ _ E).
  - left. exists 0. reflexivity.
Qed.

(** X15.  When the stats of a 200 answer carry neither a [malicious] nor a
    [suspicious] key, both counts are taken as 0: the scan returns [True]
    without asking the operator, whatever the other entries hold. *)
Theorem missing_counts_allow (package_name : string)
  (manager_name : option string) (t : list Event) (o : Outcome bool)
  (resp : Response) (result : JSON) (stats : list (string * JSON)) :
  exec (cli._virustotal_scan package_name manager_name) t o ->
  In (Ok resp) (vt_replies t) ->
  status_code resp = 200 -> json resp = Ok result ->
  analysis_stats result = Some stats ->
  Py.lookup stats "malicious" = None ->
  Py.lookup stats "suspicious" = None ->
  o = Returned true /\ prompts t = [].
Proof.
  intros Hex Hin Hs Hj Hst Hm Hsu.
  destruct (scan_after_200 _ _ _ _ _ _ Hex Hin Hs Hj)
    as (pre & post & -> & Hpm & Hpr & Hpost).
  rewrite prompts_app, Hpm. simpl. clear Hex Hin.
  pattern post, o. revert post o Hpost.
  apply (proj1 (wp_exec _ _)).
  rewrite (report_with_stats package_name _ _ Hst).
  unfold cli.stat_required, Py.get_default. rewrite Hm. simpl.
  rewrite (stat_optional_absent _ _ Hsu).
  destruct (stat_optional_cases stats "undetected") as [(u & ->) | (e & -> & He)];
    simpl; [| rewrite He; simpl; intros []; split; reflexivity].
  destruct (stat_optional_cases stats "harmless") as [(h & ->) | (e & -> & He)];
    simpl; [| rewrite He; simpl; intros []; split; reflexivity].
  intros [] []. split; reflexivity.
Qed.

Lemma missing_counts_allow_witness :
  let body := JDict [("data", JDict [("id", JStr "9f2c")])] in
  let r := run answer (cli._virustotal_scan "left-pad" (Some "pip3"))
             (pip_world (Ok (ok_response body)) (Ok "n")) in
  outcome_of r = Returned true /\ prompts (trace_of r) = [].
Proof.
  intros body r.
  apply (missing_counts_allow "left-pad" (Some "pip3") (trace_of r)
           (outcome_of r) (ok_response body) body []).
  - apply run_exec.
  - vm_compute. left. reflexivity.
  - reflexivity.
  - reflexivity.
  - reflexivity.
  - reflexivity.
  - reflexivity.
Defined.

(* ------------------------------------------------------------------------- *)
(** ** When the scan says no *)

Lemma after_reply_refusal (package_name : string) (resp : Response) :
  wp (cli.after_reply package_name resp) (fun t o =>
    o = Returned false ->
    (exists m s h u,
        0 < m /\ In (MsgStatsTable m s h u) (printed t) /\ prompts t = []) \/
    (exists p r, prompts t = [(p, Ok r)] /\ says_yes r = false)).
Proof.
  unfold cli.after_reply, virustotal.decode_reply, cli.report, cli.confirm,
    cli.read_choice, cli.on_exception, cli.as_dict, cli.stat_required,
    cli.stat_optional, cli.lift, print, ask, call.
  repeat (simpl; wp_step).
  all: simpl in *; intros; try discriminate.
  all: first
    [ left; do 4 eexists;
      refine (conj _ (conj (or_introl eq_refl) eq_refl));
      apply Z.gtb_lt; assumption
    | right; do 2 eexists; split; [reflexivity |];
      unfold says_yes;
      match goal with
      | H : negb ?b = true |- ?b = false => destruct b; [discriminate H | reflexivity]
      end ].
Qed.

(** X16.  The scan returns [False] in two situations only: the reputation
    service reported a positive malicious count (and then no prompt was
    issued), or the operator was asked once and answered something other than
    [y].  Resolver failures, service errors and exceptions never make it
    return [False] by themselves. *)
Theorem refusal_has_a_cause (package_name : string)
  (manager_name : option string) (t : list Event) (o : Outcome bool) :
  exec (cli._virustotal_scan package_name manager_name) t o ->
  o = Returned false ->
  (exists m s h u,
      0 < m /\ In (MsgStatsTable m s h u) (printed t) /\ prompts t = []) \/
  (exists p r, prompts t = [(p, Ok r)] /\ says_yes r = false).
Proof.
  intros Hex Ho.
  destruct (@scan_stages _ _ _ _ Hex) as (pre & s & post & -> & Hpm & _ & _ & Hrem).
  rewrite prompts_app, printed_app, Hpm. simpl.
  assert (Hpost :
    (exists m s h u,
        0 < m /\ In (MsgStatsTable m s h u) (printed post) /\ prompts post = []) \/
    (exists p r, prompts post = [(p, Ok r)] /\ says_yes r = false)).
  { destruct s as [| resp | e]; simpl in Hrem.
    - destruct Hrem as ([] & t1 & -> & Hrem).
      apply confirm_exec in Hrem; [| exact I].
      destruct Hrem as (a & rest & -> & Hrp & _ & Hd). subst o.
      right. simpl. fold (prompts rest). rewrite Hrp.
      destruct a as [r | e]; simpl in Hd.
      + exists PromptProceedAnyway, r. split; [reflexivity |].
        injection Hd as Hd. symmetry. exact Hd.
      + destruct (is_Exception e); discriminate Hd.
    - exact (proj1 (wp_exec _ _) (after_reply_refusal package_name resp)
               post o Hrem Ho).
    - subst o. destruct (is_Exception e); simpl in Hrem.
      + destruct Hrem as ([] & t1 & -> & -> & Hd). discriminate Hd.
      + destruct Hrem as (-> & Hd). discriminate Hd. }
  destruct Hpost as [(m & s' & h & u & Hm & Hin & Hp) | Hp]; [left | right; exact Hp].
  exists m, s', h, u. repeat split; [exact Hm | | exact Hp].
  apply in_or_app. right. exact Hin.
Qed.

Lemma refusal_has_a_cause_witness :
  let r := run answer (cli._virustotal_scan "left-pad" (Some "pip3"))
             (pip_world (Ok (found_response 0 2 60 8)) (Ok "no")) in
  (exists m s h u,
      0 < m /\ In (MsgStatsTable m s h u) (printed (trace_of r)) /\
      prompts (trace_of r) = []) \/
  (exists p a, prompts (trace_of r) = [(p, Ok a)] /\ says_yes a = false).
Proof.
  intros r.
  apply (refusal_has_a_cause "left-pad" (Some "pip3") (trace_of r) (outcome_of r)).
  - apply run_exec.
  - reflexivity.
Defined.

(* ------------------------------------------------------------------------- *)
(** ** The API key *)

(** X17.  [get_virustotal_api_key] never returns an empty key.  When
    [VT_API_KEY] is set to a non-empty value it returns that value and leaves
    the environment alone; when the variable is unset or empty it returns the
    built-in key and writes it to [VT_API_KEY]. *)
Theorem api_key_never_empty (t : list Event) (o : Outcome string) :
  exec virustotal.get_virustotal_api_key t o ->
  exists env key,
    environ_reads t = [("VT_API_KEY"%string, env)] /\
    o = Returned key /\ PyStr.truthy key = true /\
    (if virustotal.truthy_opt env
     then env = Some key /\ environ_writes t = []
     else key = virustotal.DEFAULT_API_KEY /\
          environ_writes t = [("VT_API_KEY"%string, virustotal.DEFAULT_API_KEY)]).
Proof.
  unfold virustotal.get_virustotal_api_key, ask. simpl.
  intros (env & t1 & -> & Hex). exists env.
  destruct env as [[| c k] |]; simpl in Hex.
  - destruct Hex as ([] & t2 & -> & -> & ->). eexists. repeat split.
  - destruct Hex as (-> & ->). eexists. repeat split.
  - destruct Hex as ([] & t2 & -> & -> & ->). eexists. repeat split.
Qed.

Lemma api_key_never_empty_witness :
  let r := run answer virustotal.get_virustotal_api_key
             (with_environ (Some "") (no_artifact_world (Ok "n"))) in
  exists env key,
    environ_reads (trace_of r) = [("VT_API_KEY"%string, env)] /\
    outcome_of r = Returned key /\ PyStr.truthy key = true /\
    (if virustotal.truthy_opt env
     then env = Some key /\ environ_writes (trace_of r) = []
     else key = virustotal.DEFAULT_API_KEY /\
          environ_writes (trace_of r)
          = [("VT_API_KEY"%string, virustotal.DEFAULT_API_KEY)]).
Proof.
  intros r.
  apply (api_key_never_empty (trace_of r) (outcome_of r)).
  apply run_exec.
Defined.

(* ------------------------------------------------------------------------- *)
(** ** The digest that is sent to the reputation service *)

Lemma hashed_app (t1 t2 : list Event) : hashed (t1 ++ t2) = hashed t1 ++ hashed t2.
Proof. apply flat_map_app. Qed.

Lemma wp_any {A : Type} (p : Prog A) : wp p (fun _ _ => True).
Proof. apply wp_exec. intros; exact I. Qed.

Lemma hash_computed_later {A : Type} (m : Prog A)
  (f : A -> Prog (option string)) :
  (forall a, wp (f a) hash_computed) -> wp (bind m f) hash_computed.
Proof.
  intros Hf. apply wp_bind. generalize (wp_any m). apply wp_mono.
  intros t1 [a | e] _.
  - generalize (Hf a). apply wp_mono. intros t2 o H h Ho.
    destruct (H h Ho) as (p & Hp). exists p. rewrite hashed_app.
    apply in_or_app. right. exact Hp.
  - intros h Ho. discriminate Ho.
Qed.

Lemma hash_computed_try_none (body : Prog (option string)) :
  wp body hash_computed ->
  wp (try_except body (fun _ => Ret None)) hash_computed.
Proof.
  intros Hb. apply wp_try_except. revert Hb. apply wp_mono.
  intros t [a | e] H.
  - exact H.
  - destruct (is_Exception e); simpl; intros h Ho; discriminate Ho.
Qed.

Lemma hash_computed_finally (body : Prog (option string)) (cleanup : Prog unit) :
  wp body hash_computed -> wp (try_finally body cleanup) hash_computed.
Proof.
  intros Hb. apply wp_try_finally. revert Hb. apply wp_mono.
  intros t1 o1 H. generalize (wp_any cleanup). apply wp_mono.
  intros t2 [u | e] _.
  - intros h Ho. destruct (H h Ho) as (p & Hp). exists p.
    rewrite hashed_app. apply in_or_app. left. exact Hp.
  - intros h Ho. discriminate Ho.
Qed.

Lemma hash_computed_hash (path : string) :
  wp (h <- virustotal.calculate_file_hash path ;; Ret (Some h)) hash_computed.
Proof.
  unfold virustotal.calculate_file_hash, call. simpl.
  intros [h | e]; simpl; intros h' Ho; [| discriminate Ho].
  injection Ho as <-. exists path. simpl. auto.
Qed.

Lemma hash_computed_none : wp (Ret (@None string)) hash_computed.
Proof. simpl. intros h Ho. discriminate Ho. Qed.

Lemma first_file_hash_computed (tmpdir : string) (names : list string) :
  wp (virustotal.first_file_hash tmpdir names) hash_computed.
Proof.
  generalize (first_file_hash_spec tmpdir names). apply wp_mono.
  intros t o (_ & _ & Hsome & _) h Ho.
  destruct (Hsome h Ho) as (before & f & after & _ & _ & Hh).
  exists (PyStr.path_join tmpdir f). rewrite Hh. simpl. auto.
Qed.

Ltac hash_computed_step :=
  first
    [ apply hash_computed_none
    | apply hash_computed_hash
    | apply first_file_hash_computed
    | apply hash_computed_try_none
    | apply hash_computed_later; intros
    | match goal with
      | |- wp (match ?x with _ => _ end) _ => destruct x
      | |- wp (if ?b then _ else _) _ => destruct b
      end ].

Lemma pip_hash_computed (package_name tmpdir : string) :
  wp (virustotal._download_pip_artifact package_name tmpdir) hash_computed.
Proof.
  unfold virustotal._download_pip_artifact. cbv zeta.
  repeat hash_computed_step.
Qed.

Lemma download_tarball_hash_computed (url tmpdir package_name : string) :
  wp (virustotal._download_npm_tarball url tmpdir package_name) hash_computed.
Proof.
  unfold virustotal._download_npm_tarball. repeat hash_computed_step.
Qed.

Lemma pack_hash_computed (package_name tmpdir : string) :
  wp (virustotal._npm_pack_fallback package_name tmpdir) hash_computed.
Proof.
  unfold virustotal._npm_pack_fallback. repeat hash_computed_step.
Qed.

Lemma npm_hash_computed (package_name tmpdir : string) :
  wp (virustotal.npm_artifact_hash package_name tmpdir) hash_computed.
Proof.
  unfold virustotal.npm_artifact_hash, virustotal.npm_after_metadata.
  do 4 (apply hash_computed_later; intros).
  apply wp_bind.
  match goal with
  | |- wp ?m _ => assert (Hm : wp m hash_computed)
  end.
  { destruct (virustotal.truthy_opt _);
      [apply download_tarball_hash_computed | apply hash_computed_none]. }
  revert Hm. apply wp_mono. intros t1 [hash_val | e] H1.
  - destruct (virustotal.truthy_opt hash_val).
    + simpl. rewrite app_nil_r. exact H1.
    + generalize (pack_hash_computed package_name tmpdir). apply wp_mono.
      intros t2 o H h Ho. destruct (H h Ho) as (p & Hp). exists p.
      rewrite hashed_app. apply in_or_app. right. exact Hp.
  - intros h Ho. discriminate Ho.
Qed.

Lemma resolver_hash_computed (package_name manager : string) :
  wp (virustotal.download_package_and_get_hash package_name manager)
    hash_computed.
Proof.
  unfold virustotal.download_package_and_get_hash.
  apply hash_computed_later. intros tmpdir.
  apply hash_computed_finally. unfold virustotal.artifact_hash_in.
  destruct (String.eqb manager "pip3"); [apply pip_hash_computed |].
  destruct (String.eqb manager "npm");
    [apply npm_hash_computed | apply hash_computed_none].
Qed.

Lemma exec_try_except_bind {A B : Type} (m : Prog A) (f : A -> Prog B)
  (handler : exn -> Prog B) (t : list Event) (o : Outcome B) :
  exec (try_except (bind m f) handler) t o ->
  exists t1 o1 t2,
    exec m t1 o1 /\ t = t1 ++ t2 /\
    exec (match o1 with
          | Returned a => try_except (f a) handler
          | Raised e => if is_Exception e then handler e else Raise e
          end) t2 o.
Proof.
  intros Hex. pattern t, o. revert t o Hex.
  apply (proj1 (wp_exec (try_except (bind m f) handler) _)).
  apply wp_try_except_bind. apply wp_exec. intros t1 o1 H1.
  destruct o1 as [a | e].
  - apply wp_exec. intros t2 o H2. exists t1, (Returned a), t2. auto.
  - destruct (is_Exception e) eqn:He.
    + apply wp_exec. intros t2 o H2. exists t1, (Raised e), t2.
      rewrite He. auto.
    + exists t1, (Raised e), []. rewrite He, app_nil_r. simpl. auto.
Qed.

Lemma vt_requests_app (t1 t2 : list Event) :
  vt_requests (t1 ++ t2) = vt_requests t1 ++ vt_requests t2.
Proof. apply flat_map_app. Qed.

Lemma resolver_sends_no_headers (t : list Event) :
  Forall (event_call resolver_call) t -> vt_requests t = [].
Proof.
  apply flat_map_silent. intros [X c x]; destruct c; simpl; try tauto.
  destruct headers; simpl; tauto.
Qed.

Lemma not_a_request_no_headers (t : list Event) :
  Forall (event_call not_a_request) t -> vt_requests t = [].
Proof.
  apply flat_map_silent. intros [X c x]; destruct c; simpl; tauto.
Qed.

Lemma remainder_no_requests (package_name : string) (s : cli.Stage)
  (t : list Event) (o : Outcome bool) :
  exec (cli.remainder package_name s) t o -> vt_requests t = [].
Proof.
  intros Hex. apply not_a_request_no_headers.
  exact (proj1 (wp_exec _ _)
           (@calls_in_wp _ _ _ (remainder_calls package_name s)) t o Hex).
Qed.

(** X18.  Whatever request the scan sends to the reputation service, it is
    the lookup of a digest that [calculate_file_hash] computed from a file
    during this very call, the digest the hash line shows; and the
    [x-apikey] header it carries is not empty. *)
Theorem queried_digest_was_computed (package_name : string)
  (manager_name : option string) (t : list Event) (o : Outcome bool)
  (url : string) (headers : list (string * string)) :
  exec (cli._virustotal_scan package_name manager_name) t o ->
  In (url, headers) (vt_requests t) ->
  exists h path key,
    url = virustotal.VIRUSTOTAL_API_URL h /\
    headers = [("x-apikey"%string, key)] /\ PyStr.truthy key = true /\
    In (path, Ok h) (hashed t) /\ In (MsgPackageHash h) (printed t).
Proof.
  unfold cli._virustotal_scan, cli.scan_body.
  remember (virustotal.download_package_and_get_hash package_name
              (cli.or_default manager_name "pip3")) as dl eqn:Edl.
  simpl. intros ([] & t0 & -> & Hex) Hin. simpl in Hin. fold (vt_requests t0) in Hin.
  apply exec_try_except_bind in Hex.
  destruct Hex as (t1 & o1 & t2 & Hdl & -> & Htail). subst dl.
  pose proof (proj1 (wp_exec _ _) (resolver_hash_computed _ _) _ _ Hdl) as Hh.
  pose proof (proj1 (wp_exec _ _)
                (@calls_in_wp _ _ _ (resolver_calls _ _)) _ _ Hdl) as Hq.
  simpl in Hq. apply resolver_sends_no_headers in Hq.
  rewrite vt_requests_app, Hq in Hin. simpl in Hin.
  destruct o1 as [fh | e].
  - destruct (virustotal.truthy_opt fh) eqn:Hfh.
    + destruct fh as [h |]; [| discriminate Hfh].
      destruct (Hh h eq_refl) as (path & Hpath).
      simpl in Htail.
      destruct Htail as ([] & t3 & -> & [] & t4 & -> & env & t5 & -> & Htail).
      assert (Hrest : forall key t6,
        PyStr.truthy key = true ->
        exec (try_except
                (result <- virustotal.scan_file_hash_with_virustotal h key ;;
                 cli.report package_name result) cli.on_exception) t6 o ->
        In (url, headers) (vt_requests t6) ->
        url = virustotal.VIRUSTOTAL_API_URL h /\
        headers = [("x-apikey"%string, key)]).
      { intros key t6 Hk Hex6 Hin6. simpl in Hex6.
        destruct Hex6 as (reply & t7 & -> & Hex7).
        simpl in Hin6. fold (vt_requests t7) in Hin6.
        assert (H7 : vt_requests t7 = []).
        { destruct reply as [resp | e].
          - exact (remainder_no_requests package_name (cli.Replied resp) t7 o Hex7).
          - exact (remainder_no_requests package_name (cli.Failed e) t7 o Hex7). }
        rewrite H7 in Hin6. destruct Hin6 as [Heq | []].
        injection Heq as <- <-. split; reflexivity. }
      simpl in Hin. fold (vt_requests t5) in Hin.
      assert (Hprinted : In (MsgPackageHash h)
                (printed (Ev (Print (MsgPreparing package_name
                                       (cli.or_default manager_name "auto"))) tt
                          :: t1 ++ Ev (Print (MsgPackageHash h)) tt
                             :: Ev (Print MsgQuerying) tt
                             :: Ev (EnvironGet virustotal.VIRUSTOTAL_API_KEY_ENV) env
                             :: t5))).
      { simpl. right. rewrite printed_app. apply in_or_app. right. simpl. auto. }
      assert (Hhashed : In (path, Ok h)
                (hashed (Ev (Print (MsgPreparing package_name
                                      (cli.or_default manager_name "auto"))) tt
                         :: t1 ++ Ev (Print (MsgPackageHash h)) tt
                            :: Ev (Print MsgQuerying) tt
                            :: Ev (EnvironGet virustotal.VIRUSTOTAL_API_KEY_ENV) env
                            :: t5))).
      { simpl. rewrite hashed_app. apply in_or_app. left. exact Hpath. }
      destruct env as [[| c k] |]; simpl in Htail.
      * destruct Htail as ([] & t6 & -> & Htail).
        simpl in Hin. fold (vt_requests t6) in Hin.
        destruct (Hrest virustotal.DEFAULT_API_KEY t6 eq_refl Htail Hin) as (-> & ->).
        exists h, path, virustotal.DEFAULT_API_KEY. repeat split; assumption.
      * destruct (Hrest (String c k) t5 eq_refl Htail Hin) as (-> & ->).
        exists h, path, (String c k). repeat split; assumption.
      * destruct Htail as ([] & t6 & -> & Htail).
        simpl in Hin. fold (vt_requests t6) in Hin.
        destruct (Hrest virustotal.DEFAULT_API_KEY t6 eq_refl Htail Hin) as (-> & ->).
        exists h, path, virustotal.DEFAULT_API_KEY. repeat split; assumption.
    + exfalso.
      rewrite (remainder_no_requests package_name cli.NoArtifact t2 o) in Hin;
        [destruct Hin |].
      exact Htail.
  - exfalso.
    rewrite (remainder_no_requests package_name (cli.Failed e) t2 o Htail) in Hin.
    destruct Hin.
Qed.

Lemma queried_digest_was_computed_witness :
  let r := run answer (cli._virustotal_scan "left-pad" (Some "pip3"))
             (pip_world (Ok (found_response 0 0 70 0)) (Ok "n")) in
  exists h path key,
    virustotal.VIRUSTOTAL_API_URL digest = virustotal.VIRUSTOTAL_API_URL h /\
    [("x-apikey"%string, "key"%string)] = [("x-apikey"%string, key)] /\
    PyStr.truthy key = true /\
    In (path, Ok h) (hashed (trace_of r)) /\
    In (MsgPackageHash h) (printed (trace_of r)).
Proof.
  intros r.
  apply (queried_digest_was_computed "left-pad" (Some "pip3") (trace_of r)
           (outcome_of r) (virustotal.VIRUSTOTAL_API_URL digest)
           [("x-apikey"%string, "key"%string)]).
  - apply run_exec.
  - vm_compute. left. reflexivity.
Defined.

(* ------------------------------------------------------------------------- *)
(** ** Which URL the npm resolver downloads *)

Lemma registry_latest_replies_app (t1 t2 : list Event) :
  registry_latest_replies (t1 ++ t2)
  = registry_latest_replies t1 ++ registry_latest_replies t2.
Proof. apply flat_map_app. Qed.

Lemma commands_app (t1 t2 : list Event) :
  commands (t1 ++ t2) = commands t1 ++ commands t2.
Proof. apply flat_map_app. Qed.

Lemma latest_spec (package_name registry : string) :
  wp (virustotal._get_npm_latest_tarball_from_registry package_name registry)
    (fun t o =>
       registry_latest_queries t
       = [(registry ++ PyStr.quote package_name ++ "/latest")%string] /\
       tarball_downloads t = [] /\ commands t = [] /\ hashed t = [] /\
       exists reply,
         registry_latest_replies t = [reply] /\
         (if latest_interrupted reply then exists e, o = Raised e
          else o = Returned (latest_url_of reply))).
Proof.
  unfold virustotal._get_npm_latest_tarball_from_registry, call.
  simpl. intros [resp | e]; simpl.
  - destruct (status_code resp =? 200) eqn:Es; simpl.
    + destruct (json resp) as [data | e] eqn:Ej; simpl.
      * destruct data; simpl; repeat split; eexists; (split; [reflexivity |]);
          simpl; rewrite Es, Ej; reflexivity.
      * destruct (is_Exception e) eqn:He; simpl; repeat split; eexists;
          (split; [reflexivity |]); simpl; rewrite Es, Ej, He; simpl;
          try reflexivity. eexists; reflexivity.
    + repeat split; eexists; (split; [reflexivity |]); simpl; rewrite Es;
        reflexivity.
  - destruct (is_Exception e) eqn:He; simpl; repeat split; eexists;
      (split; [reflexivity |]); simpl; rewrite He; simpl; try reflexivity.
    eexists; reflexivity.
Qed.

Lemma download_spec (url tmpdir package_name : string) :
  wp (virustotal._download_npm_tarball url tmpdir package_name) (fun t o =>
    registry_latest_queries t = [] /\ registry_latest_replies t = [] /\
    tarball_downloads t = [url] /\ commands t = [] /\
    match o with
    | Returned (Some h) =>
        hashed t
        = [(PyStr.path_join tmpdir (package_name ++ ".tgz"), Ok h)]
    | _ => True
    end).
Proof.
  unfold virustotal._download_npm_tarball, virustotal.calculate_file_hash, call.
  repeat (simpl; wp_step).
  all: simpl; repeat split.
Qed.

Lemma pack_spec (package_name tmpdir : string) :
  wp (virustotal._npm_pack_fallback package_name tmpdir) (fun t o =>
    registry_latest_queries t = [] /\ registry_latest_replies t = [] /\
    tarball_downloads t = [] /\
    commands t = [["npm"; "pack"; package_name]%string]).
Proof.
  unfold virustotal._npm_pack_fallback, virustotal.calculate_file_hash, call, ask.
  repeat (simpl; wp_step).
  all: simpl; repeat split.
Qed.

Lemma latest_url_truthy (reply : Res Response) (u : string) :
  latest_url_of reply = Some u -> virustotal.truthy_opt (Some u) = true.
Proof.
  unfold latest_url_of. destruct reply as [resp | e]; [| discriminate].
  destruct (status_code resp =? 200); [| discriminate].
  destruct (json resp) as [[| | | | | | d] | e]; try discriminate.
  apply dist_tarball_truthy.
Qed.

(** From the URL that was settled on to the end of the npm branch. *)
Lemma download_or_pack_spec (package_name tmpdir : string)
  (tarball_url : option string) :
  (tarball_url = None \/ virustotal.truthy_opt tarball_url = true) ->
  wp (hash_val <-
        (if virustotal.truthy_opt tarball_url
         then virustotal._download_npm_tarball
                (match tarball_url with Some u => u | None => ""%string end)
                tmpdir package_name
         else Ret None) ;;
      if virustotal.truthy_opt hash_val then Ret hash_val
      else virustotal._npm_pack_fallback package_name tmpdir)
    (fun t o =>
       registry_latest_queries t = [] /\ registry_latest_replies t = [] /\
       tarball_downloads t
       = match tarball_url with Some u => [u] | None => [] end /\
       match commands t with
       | [] => (exists h p, o = Returned (Some h) /\ PyStr.truthy h = true /\
                            hashed t = [(p, Ok h)]) \/
               (exists e, o = Raised e)
       | [c] => c = ["npm"; "pack"; package_name]%string
       | _ => False
       end).
Proof.
  intros Htu.
  assert (Hpack : forall pre,
    registry_latest_queries pre = [] -> registry_latest_replies pre = [] ->
    commands pre = [] ->
    wp (virustotal._npm_pack_fallback package_name tmpdir) (fun t2 o =>
      registry_latest_queries (pre ++ t2) = [] /\
      registry_latest_replies (pre ++ t2) = [] /\
      tarball_downloads (pre ++ t2) = tarball_downloads pre /\
      match commands (pre ++ t2) with
      | [] => (exists h p, o = Returned (Some h) /\ PyStr.truthy h = true /\
                           hashed (pre ++ t2) = [(p, Ok h)]) \/
              (exists e, o = Raised e)
      | [c] => c = ["npm"; "pack"; package_name]%string
      | _ => False
      end)).
  { intros pre Hq Hr Hc. generalize (pack_spec package_name tmpdir).
    apply wp_mono. intros t2 o (Hq2 & Hr2 & Hd2 & Hc2).
    rewrite registry_latest_queries_app, registry_latest_replies_app,
      tarball_downloads_app, commands_app, Hq, Hr, Hc, Hq2, Hr2, Hd2, Hc2,
      ?app_nil_r.
    simpl. rewrite ?app_nil_r. repeat split. }
  apply wp_bind.
  destruct tarball_url as [u |]; destruct Htu as [Htu | Htu];
    try discriminate Htu.
  - rewrite Htu. generalize (download_spec u tmpdir package_name).
    apply wp_mono. intros t1 o1 (Hq & Hr & Hd & Hc & Hh).
    destruct o1 as [[h |] | e].
    + destruct (virustotal.truthy_opt (Some h)) eqn:Hth.
      * simpl. rewrite app_nil_r, Hq, Hr, Hd, Hc. repeat split.
        left. exists h. eexists. repeat split; [exact Hth | exact Hh].
      * generalize (Hpack t1 Hq Hr Hc). apply wp_mono.
        intros t2 o (H1 & H2 & H3 & H4). rewrite Hd in H3. auto.
    + generalize (Hpack t1 Hq Hr Hc). apply wp_mono.
      intros t2 o (H1 & H2 & H3 & H4). rewrite Hd in H3. auto.
    + rewrite Hq, Hr, Hd, Hc. repeat split. right. exists e. reflexivity.
  - exact (Hpack [] eq_refl eq_refl eq_refl).
Qed.

Lemma latest_interrupted_no_url (reply : Res Response) :
  latest_interrupted reply = true -> latest_url_of reply = None.
Proof.
  unfold latest_interrupted, latest_url_of.
  destruct reply as [resp | e]; [| reflexivity].
  destruct (status_code resp =? 200); [| reflexivity].
  destruct (json resp) as [v | e]; [discriminate | reflexivity].
Qed.

Lemma truthy_app_r (a b : string) :
  PyStr.truthy b = true -> PyStr.truthy (a ++ b) = true.
Proof. destruct a; [trivial | reflexivity]. Qed.

Lemma construct_truthy (package_name version registry u : string) :
  virustotal._construct_npm_tarball_url package_name version registry = Ret u ->
  PyStr.truthy u = true.
Proof.
  unfold virustotal._construct_npm_tarball_url.
  destruct (PyStr.startswith_at package_name).
  - destruct (PyStr.split_slash_once package_name) as [| scope [| name [| x l]]];
      try discriminate.
    intros H. injection H as <-.
    apply truthy_app_r, truthy_app_r. reflexivity.
  - intros H. injection H as <-.
    apply truthy_app_r, truthy_app_r. reflexivity.
Qed.

(** The second stage of the npm branch when neither the metadata nor the
    registry gave a URL: it raises, gives no URL, or gives the constructed
    one. *)
Lemma construct_result (package_name registry : string) (meta : JSON) :
  let stage :=
    match meta with
    | JDict md =>
        if negb (virustotal.truthy_opt None)
        then
          match Py.get md "version" with
          | JStr version =>
              if PyStr.truthy version
              then u <- virustotal._construct_npm_tarball_url
                          package_name version registry ;;
                   Ret (Some u)
              else Ret None
          | _ => Ret None
          end
        else Ret None
    | _ => Ret None
    end in
  (constructed_url package_name registry meta = None /\
   exists e, stage = Raise e) \/
  (constructed_url package_name registry meta = None /\ stage = Ret None) \/
  (exists cu,
     constructed_url package_name registry meta = Some cu /\
     stage = Ret (Some cu) /\ virustotal.truthy_opt (Some cu) = true).
Proof.
  cbv zeta. unfold constructed_url.
  destruct meta as [| | | | | | md]; try (right; left; split; reflexivity).
  simpl negb. cbv iota.
  destruct (Py.get md "version") as [| | | | v | |];
    try (right; left; split; reflexivity).
  destruct (PyStr.truthy v); [| right; left; split; reflexivity].
  pose proof (construct_cases package_name v registry) as H.
  destruct (PyStr.startswith_at package_name && negb (has_slash package_name)).
  - left. rewrite H. split; [reflexivity |]. exists ValueError. reflexivity.
  - destruct H as (url & H). right. right. exists url. rewrite H.
    repeat split. exact (construct_truthy _ _ _ _ H).
Qed.

Lemma after_metadata_spec (package_name tmpdir registry : string) (meta : JSON) :
  wp (virustotal.npm_after_metadata package_name tmpdir registry meta)
    (fun t o =>
       match direct_url meta with
       | Some u =>
           registry_latest_queries t = [] /\ registry_latest_replies t = [] /\
           tarball_downloads t = [u]
       | None =>
           registry_latest_queries t
           = [(registry ++ PyStr.quote package_name ++ "/latest")%string] /\
           exists reply,
             registry_latest_replies t = [reply] /\
             match latest_url_of reply with
             | Some u => tarball_downloads t = [u]
             | None =>
                 latest_interrupted reply = false ->
                 tarball_downloads t
                 = match constructed_url package_name registry meta with
                   | Some u => [u]
                   | None => []
                   end
             end
       end /\
       match commands t with
       | [] => (exists h p, o = Returned (Some h) /\ PyStr.truthy h = true /\
                            hashed t = [(p, Ok h)]) \/
               (exists e, o = Raised e)
       | [c] => c = ["npm"; "pack"; package_name]%string
       | _ => False
       end).
Proof.
  unfold virustotal.npm_after_metadata. cbv zeta.
  change (match meta with
          | JDict md => virustotal.dist_tarball (Py.get md "dist")
          | _ => None
          end) with (direct_url meta).
  destruct (direct_url meta) as [u |] eqn:Hdir.
  - assert (Hu : virustotal.truthy_opt (Some u) = true).
    { destruct meta; try discriminate Hdir. exact (dist_tarball_truthy _ Hdir). }
    rewrite Hu. simpl negb. cbv iota.
    assert (Hmeta : exists md, meta = JDict md).
    { destruct meta; try discriminate Hdir. eexists; reflexivity. }
    destruct Hmeta as (md & ->).
    pose proof Hu as Hu'. simpl in Hu'.
    apply wp_bind. simpl wp at 1. rewrite Hu'. simpl negb. cbv iota.
    apply wp_bind. simpl wp at 1.
    generalize (download_or_pack_spec package_name tmpdir (Some u) (or_intror Hu)).
    apply wp_mono. intros t o (Hq & Hr & Hd & Hc). simpl.
    repeat split; assumption.
  - simpl negb. cbv iota. apply wp_bind.
    generalize (latest_spec package_name registry). apply wp_mono.
    intros t1 o1 (Hq1 & Hd1 & Hc1 & Hh1 & reply & Hr1 & Ho1).
    destruct (latest_interrupted reply) eqn:Hi.
    + destruct Ho1 as (e & ->).
      rewrite Hq1, Hc1. split; [| right; exists e; reflexivity].
      split; [reflexivity |]. exists reply. split; [exact Hr1 |].
      rewrite (latest_interrupted_no_url _ Hi). intros H; congruence.
    + subst o1.
      assert (Htail : forall tu,
        (tu = None \/ virustotal.truthy_opt tu = true) ->
        (match latest_url_of reply with
         | Some u => tu = Some u
         | None => tu = constructed_url package_name registry meta
         end) ->
        wp (hash_val <-
              (if virustotal.truthy_opt tu
               then virustotal._download_npm_tarball
                      (match tu with Some u => u | None => ""%string end)
                      tmpdir package_name
               else Ret None) ;;
            if virustotal.truthy_opt hash_val then Ret hash_val
            else virustotal._npm_pack_fallback package_name tmpdir)
          (fun t2 o =>
             (registry_latest_queries (t1 ++ [] ++ t2)
              = [(registry ++ PyStr.quote package_name ++ "/latest")%string] /\
              exists reply0,
                registry_latest_replies (t1 ++ [] ++ t2) = [reply0] /\
                match latest_url_of reply0 with
                | Some u => tarball_downloads (t1 ++ [] ++ t2) = [u]
                | None =>
                    latest_interrupted reply0 = false ->
                    tarball_downloads (t1 ++ [] ++ t2)
                    = match constructed_url package_name registry meta with
                      | Some u => [u]
                      | None => []
                      end
                end) /\
             match commands (t1 ++ [] ++ t2) with
             | [] => (exists h p, o = Returned (Some h) /\
                                  PyStr.truthy h = true /\
                                  hashed (t1 ++ [] ++ t2) = [(p, Ok h)]) \/
                     (exists e, o = Raised e)
             | [c] => c = ["npm"; "pack"; package_name]%string
             | _ => False
             end)).
      { intros tu Htu Hsel.
        generalize (download_or_pack_spec package_name tmpdir tu Htu).
        apply wp_mono. intros t2 o (Hq2 & Hr2 & Hd2 & Hc2). simpl app.
        rewrite registry_latest_queries_app, registry_latest_replies_app,
          tarball_downloads_app, commands_app, hashed_app,
          Hq1, Hr1, Hd1, Hc1, Hh1, Hq2, Hr2, Hd2.
        simpl. split; [| exact Hc2].
        split; [reflexivity |]. exists reply. split; [reflexivity |].
        destruct (latest_url_of reply) as [u |].
        - subst tu. reflexivity.
        - intros _. subst tu. reflexivity. }
      apply wp_bind.
      destruct (latest_url_of reply) as [u |] eqn:HL.
      * pose proof (latest_url_truthy _ _ HL) as Hu.
        match goal with
        | |- wp ?m _ => assert (Hm : m = Ret (Some u))
        end.
        { destruct meta; try reflexivity. rewrite Hu. reflexivity. }
        rewrite Hm. cbn [wp].
        exact (Htail (Some u) (or_intror Hu) eq_refl).
      * destruct (construct_result package_name registry meta)
          as [(Hcu & e & Hraise) | [(Hcu & Hplain) | (cu & Hcu & Hret & Hnz)]].
        -- match goal with
           | |- wp ?m _ => assert (Hm : m = Raise e)
           end.
           { exact Hraise. }
           rewrite Hm. cbn [wp]. rewrite app_nil_r, Hq1, Hr1, Hd1, Hc1, Hcu.
           split; [| right; exists e; reflexivity].
           split; [reflexivity |]. exists reply. split; [reflexivity |].
           rewrite HL. reflexivity.
        -- match goal with
           | |- wp ?m _ => assert (Hm : m = Ret None)
           end.
           { exact Hplain. }
           rewrite Hm. cbn [wp].
           exact (Htail None (or_introl eq_refl) (eq_sym Hcu)).
        -- match goal with
           | |- wp ?m _ => assert (Hm : m = Ret (Some cu))
           end.
           { exact Hret. }
           rewrite Hm. cbn [wp].
           exact (Htail (Some cu) (or_intror Hnz) (eq_sym Hcu)).
Qed.

(** X19.  Where the npm branch takes the tarball from.  When the metadata of
    [npm view] carries a non-empty [dist.tarball], that URL is the one
    downloaded and the latest-version endpoint is never queried.  Otherwise
    the endpoint [registry + quote(name) + "/latest"] is queried once; the URL
    of its reply is downloaded when it gives one; when it gives none (and the
    query was not cut short by an interrupt) the URL constructed from the
    metadata's version is downloaded, and nothing is downloaded when there is
    no such URL. *)
Theorem npm_url_preference (package_name tmpdir registry : string)
  (meta : JSON) (t : list Event) (o : Outcome (option string)) :
  exec (virustotal.npm_after_metadata package_name tmpdir registry meta) t o ->
  match direct_url meta with
  | Some u => registry_latest_queries t = [] /\ tarball_downloads t = [u]
  | None =>
      registry_latest_queries t
      = [(registry ++ PyStr.quote package_name ++ "/latest")%string] /\
      exists reply,
        registry_latest_replies t = [reply] /\
        match latest_url_of reply with
        | Some u => tarball_downloads t = [u]
        | None =>
            latest_interrupted reply = false ->
            tarball_downloads t
            = match constructed_url package_name registry meta with
              | Some u => [u]
              | None => []
              end
        end
  end.
Proof.
  intros Hex.
  pose proof (proj1 (wp_exec
    (virustotal.npm_after_metadata package_name tmpdir registry meta) _)
    (after_metadata_spec package_name tmpdir registry meta) t o Hex) as [H _].
  destruct (direct_url meta).
  - destruct H as (Hq & _ & Hd). split; assumption.
  - exact H.
Qed.

Lemma npm_url_preference_witness :
  let r := run answer
             (virustotal.npm_after_metadata "left-pad" "/tmp/s"
                "https://registry.npmjs.org/"
                (JDict [("version", JStr "1.3.0")]))
             (npm_world (JDict [("version", JStr "1.3.0")]) 404
                (Err ConnectionError)) in
  registry_latest_queries (trace_of r)
  = [("https://registry.npmjs.org/" ++ PyStr.quote "left-pad" ++ "/latest")%string] /\
  exists reply,
    registry_latest_replies (trace_of r) = [reply] /\
    match latest_url_of reply with
    | Some u => tarball_downloads (trace_of r) = [u]
    | None =>
        latest_interrupted reply = false ->
        tarball_downloads (trace_of r)
        = match constructed_url "left-pad" "https://registry.npmjs.org/"
                  (JDict [("version", JStr "1.3.0")]) with
          | Some u => [u]
          | None => []
          end
    end.
Proof.
  intros r.
  apply (npm_url_preference "left-pad" "/tmp/s" "https://registry.npmjs.org/"
           (JDict [("version", JStr "1.3.0")]) (trace_of r) (outcome_of r)).
  apply run_exec.
Defined.

(** X20.  [npm pack] is the last resort of the npm branch.  After the
    metadata is read, at most one command is launched, and it is
    [npm pack <name>].  When none is launched, the branch either returned a
    non-empty digest, which is the digest computed of the one file it hashed,
    or it raised. *)
Theorem npm_pack_is_last_resort (package_name tmpdir registry : string)
  (meta : JSON) (t : list Event) (o : Outcome (option string)) :
  exec (virustotal.npm_after_metadata package_name tmpdir registry meta) t o ->
  (commands t = [] \/ commands t = [["npm"; "pack"; package_name]%string]) /\
  (commands t = [] ->
   (exists h p, o = Returned (Some h) /\ PyStr.truthy h = true /\
                hashed t = [(p, Ok h)]) \/
   (exists e, o = Raised e)).
Proof.
  intros Hex.
  pose proof (proj1 (wp_exec
    (virustotal.npm_after_metadata package_name tmpdir registry meta) _)
    (after_metadata_spec package_name tmpdir registry meta) t o Hex) as [_ H].
  destruct (commands t) as [| c [| c' l]].
  - split; [left; reflexivity | intros _; exact H].
  - subst c. split; [right; reflexivity | discriminate].
  - contradiction.
Qed.

Lemma npm_pack_is_last_resort_witness :
  let r := run answer
             (virustotal.npm_after_metadata "left-pad" "/tmp/s"
                "https://registry.npmjs.org/" (JDict left_pad_doc))
             (npm_world (JDict left_pad_doc) 200 (Err ConnectionError)) in
  (commands (trace_of r) = [] \/
   commands (trace_of r) = [["npm"; "pack"; "left-pad"]%string]) /\
  (commands (trace_of r) = [] ->
   (exists h p, outcome_of r = Returned (Some h) /\ PyStr.truthy h = true /\
                hashed (trace_of r) = [(p, Ok h)]) \/
   (exists e, outcome_of r = Raised e)).
Proof.
  intros r.
  apply (npm_pack_is_last_resort "left-pad" "/tmp/s"
           "https://registry.npmjs.org/" (JDict left_pad_doc)
           (trace_of r) (outcome_of r)).
  apply run_exec.
Defined.

(* ------------------------------------------------------------------------- *)
(** ** What a distribution URL in the metadata short-circuits *)

Lemma registry_quiet :
  wp virustotal._get_npm_registry (fun t _ =>
    commands t = [["npm"; "config"; "get"; "registry"]%string] /\
    json_loads_results t = []).
Proof.
  unfold virustotal._get_npm_registry, call.
  repeat (simpl; wp_step).
  all: split; reflexivity.
Qed.

Lemma metadata_view (package_name : string) :
  wp (virustotal._get_npm_metadata package_name) (fun t o =>
    commands t = [["npm"; "view"; package_name; "--json"]%string] /\
    forall v, In (Ok v) (json_loads_results t) -> o = Returned v).
Proof.
  unfold virustotal._get_npm_metadata, call.
  repeat (simpl; wp_step).
  all: simpl; split; [reflexivity |]; intros.
  all: repeat match goal with
       | H : _ \/ _ |- _ => destruct H
       | H : False |- _ => destruct H
       | H : Ok _ = Ok _ |- _ => injection H as <-
       | H : Err _ = Ok _ |- _ => discriminate H
       end.
  all: reflexivity.
Qed.

Lemma remove_scratch_quiet (tmpdir : string) :
  wp (virustotal.remove_scratch tmpdir) (fun t _ =>
    commands t = [] /\ json_loads_results t = []).
Proof.
  unfold virustotal.remove_scratch, call.
  repeat (simpl; wp_step).
  all: split; reflexivity.
Qed.

(** The commands of the npm branch once [json.loads] has given the
    metadata: the two that read the configuration and the metadata, and
    [npm pack] unless a download gave a digest or something was raised. *)
Lemma npm_artifact_commands (package_name tmpdir : string) :
  wp (virustotal.npm_artifact_hash package_name tmpdir) (fun t o =>
    forall v, In (Ok v) (json_loads_results t) ->
      (commands t = [["npm"; "config"; "get"; "registry"];
                     ["npm"; "view"; package_name; "--json"]]%string /\
       ((exists h, o = Returned (Some h) /\ PyStr.truthy h = true) \/
        (exists e, o = Raised e))) \/
      commands t = [["npm"; "config"; "get"; "registry"];
                    ["npm"; "view"; package_name; "--json"];
                    ["npm"; "pack"; package_name]]%string).
Proof.
  unfold virustotal.npm_artifact_hash. apply wp_bind.
  generalize registry_quiet. apply wp_mono. intros t1 o1 (Hc1 & Hj1).
  destruct o1 as [registry | e];
    [| intros v Hin; rewrite Hj1 in Hin; destruct Hin].
  apply wp_bind. generalize (metadata_view package_name).
  apply wp_mono. intros t2 o2 (Hc2 & Hj2).
  destruct o2 as [meta | e].
  - apply wp_exec. intros t3 o Hex v Hin.
    pose proof (proj1 (wp_exec _ _)
                  (after_metadata_spec package_name tmpdir registry meta)
                  t3 o Hex) as [_ Hc3].
    rewrite !commands_app, Hc1, Hc2. simpl.
    destruct (commands t3) as [| c [| c' l]].
    + left. split; [reflexivity |].
      destruct Hc3 as [(h & p & Ho & Hh & _) | He];
        [left; exists h; split; assumption | right; exact He].
    + right. subst c. reflexivity.
    + contradiction.
  - intros v Hin. rewrite json_loads_results_app, Hj1 in Hin. simpl in Hin.
    specialize (Hj2 _ Hin). discriminate Hj2.
Qed.

(** C6 (as the code has it).  In every npm resolution where the document
    decoded from [npm view] embeds a distribution URL ([dist.tarball], a
    non-empty string), fallback steps 2 and 3 are skipped: the registry's
    latest-version endpoint is never queried, and no URL is constructed, the
    one tarball download made being of the embedded URL.  Steps 4 and 5 are
    not skipped: that download is always made, and the only commands run are
    the two that read the configuration and the metadata and, after them,
    [npm pack], which is left out only when the resolver returned a
    non-empty digest or raised. *)
Theorem direct_url_skips_registry (package_name : string) (t : list Event)
  (o : Outcome (option string)) (md : list (string * JSON)) (url : string) :
  exec (virustotal.download_package_and_get_hash package_name "npm") t o ->
  In (Ok (JDict md)) (json_loads_results t) ->
  virustotal.dist_tarball (Py.get md "dist") = Some url ->
  registry_latest_queries t = [] /\
  tarball_downloads t = [url] /\
  ((commands t = [["npm"; "config"; "get"; "registry"];
                  ["npm"; "view"; package_name; "--json"]]%string /\
    ((exists h, o = Returned (Some h) /\ PyStr.truthy h = true) \/
     (exists e, o = Raised e))) \/
   commands t = [["npm"; "config"; "get"; "registry"];
                 ["npm"; "view"; package_name; "--json"];
                 ["npm"; "pack"; package_name]]%string).
Proof.
  intros Hex Hin Hurl.
  destruct (@resolver_direct _ _ _ _ _ Hex Hin Hurl) as (Hq & Hd).
  split; [exact Hq |]. split; [exact Hd |].
  clear Hq Hd Hurl. revert md Hin. pattern t, o. revert t o Hex.
  apply (proj1 (wp_exec
          (virustotal.download_package_and_get_hash package_name "npm") _)).
  unfold virustotal.download_package_and_get_hash.
  remember (virustotal.artifact_hash_in package_name "npm") as body eqn:Ebody.
  remember virustotal.remove_scratch as cleanup eqn:Ecleanup.
  simpl. intros [tmpdir | e]; simpl; [| intros md []].
  apply wp_try_finally. subst body cleanup.
  change (virustotal.artifact_hash_in package_name "npm" tmpdir)
    with (virustotal.npm_artifact_hash package_name tmpdir).
  generalize (npm_artifact_commands package_name tmpdir).
  apply wp_mono. intros t1 o1 H1.
  generalize (remove_scratch_quiet tmpdir).
  apply wp_mono. intros t2 o2 (Hc2 & Hj2).
  assert (Hgoal : forall o', (o' = o1 \/ exists e, o' = Raised e) ->
            forall md,
              In (Ok (JDict md)) (json_loads_results (t1 ++ t2)) ->
              (commands (t1 ++ t2)
               = [["npm"; "config"; "get"; "registry"];
                  ["npm"; "view"; package_name; "--json"]]%string /\
               ((exists h, o' = Returned (Some h) /\ PyStr.truthy h = true) \/
                (exists e, o' = Raised e))) \/
              commands (t1 ++ t2)
              = [["npm"; "config"; "get"; "registry"];
                 ["npm"; "view"; package_name; "--json"];
                 ["npm"; "pack"; package_name]]%string).
  { intros o' Ho' md Hin.
    rewrite json_loads_results_app, commands_app, Hc2, Hj2, !app_nil_r in *.
    destruct (H1 _ Hin) as [(Hc & Ho) | Hc]; [left | right; exact Hc].
    split; [exact Hc |].
    destruct Ho' as [-> | He]; [exact Ho | right; exact He]. }
  destruct o2 as [u | e]; simpl.
  - apply Hgoal. left. reflexivity.
  - apply Hgoal. right. exists e. reflexivity.
Qed.

Lemma direct_url_skips_registry_witness :
  let r := run answer (virustotal.download_package_and_get_hash "left-pad" "npm")
             (npm_world (JDict left_pad_doc) 200 (Err ConnectionError)) in
  registry_latest_queries (trace_of r) = [] /\
  tarball_downloads (trace_of r) = [left_pad_url] /\
  ((commands (trace_of r)
    = [["npm"; "config"; "get"; "registry"];
       ["npm"; "view"; "left-pad"; "--json"]]%string /\
    ((exists h, outcome_of r = Returned (Some h) /\ PyStr.truthy h = true) \/
     (exists e, outcome_of r = Raised e))) \/
   commands (trace_of r)
   = [["npm"; "config"; "get"; "registry"];
      ["npm"; "view"; "left-pad"; "--json"];
      ["npm"; "pack"; "left-pad"]]%string).
Proof.
  intros r.
  apply (@direct_url_skips_registry "left-pad" (trace_of r) (outcome_of r)
           left_pad_doc left_pad_url).
  - apply run_exec.
  - vm_compute. left. reflexivity.
  - reflexivity.
Defined.

(** C6, refuted as stated.  The metadata embeds a distribution URL and its
    download is answered 404: the latest-version endpoint is not queried
    (steps 2 and 3 are skipped), but the URL is downloaded (step 4) and
    [npm pack] is run (step 5), and it is [npm pack] that gives the
    digest. *)
Lemma direct_url_keeps_pack_fallback :
  let r := run answer (virustotal.download_package_and_get_hash "left-pad" "npm")
             (npm_world (JDict left_pad_doc) 404 (Err ConnectionError)) in
  exec (virustotal.download_package_and_get_hash "left-pad" "npm")
    (trace_of r) (outcome_of r) /\
  json_loads_results (trace_of r) = [Ok (JDict left_pad_doc)] /\
  virustotal.dist_tarball (Py.get left_pad_doc "dist") = Some left_pad_url /\
  registry_latest_queries (trace_of r) = [] /\
  tarball_downloads (trace_of r) = [left_pad_url] /\
  commands (trace_of r)
  = [["npm"; "config"; "get"; "registry"]; ["npm"; "view"; "left-pad"; "--json"];
     ["npm"; "pack"; "left-pad"]]%string /\
  outcome_of r = Returned (Some digest).
Proof.
  intros r. split; [apply run_exec |]. repeat split.
Qed.

(* ------------------------------------------------------------------------- *)
(** ** The semantics of the commands: [texec], [trun] and [twp] agree *)

Local Open Scope task_scope.

Lemma twp_exec {A : Type} (p : Task A) (Q : list Step -> Outcome A -> Prop) :
  twp p Q <-> (forall t o, texec p t o -> Q t o).
Proof.
  revert Q; induction p as [a | e | X c k IH]; intros Q; simpl.
  - split.
    + intros HQ t o [-> ->]; exact HQ.
    + intros H; apply H; split; reflexivity.
  - split.
    + intros HQ t o [-> ->]; exact HQ.
    + intros H; apply H; split; reflexivity.
  - split.
    + intros H t o (x & t' & -> & Hex).
      specialize (H x). rewrite IH in H. exact (H t' o Hex).
    + intros H x. rewrite IH. intros t o Hex.
      apply H. exists x, t. split; [reflexivity | exact Hex].
Qed.

Lemma twp_mono {A : Type} (p : Task A) (Q Q' : list Step -> Outcome A -> Prop) :
  (forall t o, Q t o -> Q' t o) -> twp p Q -> twp p Q'.
Proof.
  intros HQ H. rewrite twp_exec in *. intros t o Hex. apply HQ, H, Hex.
Qed.

Lemma twp_bind {A B : Type} (m : Task A) (f : A -> Task B)
  (Q : list Step -> Outcome B -> Prop) :
  twp m (fun t1 o1 =>
    match o1 with
    | Returned a => twp (f a) (fun t2 o => Q (t1 ++ t2) o)
    | Raised e => Q t1 (Raised e)
    end) ->
  twp (and_then m f) Q.
Proof.
  revert Q; induction m as [a | e | X c k IH]; intros Q; simpl.
  - trivial.
  - trivial.
  - intros H x. apply IH. exact (H x).
Qed.

Lemma twp_try_catch {A : Type} (body : Task A)
  (handler : exn -> option (Task A)) (Q : list Step -> Outcome A -> Prop) :
  twp body (fun t1 o1 =>
    match o1 with
    | Returned a => Q t1 (Returned a)
    | Raised e =>
        match handler e with
        | Some h => twp h (fun t2 o => Q (t1 ++ t2) o)
        | None => Q t1 (Raised e)
        end
    end) ->
  twp (try_catch body handler) Q.
Proof.
  revert Q; induction body as [a | e | X c k IH]; intros Q; simpl.
  - trivial.
  - destruct (handler e); trivial.
  - intros H x. apply IH. exact (H x).
Qed.

(** A program of the scan inside a command makes the steps of the scan. *)
Lemma twp_of_prog {A : Type} (p : Prog A) (Q : list Step -> Outcome A -> Prop) :
  twp (of_prog p) Q <-> (forall ts o, exec p ts o -> Q (map base ts) o).
Proof.
  revert Q; induction p as [a | e | X c k IH]; intros Q; simpl.
  - split.
    + intros HQ ts o [-> ->]; exact HQ.
    + intros H; apply (H [] (Returned a)); split; reflexivity.
  - split.
    + intros HQ ts o [-> ->]; exact HQ.
    + intros H; apply (H [] (Raised e)); split; reflexivity.
  - split.
    + intros H ts o (x & t' & -> & Hex).
      specialize (H x). rewrite IH in H. exact (H t' o Hex).
    + intros H x. rewrite IH. intros ts o Hex.
      apply (H (Ev c x :: ts) o). exists x, ts. split; [reflexivity | exact Hex].
Qed.

(** Every command ends, whatever the environment answers. *)
Lemma trun_texec {A W : Type} (h : Replier W) (p : Task A) (w : W) :
  texec p (steps_of (trun h p w)) (result_of (trun h p w)).
Proof.
  revert w; induction p as [a | e | X c k IH]; intros w; simpl.
  - split; reflexivity.
  - split; reflexivity.
  - destruct (h X c w) as [x w1] eqn:Hh.
    specialize (IH x w1).
    destruct (trun h (k x) w1) as [[t o] w2] eqn:Hr.
    exists x, t. split; [reflexivity | exact IH].
Qed.

(** The observations on a run of the scan inside a command. *)
Lemma launched_base (ts : list Event) : launched (map base ts) = [].
Proof.
  induction ts as [| [X c x] ts IH]; [reflexivity | exact IH].
Qed.

Lemma changing_commands_base (ts : list Event) :
  changing_commands (map base ts) = [].
Proof. unfold changing_commands. rewrite launched_base. reflexivity. Qed.

Lemma statements_base (ts : list Event) : statements (map base ts) = [].
Proof.
  induction ts as [| [X c x] ts IH]; [reflexivity | exact IH].
Qed.

Lemma said_base (ts : list Event) : said (map base ts) = [].
Proof.
  induction ts as [| [X c x] ts IH]; [reflexivity | exact IH].
Qed.

Lemma selections_base (ts : list Event) : selections (map base ts) = [].
Proof.
  induction ts as [| [X c x] ts IH]; [reflexivity | exact IH].
Qed.

Lemma base_events_base (ts : list Event) : base_events (map base ts) = ts.
Proof.
  induction ts as [| [X c x] ts IH]; [reflexivity |].
  simpl. f_equal. exact IH.
Qed.

Lemma launched_app (t1 t2 : list Step) :
  launched (t1 ++ t2) = launched t1 ++ launched t2.
Proof. apply flat_map_app. Qed.

Lemma changing_commands_app (t1 t2 : list Step) :
  changing_commands (t1 ++ t2) = changing_commands t1 ++ changing_commands t2.
Proof.
  unfold changing_commands. rewrite launched_app, filter_app, map_app.
  reflexivity.
Qed.

Lemma statements_app (t1 t2 : list Step) :
  statements (t1 ++ t2) = statements t1 ++ statements t2.
Proof. apply flat_map_app. Qed.

Lemma said_app (t1 t2 : list Step) : said (t1 ++ t2) = said t1 ++ said t2.
Proof. apply flat_map_app. Qed.

Lemma selections_app (t1 t2 : list Step) :
  selections (t1 ++ t2) = selections t1 ++ selections t2.
Proof. apply flat_map_app. Qed.

Lemma base_events_app (t1 t2 : list Step) :
  base_events (t1 ++ t2) = base_events t1 ++ base_events t2.
Proof. apply flat_map_app. Qed.

Lemma lookups_app (t1 t2 : list Step) :
  lookups (t1 ++ t2) = lookups t1 ++ lookups t2.
Proof. apply flat_map_app. Qed.

Lemma marked_app (t1 t2 : list Step) :
  marked (t1 ++ t2) = marked t1 ++ marked t2.
Proof. apply flat_map_app. Qed.

(* ------------------------------------------------------------------------- *)
(** ** [BasePackageManager] *)

Ltac twp_step :=
  match goal with
  | |- forall _, _ => intro
  | |- twp ?p _ =>
      match p with
      | context [match ?x with _ => _ end] =>
          lazymatch x with
          | context [match _ with _ => _ end] => fail
          | _ => destruct x eqn:?
          end
      end
  end.

(** Observations go through a trace step by step. *)
Ltac split_steps :=
  repeat match goal with
         | |- context [@cons Step ?s ?t] =>
             lazymatch t with
             | [] => fail
             | _ => change (@cons Step s t) with ([s] ++ t)
             end
         end.

Ltac observe :=
  split_steps;
  rewrite ?app_nil_r, ?selections_app, ?statements_app,
    ?changing_commands_app, ?launched_app, ?base_events_app, ?said_app,
    ?marked_app.

Lemma TimeoutExpired_is_Exception (e : exn) :
  is_TimeoutExpired e = true -> is_Exception e = true.
Proof. destruct e; simpl; congruence. Qed.

Lemma FileNotFoundError_is_Exception (e : exn) :
  is_FileNotFoundError e = true -> is_Exception e = true.
Proof. destruct e; simpl; congruence. Qed.

(** What [_run_command] does: at most one look-up, at most one process, and
    nothing else. *)
Lemma run_command_spec (platform : string)
  (self : base_manager.BasePackageManager) (args : list string)
  (capture_output : bool) :
  twp (base_manager._run_command platform self args capture_output)
    (fun t o =>
       said t = [] /\ statements t = [] /\ base_events t = [] /\
       selections t = [] /\ marked t = [] /\
       (forall e, o = Raised e ->
          is_TimeoutExpired e = false /\ is_FileNotFoundError e = false) /\
       ((launched t = [] /\ String.eqb platform "win32" = true /\
         exists e, o = Raised e) \/
        (exists head r,
           launched t = [(head :: args, capture_output, r)] /\
           (String.eqb platform "win32" = false ->
            head = base_manager.command self) /\
           match r with
           | Ok p => o = Returned p
           | Err e => exists e', o = Raised e' /\
                                 is_Exception e' = is_Exception e /\
                                 (is_Exception e = false -> e' = e)
           end))).
Proof.
  unfold base_manager._run_command, invoke.
  repeat (simpl; twp_step).
  all: simpl.
  all: repeat split; try reflexivity; try discriminate.
  all: try match goal with
       | H : Raised _ = Raised _ |- _ => injection H as <-
       end.
  all: try reflexivity; try assumption.
  all: try (left; split; [reflexivity |]; split; [reflexivity |];
            eexists; reflexivity).
  all: right; eexists; eexists; split; [reflexivity |]; split;
         [intros; try reflexivity; try discriminate |].
  all: simpl; try reflexivity.
  all: eexists; split; [reflexivity |].
  all: try (split; [reflexivity | intros; reflexivity]).
  all: match goal with
       | H : is_TimeoutExpired ?e = true |- _ =>
           apply TimeoutExpired_is_Exception in H
       | H : is_FileNotFoundError ?e = true |- _ =>
           apply FileNotFoundError_is_Exception in H
       end.
  all: split; [symmetry; assumption | congruence].
Qed.

(** The shape the four functions that install or upgrade share. *)
Lemma guarded_run_spec (platform : string)
  (self : base_manager.BasePackageManager) (args : list string)
  (before ok ko : Line) (err : exn -> Line) :
  twp (try_catch
         (say before ;;
          result <- base_manager._run_command platform self args false ;;
          if returncode result =? 0
          then say_marked ok ;; Done true
          else say_marked ko ;; Done false)
         (except_Exception (fun e => say (err e) ;; Done false)))
    (guarded_run platform self args ok ko).
Proof.
  apply twp_try_catch. simpl. intros [].
  apply twp_bind.
  eapply twp_mono; [| apply run_command_spec].
  cbv beta. intros t o (Hsaid & Hst & Hb & Hsel & Hm & _ & Hl).
  destruct o as [p | e].
  - destruct Hl as [(_ & _ & e & He) | (head & r & Hl & Hh & Hr)];
      [discriminate |].
    destruct r as [p' | e]; [| destruct Hr as (e' & He' & _); discriminate].
    injection Hr as <-.
    assert (Hend : forall (l : Line) (x : Res unit) (tail : list Step)
                     (o : Outcome bool),
              l = (if returncode p =? 0 then ok else ko) ->
              statements tail = [] -> base_events tail = [] ->
              selections tail = [] -> launched tail = [] ->
              marked tail = [] ->
              o = match x with
                  | Ok _ => Returned (returncode p =? 0)
                  | Err e => if is_Exception e then Returned false
                             else Raised e
                  end ->
              guarded_run platform self args ok ko
                (St (Say before) tt :: t ++ St (SayMarked l) x :: tail) o).
    { intros l x tail o -> Hts Htb Htsel Htl Htm ->. unfold guarded_run.
      split_steps.
      rewrite ?statements_app, ?base_events_app, ?selections_app,
        ?launched_app, ?marked_app, Hst, Hb, Hsel, Hl, Hm, Hts, Htb, Htsel,
        Htl, Htm.
      simpl. repeat split.
      right. exists head, (Ok p). split; [reflexivity |].
      split; [exact Hh |]. exists x. split; reflexivity. }
    destruct (returncode p =? 0) eqn:Hrc; simpl; intros [[] | e]; simpl.
    all: unfold except_Exception.
    all: try (destruct (is_Exception e) eqn:He; simpl; [intros [] |]).
    all: simpl app; rewrite <- ?app_assoc; simpl app.
    + exact (Hend _ (Ok tt) [] _ eq_refl eq_refl eq_refl eq_refl eq_refl
               eq_refl eq_refl).
    + refine (Hend _ (Err e) [St (Say (err e)) tt] _ eq_refl eq_refl eq_refl
                eq_refl eq_refl eq_refl _).
      rewrite He. reflexivity.
    + refine (Hend _ (Err e) [] _ eq_refl eq_refl eq_refl eq_refl eq_refl
                eq_refl _).
      rewrite He. reflexivity.
    + exact (Hend _ (Ok tt) [] _ eq_refl eq_refl eq_refl eq_refl eq_refl
               eq_refl eq_refl).
    + refine (Hend _ (Err e) [St (Say (err e)) tt] _ eq_refl eq_refl eq_refl
                eq_refl eq_refl eq_refl _).
      rewrite He. reflexivity.
    + refine (Hend _ (Err e) [] _ eq_refl eq_refl eq_refl eq_refl eq_refl
                eq_refl _).
      rewrite He. reflexivity.
  - unfold except_Exception, guarded_run.
    destruct (is_Exception e) eqn:He; simpl; [intros [] |];
      rewrite ?app_nil_r, ?statements_app, ?base_events_app, ?selections_app,
        ?launched_app, ?marked_app, ?Hst, ?Hb, ?Hsel, ?Hm; simpl.
    all: repeat split; try reflexivity.
    all: destruct Hl as [(Hl & Hw & _) | (head & r & Hl & Hh & Hr)].
    all: rewrite ?app_nil_r, Hl.
    all: try (left; split; [reflexivity |]; split; [exact Hw |];
              split; [reflexivity |]).
    all: try (left; reflexivity).
    all: try (right; exists e; split; [reflexivity | exact He]).
    all: right; exists head, r; split; [reflexivity |];
         split; [exact Hh |].
    all: destruct r as [p | e0]; [discriminate |].
    all: destruct Hr as (e' & [= <-] & Heq & Hsame).
    all: split; [reflexivity |].
    all: rewrite <- Heq, He; try reflexivity.
    all: rewrite Hsame; [reflexivity | congruence].
Qed.

Lemma is_available_spec (platform : string)
  (self : base_manager.BasePackageManager) :
  twp (base_manager.is_available platform self)
    (fun t o =>
       said t = [] /\ statements t = [] /\ base_events t = [] /\
       selections t = [] /\ changing_commands t = [] /\
       (forall e, o = Raised e -> is_Exception e = false) /\
       ((launched t = [] /\ String.eqb platform "win32" = true /\
         o <> Returned true) \/
        (exists head r,
           launched t = [(head :: ["--version"], true, r)] /\
           (String.eqb platform "win32" = false ->
            head = base_manager.command self) /\
           match r with
           | Ok p => o = Returned (returncode p =? 0)
           | Err e => o = if is_Exception e then Returned false else Raised e
           end))).
Proof.
  unfold base_manager.is_available.
  apply twp_try_catch. apply twp_bind.
  eapply twp_mono; [| apply run_command_spec].
  cbv beta. intros t o (Hsaid & Hst & Hb & Hsel & _ & _ & Hl).
  assert (Hch : changing_commands t = []).
  { unfold changing_commands.
    destruct Hl as [(Hl & _) | (head & r & Hl & _)]; rewrite Hl; reflexivity. }
  destruct o as [p | e].
  - destruct Hl as [(_ & _ & e & He) | (head & r & Hl & Hh & Hr)];
      [discriminate |].
    destruct r as [p' | e]; [| destruct Hr as (e' & He' & _); discriminate].
    injection Hr as <-. simpl. rewrite ?app_nil_r.
    repeat split; try assumption; try discriminate.
    right. exists head, (Ok p). repeat split; assumption.
  - unfold except_Exception.
    destruct (is_Exception e) eqn:He; simpl; rewrite ?app_nil_r.
    all: repeat split; try assumption; try discriminate.
    all: try (intros e0 [= <-]; exact He).
    all: destruct Hl as [(Hl & Hw & _) | (head & r & Hl & Hh & Hr)].
    all: try (left; repeat split; try assumption; discriminate).
    all: right; exists head, r; split; [exact Hl |]; split; [exact Hh |].
    all: destruct r as [p | e0]; [discriminate |].
    all: destruct Hr as (e' & [= <-] & Heq & Hsame).
    all: rewrite <- Heq, He; try reflexivity.
    all: rewrite Hsame; [reflexivity | congruence].
Qed.

Lemma manager_install_spec (platform : string) (manager : unified_cli.Manager)
  (package_name : string) :
  twp (unified_cli.manager_install_package platform manager package_name)
    (guarded_run platform (unified_cli.fields manager)
       ["install"; package_name]
       (LineInstalled package_name) (LineNotInstalled package_name)).
Proof.
  destruct manager.
  - exact (guarded_run_spec platform npm_manager.NPMManager
             ["install"; package_name] _ _ _ _).
  - exact (guarded_run_spec platform pip_manager.PipManager
             ["install"; package_name] _ _ _ _).
Qed.

Lemma manager_upgrade_spec (platform : string) (manager : unified_cli.Manager)
  (package_name : string) :
  twp (unified_cli.manager_upgrade_package platform manager package_name)
    (guarded_run platform (unified_cli.fields manager)
       (upgrade_args manager package_name)
       (LineUpgraded package_name) (LineNotUpgraded package_name)).
Proof.
  destruct manager.
  - exact (guarded_run_spec platform npm_manager.NPMManager
             ["update"; "-g"; package_name] _ _ _ _).
  - exact (guarded_run_spec platform pip_manager.PipManager
             ["install"; "--upgrade"; package_name] _ _ _ _).
Qed.

(* ------------------------------------------------------------------------- *)
(** ** [list_packages] *)

(** The shape the two [list_packages] share. *)
Lemma listing_spec (platform : string)
  (self : base_manager.BasePackageManager) (args : list string)
  (tool : string) (decode : JSON -> Res (list Package)) :
  twp (try_catch
         (result <- base_manager._run_command platform self args true ;;
          if negb (returncode result =? 0)
          then say (LineListWarning tool) ;; Done []
          else
            data <- invoke (Base (JsonLoads (stdout result))) ;;
            evaluate (decode data))
         (fun e =>
            if is_JSONDecodeError e
            then Some (say (LineListParseError tool e) ;; Done [])
            else if is_Exception e
            then Some (say (LineListError tool e) ;; Done [])
            else None))
    (fun t o =>
       statements t = [] /\ selections t = [] /\ changing_commands t = [] /\
       (forall e, o = Raised e -> is_Exception e = false) /\
       (base_events t = [] \/
        exists s r, base_events t = [Ev (JsonLoads s) r]) /\
       (forall pkgs, o = Returned pkgs ->
          pkgs = [] \/
          exists head p data,
            launched t = [(head :: args, true, Ok p)] /\
            returncode p = 0 /\
            base_events t = [Ev (JsonLoads (stdout p)) (Ok data)] /\
            decode data = Ok pkgs)).
Proof.
  apply twp_try_catch. apply twp_bind.
  eapply twp_mono; [| apply run_command_spec].
  cbv beta. intros t o (Hsaid & Hst & Hb & Hsel & _ & _ & Hl).
  assert (Hch : changing_commands t = []).
  { unfold changing_commands.
    destruct Hl as [(Hl & _) | (head & r & Hl & _)]; rewrite Hl; reflexivity. }
  destruct o as [p | e].
  - destruct Hl as [(_ & _ & e & He) | (head & r & Hl & Hh & Hr)];
      [discriminate |].
    destruct r as [p' | e]; [| destruct Hr as (e' & He' & _); discriminate].
    injection Hr as <-.
    destruct (returncode p =? 0) eqn:Hrc; simpl.
    + apply Z.eqb_eq in Hrc.
      intros [data | e]; simpl.
      * destruct (decode data) as [pkgs | e] eqn:Hd; simpl.
        -- rewrite statements_app, selections_app, base_events_app,
             launched_app, changing_commands_app, Hst, Hsel, Hb, Hl, Hch.
           unfold changing_commands. simpl.
           repeat split; try reflexivity; try discriminate.
           ++ right. eexists; eexists; reflexivity.
           ++ intros pkgs' [= <-]. right. exists head, p, data.
              repeat split; assumption.
        -- destruct (is_JSONDecodeError e) eqn:Hj; simpl;
             [| destruct (is_Exception e) eqn:He; simpl].
           all: try intros [].
           all: rewrite ?statements_app, ?selections_app, ?base_events_app,
                  ?changing_commands_app, ?Hst, ?Hsel, ?Hb, ?Hch;
                  unfold changing_commands; simpl.
           all: repeat split; try reflexivity; try discriminate.
           all: try (right; eexists; eexists; reflexivity).
           all: try (intros pkgs' [= <-]; left; reflexivity).
           intros e0 [= <-]. exact He.
      * destruct (is_JSONDecodeError e) eqn:Hj; simpl;
          [| destruct (is_Exception e) eqn:He; simpl].
        all: try intros [].
        all: rewrite ?statements_app, ?selections_app, ?base_events_app,
               ?changing_commands_app, ?Hst, ?Hsel, ?Hb, ?Hch;
                  unfold changing_commands; simpl.
        all: repeat split; try reflexivity; try discriminate.
        all: try (right; eexists; eexists; reflexivity).
        all: try (intros pkgs' [= <-]; left; reflexivity).
        intros e0 [= <-]. exact He.
    + intros [].
      rewrite statements_app, selections_app, base_events_app,
        changing_commands_app, Hst, Hsel, Hb, Hch.
      unfold changing_commands. simpl.
      repeat split; try reflexivity; try discriminate.
      * left; reflexivity.
      * intros pkgs' [= <-]; left; reflexivity.
  - destruct (is_JSONDecodeError e) eqn:Hj; simpl;
      [| destruct (is_Exception e) eqn:He; simpl].
    all: try intros [].
    all: rewrite ?app_nil_r, ?statements_app, ?selections_app,
           ?base_events_app, ?changing_commands_app, ?Hst, ?Hsel, ?Hb, ?Hch;
                  unfold changing_commands; simpl.
    all: repeat split; try reflexivity; try assumption; try discriminate.
    all: try (left; reflexivity).
    all: try (intros pkgs' [= <-]; left; reflexivity).
    intros e0 [= <-]. exact He.
Qed.

Lemma manager_list_spec (platform : string) (manager : unified_cli.Manager) :
  twp (unified_cli.manager_list_packages platform manager)
    (fun t o =>
       statements t = [] /\ selections t = [] /\ changing_commands t = [] /\
       (forall e, o = Raised e -> is_Exception e = false) /\
       (base_events t = [] \/
        exists s r, base_events t = [Ev (JsonLoads s) r])).
Proof.
  destruct manager; simpl.
  - eapply twp_mono;
      [| exact (listing_spec platform npm_manager.NPMManager
                  ["list"; "-g"; "--depth=0"; "--json"] "npm"
                  npm_manager.decode_packages)].
    cbv beta. intros t o (H1 & H2 & H3 & H4 & H5 & _).
    repeat split; assumption.
  - eapply twp_mono;
      [| exact (listing_spec platform pip_manager.PipManager
                  ["list"; "--format=json"] "pip"
                  pip_manager.decode_packages)].
    cbv beta. intros t o (H1 & H2 & H3 & H4 & H5 & _).
    repeat split; assumption.
Qed.

(* ------------------------------------------------------------------------- *)
(** ** [install_package] *)

Lemma or_empty_cases (version : JSON) :
  unified_cli.or_empty version = JStr ""%string \/
  Py.truthy (unified_cli.or_empty version) = true.
Proof.
  unfold unified_cli.or_empty.
  destruct (Py.truthy version) eqn:H; [right; exact H | left; reflexivity].
Qed.

Lemma remember_spec (platform : string) (manager : unified_cli.Manager)
  (package_name manager_name : string) :
  twp (unified_cli.remember platform manager package_name manager_name)
    (fun t o =>
       selections t = [] /\ changing_commands t = [] /\
       cache_entry package_name manager_name (statements t)).
Proof.
  unfold unified_cli.remember. apply twp_bind.
  eapply twp_mono; [| apply manager_list_spec].
  cbv beta. intros t o (Hst & Hsel & Hch & _ & _).
  unfold cache_entry.
  destruct o as [pkgs | e];
    [destruct (unified_cli.installed_version pkgs package_name) as [v | e] |];
    simpl.
  all: repeat (intros [[] | ?]; simpl).
  all: rewrite ?app_nil_r, ?statements_app, ?selections_app,
         ?changing_commands_app, ?Hst, ?Hsel, ?Hch.
  all: unfold changing_commands; simpl.
  all: repeat split; try reflexivity.
  all: first [ left; reflexivity
             | right; left; reflexivity
             | right; right; eexists; split; [reflexivity |];
               apply or_empty_cases ].
Qed.

Lemma install_cleared_spec (platform : string)
  (available_managers : list (string * unified_cli.Manager))
  (package_name manager_name : string) :
  twp (unified_cli.install_cleared platform available_managers package_name
         manager_name)
    (installation platform available_managers package_name manager_name).
Proof.
  unfold unified_cli.install_cleared, installation.
  destruct (unified_cli.lookup_manager available_managers manager_name)
    as [manager | e] eqn:Hlk; simpl;
    [| split; [reflexivity | left; split; reflexivity]].
  apply twp_bind.
  eapply twp_mono; [| apply manager_install_spec].
  unfold guarded_run. intros t o (Hst & Hb & Hsel & Hcases).
  assert (Hshape :
    (launched t = [] /\ changing_commands t = [] /\ o <> Returned true) \/
    exists head r,
      launched t = [(head :: ["install"; package_name]%string, false, r)] /\
      (String.eqb platform "win32" = false ->
       head = base_manager.command (unified_cli.fields manager)) /\
      changing_commands t = [head :: ["install"; package_name]%string] /\
      (o = Returned true -> exists p, r = Ok p /\ returncode p = 0)).
  { destruct Hcases as [(Hl & _ & _ & Ho) | (head & r & Hl & Hh & Ho)].
    - left. split; [exact Hl |]. split.
      + unfold changing_commands. rewrite Hl. reflexivity.
      + destruct Ho as [-> | (e & -> & _)]; discriminate.
    - right. exists head, r. split; [exact Hl |]. split; [exact Hh |]. split.
      + unfold changing_commands. rewrite Hl. reflexivity.
      + intros ->. destruct r as [p | e].
        * destruct Ho as (x & _ & Ho). exists p. split; [reflexivity |].
          destruct x as [u | e]; [| destruct (is_Exception e); discriminate].
          injection Ho as Ho. symmetry in Ho. apply Z.eqb_eq in Ho. exact Ho.
        * destruct Ho as (_ & Ho). destruct (is_Exception e); discriminate. }
  clear Hcases.
  assert (Hstop : forall (tail : list Step),
            selections tail = [] -> statements tail = [] ->
            launched tail = [] ->
            selections (t ++ tail) = [] /\
            ((changing_commands (t ++ tail) = [] /\
              statements (t ++ tail) = []) \/
             (exists manager head r more,
                unified_cli.lookup_manager available_managers manager_name
                = Ok manager /\
                launched (t ++ tail)
                = (head :: ["install"; package_name]%string, false, r)
                  :: more /\
                (String.eqb platform "win32" = false ->
                 head = base_manager.command (unified_cli.fields manager)) /\
                changing_commands (t ++ tail)
                = [head :: ["install"; package_name]%string] /\
                cache_entry package_name manager_name (statements (t ++ tail))
                /\
                (statements (t ++ tail) <> [] ->
                 exists p, r = Ok p /\ returncode p = 0)))).
  { intros tail Htsel Htst Htl.
    assert (Htc : changing_commands tail = []).
    { unfold changing_commands. rewrite Htl. reflexivity. }
    rewrite selections_app, statements_app, changing_commands_app,
      launched_app, Hsel, Hst, Htsel, Htst, Htl, Htc, !app_nil_r.
    split; [reflexivity |].
    destruct Hshape as [(Hl & Hch & _) | (head & r & Hl & Hh & Hch & Hp)].
    + left. rewrite Hch. split; reflexivity.
    + right. exists manager, head, r, []. rewrite Hl, Hch.
      repeat split; try reflexivity; try assumption.
      * left. reflexivity.
      * intros H. contradiction H. reflexivity. }
  rewrite Hlk in Hstop.
  destruct o as [[|] | e]; simpl.
  - intros [[] | e]; simpl.
    + eapply twp_mono; [| apply remember_spec].
      cbv beta. intros t2 o2 (Hsel2 & Hch2 & Hce).
      destruct Hshape as [(_ & _ & Hne) | (head & r & Hl & Hh & Hch & Hp)];
        [congruence |].
      observe. rewrite Hsel, Hst, Hl, Hch, Hsel2, Hch2.
      unfold changing_commands. simpl. split; [reflexivity |].
      right. exists manager, head, r, (launched t2).
      repeat split; try reflexivity; try assumption.
      intros _. apply Hp. reflexivity.
    + apply Hstop; reflexivity.
  - intros [[] | e]; simpl; apply Hstop; reflexivity.
  - specialize (Hstop [] eq_refl eq_refl eq_refl).
    rewrite app_nil_r in Hstop. exact Hstop.
Qed.

Lemma scan_and_install_spec (platform : string)
  (available_managers : list (string * unified_cli.Manager))
  (package_name manager_name : string) :
  twp (unified_cli.scan_and_install platform available_managers package_name
         manager_name)
    (scan_then package_name manager_name
       (installation platform available_managers package_name manager_name)).
Proof.
  unfold unified_cli.scan_and_install. apply twp_bind.
  apply twp_of_prog. intros ts verdict Hex.
  destruct verdict as [[|] | e]; simpl.
  - eapply twp_mono; [| apply install_cleared_spec].
    cbv beta. intros t2 o H.
    exists ts, (Returned true), t2.
    split; [exact Hex | split; [reflexivity | exact H]].
  - exists ts, (Returned false), [].
    split; [exact Hex | split; [reflexivity | split; reflexivity]].
  - exists ts, (Raised e), []. rewrite app_nil_r.
    split; [exact Hex | split; [reflexivity | split; reflexivity]].
Qed.

Lemma say_numbered_spec (entries : list (Z * string)) :
  twp (unified_cli.say_numbered entries)
    (fun t o => o = Returned tt /\ only_says t).
Proof.
  unfold only_says.
  induction entries as [| [idx name] rest IH]; simpl.
  - repeat split; reflexivity.
  - intros []. eapply twp_mono; [| exact IH].
    cbv beta. intros t o (-> & Hl & Hst & Hb & Hsel).
    observe. rewrite Hl, Hst, Hb, Hsel. repeat split; reflexivity.
Qed.

Lemma select_manager_spec (names : list string) :
  twp (unified_cli.select_manager names)
    (fun t o =>
       exists reply,
         t = [St (SelectManager (Z.of_nat (List.length names))) reply] /\
         o = match selected names reply with
             | Ok manager_name => Returned manager_name
             | Err e => Raised e
             end).
Proof.
  unfold unified_cli.select_manager, selected. simpl.
  intros [choice | e]; simpl.
  - destruct (Py.int_of_str choice) as [idx | e] eqn:Hi; simpl.
    + destruct (py_index names (idx - 1)) as [m | e] eqn:Hm; simpl.
      all: exists (Ok choice); split; [reflexivity |].
      all: rewrite Hi, Hm; reflexivity.
    + exists (Ok choice). split; [reflexivity |]. rewrite Hi. reflexivity.
  - exists (Err e). split; reflexivity.
Qed.

(** The question, the choice and the clause around them. *)
Lemma choose_spec (names : list string) (body : string -> Task unit)
  (R : string -> list Step -> Outcome unit -> Prop) :
  (forall manager_name, twp (body manager_name) (R manager_name)) ->
  twp (try_catch (manager_name <- unified_cli.select_manager names ;;
                  body manager_name)
         unified_cli.invalid_choice)
    (chosen names R).
Proof.
  intros Hbody. apply twp_try_catch. apply twp_bind.
  eapply twp_mono; [| apply select_manager_spec].
  cbv beta. intros t o (reply & -> & ->).
  unfold chosen.
  destruct (selected names reply) as [m | e] eqn:Hsel.
  - eapply twp_mono; [| apply Hbody].
    cbv beta. intros b o' HR.
    destruct o' as [[] | e].
    + exists reply, b. split; [reflexivity |]. rewrite Hsel.
      exists b, (Returned tt). split; [exact HR |]. split; reflexivity.
    + unfold unified_cli.invalid_choice.
      destruct (is_ValueError_or_IndexError e) eqn:He; simpl.
      * intros []. exists reply, (b ++ [St (Say LineInvalidChoice) tt]).
        split; [reflexivity |]. rewrite Hsel.
        exists b, (Raised e). split; [exact HR |].
        unfold caught. rewrite He. split; reflexivity.
      * exists reply, b. split; [reflexivity |]. rewrite Hsel.
        exists b, (Raised e). split; [exact HR |].
        unfold caught. rewrite He. split; reflexivity.
  - unfold unified_cli.invalid_choice.
    destruct (is_ValueError_or_IndexError e) eqn:He; simpl.
    + intros []. exists reply, [St (Say LineInvalidChoice) tt].
      split; [reflexivity |]. rewrite Hsel.
      unfold caught. rewrite He. split; reflexivity.
    + exists reply, []. split; [reflexivity |]. rewrite Hsel.
      unfold caught. rewrite He. split; reflexivity.
Qed.

Lemma install_package_spec (platform : string)
  (available_managers : list (string * unified_cli.Manager))
  (package_name : string) (manager_name : option string) :
  twp (unified_cli.install_package platform available_managers package_name
         manager_name)
    (fun t o =>
       if virustotal.truthy_opt manager_name
       then
         let m := match manager_name with Some m => m | None => ""%string end in
         if unified_cli.is_available_manager available_managers m
         then scan_then package_name m
                (installation platform available_managers package_name m) t o
         else t = [St (Say (LineManagerNotAvailable m)) tt] /\ o = Returned tt
       else
         exists header body,
           t = header ++ body /\ only_says header /\
           chosen (map fst available_managers)
             (fun m => scan_then package_name m
                         (installation platform available_managers
                            package_name m))
             body o).
Proof.
  unfold unified_cli.install_package.
  destruct (virustotal.truthy_opt manager_name).
  - cbv zeta.
    destruct (unified_cli.is_available_manager available_managers _); simpl.
    + apply scan_and_install_spec.
    + intros []. split; reflexivity.
  - simpl. intros []. apply twp_bind.
    eapply twp_mono; [| apply say_numbered_spec].
    cbv beta. intros t1 o1 (-> & Hl & Hst & Hb & Hsel).
    eapply twp_mono;
      [| apply choose_spec with
           (R := fun m => scan_then package_name m
                            (installation platform available_managers
                               package_name m));
         intros m; apply scan_and_install_spec].
    cbv beta. intros body o Hc.
    exists (St (Say LineAvailableManagers) tt :: t1), body.
    split; [reflexivity |]. split; [| exact Hc].
    unfold only_says. observe. rewrite Hl, Hst, Hb, Hsel.
    repeat split; reflexivity.
Qed.

(** What an installation that changed something went through. *)
Lemma scan_then_effects (platform : string)
  (available_managers : list (string * unified_cli.Manager))
  (package_name m : string) (b : list Step) (o : Outcome unit) :
  scan_then package_name m
    (installation platform available_managers package_name m) b o ->
  changing_commands b <> [] \/ statements b <> [] ->
  exists ts rest manager head r more,
    b = map base ts ++ rest /\
    exec (cli._virustotal_scan package_name (Some m)) ts (Returned true) /\
    selections rest = [] /\
    unified_cli.lookup_manager available_managers m = Ok manager /\
    launched rest
    = (head :: ["install"; package_name]%string, false, r) :: more /\
    (String.eqb platform "win32" = false ->
     head = base_manager.command (unified_cli.fields manager)) /\
    changing_commands rest = [head :: ["install"; package_name]%string] /\
    cache_entry package_name m (statements rest) /\
    (statements rest <> [] -> exists p, r = Ok p /\ returncode p = 0).
Proof.
  intros (ts & verdict & rest & Hex & -> & Hv) Hne.
  rewrite changing_commands_app, statements_app, changing_commands_base,
    statements_base in Hne. simpl in Hne.
  destruct verdict as [[|] | e].
  - destruct Hv as (Hsel & [(Hc & Hs) | H]).
    + rewrite Hc, Hs in Hne. destruct Hne as [[] | []]; reflexivity.
    + destruct H as (manager & head & r & more & Hlk & Hl & Hh & Hc & Hce & Hp).
      exists ts, rest, manager, head, r, more.
      repeat split; assumption.
  - destruct Hv as (-> & _). destruct Hne as [[] | []]; reflexivity.
  - destruct Hv as (-> & _). destruct Hne as [[] | []]; reflexivity.
Qed.

Lemma caught_effects (b rest : list Step) (o' o : Outcome unit) :
  caught b o' rest o ->
  exists tail,
    rest = b ++ tail /\ launched tail = [] /\ statements tail = [] /\
    changing_commands tail = [] /\ base_events tail = [] /\
    selections tail = [].
Proof.
  unfold caught. intros H.
  destruct o' as [[] | e]; [| destruct (is_ValueError_or_IndexError e)];
    destruct H as (-> & _).
  - exists []. rewrite app_nil_r. repeat split; reflexivity.
  - exists [St (Say LineInvalidChoice) tt]. repeat split; reflexivity.
  - exists []. rewrite app_nil_r. repeat split; reflexivity.
Qed.

Lemma install_effects (platform : string)
  (available_managers : list (string * unified_cli.Manager))
  (package_name : string) (manager_name : option string)
  (t : list Step) (o : Outcome unit) :
  texec (unified_cli.install_package platform available_managers package_name
           manager_name) t o ->
  changing_commands t <> [] \/ statements t <> [] ->
  exists pre ts m post manager head r more,
    t = pre ++ map base ts ++ post /\
    exec (cli._virustotal_scan package_name (Some m)) ts (Returned true) /\
    launched pre = [] /\ statements pre = [] /\ base_events pre = [] /\
    unified_cli.lookup_manager available_managers m = Ok manager /\
    launched post
    = (head :: ["install"; package_name]%string, false, r) :: more /\
    (String.eqb platform "win32" = false ->
     head = base_manager.command (unified_cli.fields manager)) /\
    changing_commands post = [head :: ["install"; package_name]%string] /\
    cache_entry package_name m (statements post) /\
    (statements post <> [] -> exists p, r = Ok p /\ returncode p = 0).
Proof.
  intros Hex Hne.
  pose proof (proj1 (twp_exec _ _)
                (install_package_spec platform available_managers
                   package_name manager_name) t o Hex) as H.
  cbv beta in H.
  destruct (virustotal.truthy_opt manager_name).
  - cbv zeta in H.
    set (m := match manager_name with Some m => m | None => ""%string end)
      in H.
    destruct (unified_cli.is_available_manager available_managers m).
    + destruct (scan_then_effects _ _ _ _ _ _ H Hne)
        as (ts & rest & manager & head & r & more & -> & Hscan & _ & Hlk
            & Hl & Hh & Hc & Hce & Hp).
      exists [], ts, m, rest, manager, head, r, more.
      repeat split; assumption.
    + destruct H as (-> & _). destruct Hne as [[] | []]; reflexivity.
  - destruct H as (header & body & -> & (Hhl & Hhs & Hhb & Hhsel) & Hc).
    destruct Hc as (reply & rest & -> & Hc).
    assert (Hhc : changing_commands header = []).
    { unfold changing_commands. rewrite Hhl. reflexivity. }
    revert Hne. observe. rewrite Hhc, Hhs.
    change (changing_commands [St (SelectManager _) reply]) with (@nil (list string)).
    change (statements [St (SelectManager _) reply]) with (@nil Statement).
    simpl. intros Hne.
    destruct (selected (map fst available_managers) reply) as [m | e].
    + destruct Hc as (b & o' & Hb & Hc).
      apply caught_effects in Hc.
      destruct Hc as (tail & -> & Htl & Hts & Htc & _ & _).
      rewrite changing_commands_app, statements_app, Htc, Hts, !app_nil_r
        in Hne.
      destruct (scan_then_effects _ _ _ _ _ _ Hb Hne)
        as (ts & rest & manager & head & r & more & -> & Hscan & _ & Hlk
            & Hl & Hh & Hch & Hce & Hp).
      exists (header ++ [St (SelectManager
                              (Z.of_nat (List.length (map fst available_managers))))
                           reply]),
        ts, m, (rest ++ tail), manager, head, r, (more ++ launched tail).
      rewrite !launched_app, !statements_app, !base_events_app,
        !changing_commands_app, Hhl, Hhs, Hhb, Hl, Hch, Htl, Hts, Htc,
        !app_nil_r.
      repeat split; try assumption; try reflexivity.
      rewrite <- !app_assoc. reflexivity.
    + apply caught_effects in Hc.
      destruct Hc as (tail & -> & Htl & Hts & Htc & _ & _). simpl in Hne.
      rewrite Htc, Hts in Hne. destruct Hne as [[] | []]; reflexivity.
Qed.

(** X21.  [install_package] changes nothing before the scan has cleared the
    package.  Whichever way the manager is chosen (named on the command line
    or picked at the prompt), a command that installs is launched only after
    a complete run of [_virustotal_scan] for this package and the chosen
    manager that returned [True]; no manager command was launched before
    that run; the command is [<tool> install <package>] (off Windows
    [<tool>] is the command of that manager), and it is the only command
    that changes packages. *)
Theorem install_waits_for_the_scan (platform : string)
  (available_managers : list (string * unified_cli.Manager))
  (package_name : string) (manager_name : option string)
  (t : list Step) (o : Outcome unit) (c : list string) :
  texec (unified_cli.install_package platform available_managers package_name
           manager_name) t o ->
  In c (changing_commands t) ->
  exists pre ts m post manager head,
    t = pre ++ map base ts ++ post /\
    exec (cli._virustotal_scan package_name (Some m)) ts (Returned true) /\
    launched pre = [] /\
    unified_cli.lookup_manager available_managers m = Ok manager /\
    (String.eqb platform "win32" = false ->
     head = base_manager.command (unified_cli.fields manager)) /\
    c = [head; "install"; package_name]%string /\
    changing_commands post = [c].
Proof.
  intros Hex Hin.
  assert (Hne : changing_commands t <> [] \/ statements t <> []).
  { left. intros H. rewrite H in Hin. destruct Hin. }
  destruct (install_effects _ _ _ _ _ _ Hex Hne)
    as (pre & ts & m & post & manager & head & r & more & -> & Hscan & Hpl
        & Hps & Hpb & Hlk & Hl & Hh & Hc & Hce & Hp).
  assert (Hpc : changing_commands pre = []).
  { unfold changing_commands. rewrite Hpl. reflexivity. }
  rewrite !changing_commands_app, changing_commands_base, Hpc, Hc in Hin.
  destruct Hin as [<- | []].
  exists pre, ts, m, post, manager, head.
  repeat split; assumption.
Qed.

Lemma install_waits_for_the_scan_witness :
  let r := trun reply
             (unified_cli.install_package "linux" unified_cli.managers
                "requests" (Some "pip3"%string))
             (host (pip_world (Ok (found_response 0 0 60 4)) (Ok "n"%string))
                0 "[]" (Ok "1"%string)) in
  exists pre ts m post manager head,
    steps_of r = pre ++ map base ts ++ post /\
    exec (cli._virustotal_scan "requests" (Some m)) ts (Returned true) /\
    launched pre = [] /\
    unified_cli.lookup_manager unified_cli.managers m = Ok manager /\
    (String.eqb "linux" "win32" = false ->
     head = base_manager.command (unified_cli.fields manager)) /\
    ["pip3"; "install"; "requests"]%string
    = [head; "install"; "requests"]%string /\
    changing_commands post = [["pip3"; "install"; "requests"]%string].
Proof.
  intros r.
  apply (install_waits_for_the_scan "linux" unified_cli.managers "requests"
           (Some "pip3"%string) (steps_of r) (result_of r)
           ["pip3"; "install"; "requests"]%string).
  - exact (trun_texec reply _ _).
  - vm_compute. left. reflexivity.
Defined.

(** X22.  With a manager named on the command line, [install_package]
    prints one line and stops when that manager is not available.
    Otherwise the first thing it does is the scan, for this package and this
    manager, and when the scan does not return [True] it ends there: no
    step follows the scan (no line, no command, no cache entry), and it
    returns [None], or the interrupt that left the scan goes on. *)
Theorem install_with_named_manager (platform : string)
  (available_managers : list (string * unified_cli.Manager))
  (package_name m : string) (t : list Step) (o : Outcome unit) :
  texec (unified_cli.install_package platform available_managers package_name
           (Some m)) t o ->
  PyStr.truthy m = true ->
  if unified_cli.is_available_manager available_managers m
  then
    exists ts verdict rest,
      exec (cli._virustotal_scan package_name (Some m)) ts verdict /\
      t = map base ts ++ rest /\
      (verdict <> Returned true ->
       rest = [] /\
       o = match verdict with
           | Returned _ => Returned tt
           | Raised e => Raised e
           end)
  else t = [St (Say (LineManagerNotAvailable m)) tt] /\ o = Returned tt.
Proof.
  intros Hex Hm.
  pose proof (proj1 (twp_exec _ _)
                (install_package_spec platform available_managers
                   package_name (Some m)) t o Hex) as H.
  cbv beta in H. simpl virustotal.truthy_opt in H. rewrite Hm in H.
  cbv zeta in H.
  destruct (unified_cli.is_available_manager available_managers m);
    [| exact H].
  destruct H as (ts & verdict & rest & Hscan & -> & Hv).
  exists ts, verdict, rest. split; [exact Hscan |]. split; [reflexivity |].
  intros Hne. destruct verdict as [[|] | e].
  - contradiction Hne. reflexivity.
  - exact Hv.
  - exact Hv.
Qed.

Lemma install_with_named_manager_witness :
  let r := trun reply
             (unified_cli.install_package "linux" unified_cli.managers
                "requests" (Some "pip3"%string))
             (host (pip_world (Ok (found_response 3 0 60 4)) (Ok "n"%string))
                0 "[]" (Ok "1"%string)) in
  exists ts verdict rest,
    exec (cli._virustotal_scan "requests" (Some "pip3"%string)) ts verdict /\
    steps_of r = map base ts ++ rest /\
    (verdict <> Returned true ->
     rest = [] /\
     result_of r = match verdict with
                   | Returned _ => Returned tt
                   | Raised e => Raised e
                   end).
Proof.
  intros r.
  apply (install_with_named_manager "linux" unified_cli.managers "requests"
           "pip3" (steps_of r) (result_of r)).
  - exact (trun_texec reply _ _).
  - reflexivity.
Defined.



(* ------------------------------------------------------------------------- *)
(** ** The choice at the prompt *)

Lemma py_index_in_range {A : Type} (l : list A) (idx : Z) :
  - Z.of_nat (List.length l) <= idx < Z.of_nat (List.length l) ->
  exists a,
    py_index l idx = Ok a /\
    nth_error l (Z.to_nat (idx mod Z.of_nat (List.length l))) = Some a.
Proof.
  intros Hr. unfold py_index. cbv zeta.
  set (n := Z.of_nat (List.length l)) in *.
  assert (Hmod : (if idx <? 0 then idx + n else idx) = idx mod n).
  { destruct (idx <? 0) eqn:Hneg.
    - apply Z.ltb_lt in Hneg.
      apply Z.mod_unique with (q := -1); lia.
    - apply Z.ltb_ge in Hneg. symmetry. apply Z.mod_small. lia. }
  rewrite Hmod.
  assert (Hb : 0 <= idx mod n < n) by (apply Z.mod_pos_bound; lia).
  replace ((0 <=? idx mod n) && (idx mod n <? n)) with true
    by (symmetry; apply andb_true_iff; split;
        [apply Z.leb_le | apply Z.ltb_lt]; lia).
  destruct (nth_error l (Z.to_nat (idx mod n))) as [a |] eqn:Hn.
  - exists a. split; reflexivity.
  - apply nth_error_None in Hn. unfold n in *. lia.
Qed.

Lemma py_index_out_of_range {A : Type} (l : list A) (idx : Z) :
  ~ (- Z.of_nat (List.length l) <= idx < Z.of_nat (List.length l)) ->
  py_index l idx = Err IndexError.
Proof.
  intros Hr. unfold py_index. cbv zeta.
  set (n := Z.of_nat (List.length l)) in *.
  destruct (idx <? 0) eqn:Hneg;
    [apply Z.ltb_lt in Hneg | apply Z.ltb_ge in Hneg].
  - replace ((0 <=? idx + n) && (idx + n <? n)) with false; [reflexivity |].
    symmetry. apply andb_false_iff. left. apply Z.leb_gt. lia.
  - replace ((0 <=? idx) && (idx <? n)) with false; [reflexivity |].
    symmetry. apply andb_false_iff. right. apply Z.ltb_ge. lia.
Qed.

(** X24.  When no manager is named, [install_package] asks for one; the
    answer is read with [int(choice) - 1] and used as a list index, so it
    counts from both ends:
    with [n] managers available, every number from [1 - n] to [n] picks one
    ([1 .. n] in order, [0] the last one, [-1] the one before), and the scan
    runs for the manager picked.  Any other number gives the invalid-choice
    line: nothing is scanned, launched or cached, and [None] is returned. *)
Theorem choice_counts_from_both_ends (platform : string)
  (available_managers : list (string * unified_cli.Manager))
  (package_name : string) (manager_name : option string)
  (t : list Step) (o : Outcome unit) (k idx : Z) (choice : string) :
  texec (unified_cli.install_package platform available_managers package_name
           manager_name) t o ->
  virustotal.truthy_opt manager_name = false ->
  selections t = [(k, Ok choice)] ->
  Py.int_of_str choice = Ok idx ->
  let n := Z.of_nat (List.length available_managers) in
  if (- n <? idx) && (idx <=? n)
  then
    exists m pre ts verdict rest,
      nth_error (map fst available_managers) (Z.to_nat ((idx - 1) mod n))
      = Some m /\
      t = pre ++ map base ts ++ rest /\
      base_events pre = [] /\ launched pre = [] /\
      exec (cli._virustotal_scan package_name (Some m)) ts verdict
  else
    base_events t = [] /\ launched t = [] /\ statements t = [] /\
    o = Returned tt /\
    exists lines, said t = lines ++ [LineInvalidChoice].
Proof.
  intros Hex Hm Hsel Hint n.
  pose proof (proj1 (twp_exec _ _)
                (install_package_spec platform available_managers
                   package_name manager_name) t o Hex) as H.
  cbv beta in H. rewrite Hm in H.
  destruct H as (header & body & -> & (Hhl & Hhs & Hhb & Hhsel) & Hc).
  destruct Hc as (reply & rest & -> & Hc).
  rewrite selections_app, Hhsel in Hsel. simpl in Hsel.
  injection Hsel as _ -> Hrest.
  unfold selected in Hc. rewrite Hint in Hc.
  assert (Hlen : Z.of_nat (List.length (map fst available_managers)) = n).
  { unfold n. rewrite length_map. reflexivity. }
  destruct ((- n <? idx) && (idx <=? n)) eqn:Hrange.
  - apply andb_true_iff in Hrange. destruct Hrange as [Hlo Hhi].
    apply Z.ltb_lt in Hlo. apply Z.leb_le in Hhi.
    destruct (py_index_in_range (map fst available_managers) (idx - 1))
      as (m & Hpy & Hnth); [rewrite Hlen; lia |].
    rewrite Hlen in Hnth. rewrite Hpy in Hc.
    destruct Hc as (b & o' & (ts & verdict & rest' & Hscan & -> & _) & Hc).
    apply caught_effects in Hc. destruct Hc as (tail & -> & _).
    exists m,
      (header ++ [St (SelectManager
                        (Z.of_nat (List.length (map fst available_managers))))
                     (Ok choice)]),
      ts, verdict, (rest' ++ tail).
    split; [exact Hnth |]. split; [rewrite <- !app_assoc; reflexivity |].
    rewrite base_events_app, launched_app, Hhb, Hhl.
    repeat split; try reflexivity. exact Hscan.
  - rewrite py_index_out_of_range in Hc.
    + unfold caught in Hc. simpl in Hc. destruct Hc as (-> & ->).
      observe. rewrite Hhb, Hhl, Hhs. simpl.
      repeat split; try reflexivity.
      exists (said header). reflexivity.
    + rewrite Hlen. intros Hr.
      apply andb_false_iff in Hrange.
      destruct Hrange as [Hlo | Hhi];
        [apply Z.ltb_ge in Hlo | apply Z.leb_gt in Hhi]; lia.
Qed.

Lemma choice_counts_from_both_ends_witness :
  let r := trun reply
             (unified_cli.install_package "linux" unified_cli.managers
                "requests" None)
             (host (pip_world (Ok (found_response 0 0 60 4)) (Ok "n"%string))
                0 "[]" (Ok "0"%string)) in
  exists m pre ts verdict rest,
    nth_error (map fst unified_cli.managers) (Z.to_nat ((0 - 1) mod 2))
    = Some m /\
    steps_of r = pre ++ map base ts ++ rest /\
    base_events pre = [] /\ launched pre = [] /\
    exec (cli._virustotal_scan "requests" (Some m)) ts verdict.
Proof.
  intros r.
  apply (choice_counts_from_both_ends "linux" unified_cli.managers "requests"
           None (steps_of r) (result_of r) 2 0 "0").
  - exact (trun_texec reply _ _).
  - reflexivity.
  - vm_compute. reflexivity.
  - reflexivity.
Defined.

(* ------------------------------------------------------------------------- *)
(** ** [upgrade_package] and [update_package] *)

Lemma upgrade_cleared_spec (platform : string) (manager : unified_cli.Manager)
  (package_name : string) (report : bool) (done failed not_implemented : Line) :
  twp (unified_cli.upgrade_cleared platform manager package_name report
         done failed not_implemented)
    (upgrade platform manager package_name).
Proof.
  unfold unified_cli.upgrade_cleared, upgrade.
  replace (unified_cli.has_upgrade_package manager) with true
    by (destruct manager; reflexivity).
  apply twp_bind.
  eapply twp_mono; [| apply manager_upgrade_spec].
  unfold guarded_run. intros t o (Hst & Hb & Hsel & Hcases).
  assert (Hshape :
    changing_commands t = [] \/
    exists head,
      changing_commands t = [head :: upgrade_args manager package_name] /\
      (String.eqb platform "win32" = false ->
       head = base_manager.command (unified_cli.fields manager))).
  { destruct Hcases as [(Hl & _) | (head & r & Hl & Hh & _)].
    - left. unfold changing_commands. rewrite Hl. reflexivity.
    - right. exists head. split; [| exact Hh].
      unfold changing_commands. rewrite Hl. reflexivity. }
  clear Hcases.
  assert (Hstop : forall (tail : list Step),
            selections tail = [] -> statements tail = [] ->
            base_events tail = [] -> launched tail = [] ->
            selections (t ++ tail) = [] /\ statements (t ++ tail) = [] /\
            base_events (t ++ tail) = [] /\
            (changing_commands (t ++ tail) = [] \/
             exists head,
               changing_commands (t ++ tail)
               = [head :: upgrade_args manager package_name] /\
               (String.eqb platform "win32" = false ->
                head = base_manager.command (unified_cli.fields manager)))).
  { intros tail Htsel Htst Htb Htl.
    assert (Htc : changing_commands tail = []).
    { unfold changing_commands. rewrite Htl. reflexivity. }
    rewrite selections_app, statements_app, base_events_app,
      changing_commands_app, Hsel, Hst, Hb, Htsel, Htst, Htb, Htc, !app_nil_r.
    repeat split. exact Hshape. }
  destruct o as [success | e].
  - destruct report; [destruct success |]; simpl;
      try (intros [[] | e]; simpl); apply Hstop; reflexivity.
  - specialize (Hstop [] eq_refl eq_refl eq_refl eq_refl).
    rewrite app_nil_r in Hstop. exact Hstop.
Qed.

Lemma scan_and_upgrade_spec (platform : string)
  (available_managers : list (string * unified_cli.Manager))
  (package_name manager_name : string) (report : bool)
  (done failed not_implemented : Line) :
  twp (unified_cli.scan_and_upgrade platform available_managers package_name
         manager_name report done failed not_implemented)
    (fun t o =>
       match unified_cli.lookup_manager available_managers manager_name with
       | Ok manager =>
           scan_then package_name manager_name
             (upgrade platform manager package_name) t o
       | Err e => t = [] /\ o = Raised e
       end).
Proof.
  unfold unified_cli.scan_and_upgrade.
  destruct (unified_cli.lookup_manager available_managers manager_name)
    as [manager | e]; unfold evaluate; cbn [and_then twp];
    [| split; reflexivity].
  apply twp_bind.
  apply twp_of_prog. intros ts verdict Hex.
  destruct verdict as [[|] | e]; simpl.
  - eapply twp_mono; [| apply upgrade_cleared_spec].
    cbv beta. intros t2 o H.
    exists ts, (Returned true), t2.
    split; [exact Hex | split; [reflexivity | exact H]].
  - exists ts, (Returned false), [].
    split; [exact Hex | split; [reflexivity | split; reflexivity]].
  - exists ts, (Raised e), []. rewrite app_nil_r.
    split; [exact Hex | split; [reflexivity | split; reflexivity]].
Qed.

(** What an upgrade that changed something went through. *)
Lemma scan_and_upgrade_effects (platform : string)
  (available_managers : list (string * unified_cli.Manager))
  (package_name m : string) (b : list Step) (o : Outcome unit) :
  match unified_cli.lookup_manager available_managers m with
  | Ok manager =>
      scan_then package_name m (upgrade platform manager package_name) b o
  | Err e => b = [] /\ o = Raised e
  end ->
  statements b = [] /\
  (changing_commands b <> [] ->
   exists ts rest manager head,
     b = map base ts ++ rest /\
     exec (cli._virustotal_scan package_name (Some m)) ts (Returned true) /\
     unified_cli.lookup_manager available_managers m = Ok manager /\
     (String.eqb platform "win32" = false ->
      head = base_manager.command (unified_cli.fields manager)) /\
     changing_commands rest = [head :: upgrade_args manager package_name]).
Proof.
  destruct (unified_cli.lookup_manager available_managers m)
    as [manager | e] eqn:Hlk.
  - intros (ts & verdict & rest & Hex & -> & Hv).
    rewrite changing_commands_app, statements_app, changing_commands_base,
      statements_base. simpl.
    destruct verdict as [[|] | e].
    + destruct Hv as (Hsel & Hst & Hb & Hc). split; [exact Hst |].
      intros Hne. destruct Hc as [Hc | (head & Hc & Hh)]; [contradiction |].
      exists ts, rest, manager, head. repeat split; assumption.
    + destruct Hv as (-> & _). split; [reflexivity |].
      intros Hne. contradiction Hne. reflexivity.
    + destruct Hv as (-> & _). split; [reflexivity |].
      intros Hne. contradiction Hne. reflexivity.
  - intros (-> & _). split; [reflexivity |].
    intros Hne. contradiction Hne. reflexivity.
Qed.

Lemma upgrade_package_spec (platform : string)
  (available_managers : list (string * unified_cli.Manager))
  (package_name : string) (manager_name : option string) :
  twp (unified_cli.upgrade_package platform available_managers package_name
         manager_name)
    (fun t o =>
       exists header body,
         t = header ++ body /\ only_says header /\
         (body = [] \/
          (exists m,
             match unified_cli.lookup_manager available_managers m with
             | Ok manager =>
                 scan_then package_name m
                   (upgrade platform manager package_name) body o
             | Err e => body = [] /\ o = Raised e
             end) \/
          chosen (map fst available_managers)
            (fun m b o' =>
               match unified_cli.lookup_manager available_managers m with
               | Ok manager =>
                   scan_then package_name m
                     (upgrade platform manager package_name) b o'
               | Err e => b = [] /\ o' = Raised e
               end)
            body o)).
Proof.
  unfold unified_cli.upgrade_package.
  destruct (virustotal.truthy_opt manager_name).
  - cbv zeta.
    destruct (unified_cli.is_available_manager available_managers _); simpl.
    + eapply twp_mono; [| apply scan_and_upgrade_spec].
      cbv beta. intros t o H. exists [], t.
      split; [reflexivity |]. split; [repeat split; reflexivity |].
      right. left. eexists. exact H.
    + intros []. eexists. exists [].
      split; [symmetry; apply app_nil_r |].
      split; [repeat split; reflexivity |].
      left. reflexivity.
  - simpl. intros []. apply twp_bind.
    eapply twp_mono; [| apply say_numbered_spec].
    cbv beta. intros t1 o1 (-> & Hl & Hst & Hb & Hsel).
    eapply twp_mono;
      [| apply choose_spec with
           (R := fun m b o' =>
               match unified_cli.lookup_manager available_managers m with
               | Ok manager =>
                   scan_then package_name m
                     (upgrade platform manager package_name) b o'
               | Err e => b = [] /\ o' = Raised e
               end);
         intros m; apply scan_and_upgrade_spec].
    cbv beta. intros body o Hc.
    exists (St (Say LineAvailableManagers) tt :: t1), body.
    split; [reflexivity |]. split; [| right; right; exact Hc].
    unfold only_says. observe. rewrite Hl, Hst, Hb, Hsel.
    repeat split; reflexivity.
Qed.

(** The three ways an upgrade goes on once the lines at its head are
    printed: it stops, it scans for a manager already known, or it asks. *)
Lemma upgrade_body_effects (platform : string)
  (available_managers : list (string * unified_cli.Manager))
  (package_name : string) (names : list string)
  (body : list Step) (o : Outcome unit) :
  body = [] \/
  (exists m,
     match unified_cli.lookup_manager available_managers m with
     | Ok manager =>
         scan_then package_name m
           (upgrade platform manager package_name) body o
     | Err e => body = [] /\ o = Raised e
     end) \/
  chosen names
    (fun m b o' =>
       match unified_cli.lookup_manager available_managers m with
       | Ok manager =>
           scan_then package_name m
             (upgrade platform manager package_name) b o'
       | Err e => b = [] /\ o' = Raised e
       end)
    body o ->
  statements body = [] /\
  (changing_commands body <> [] ->
   exists pre ts m post manager head,
     body = pre ++ map base ts ++ post /\
     exec (cli._virustotal_scan package_name (Some m)) ts (Returned true) /\
     launched pre = [] /\
     unified_cli.lookup_manager available_managers m = Ok manager /\
     (String.eqb platform "win32" = false ->
      head = base_manager.command (unified_cli.fields manager)) /\
     changing_commands post = [head :: upgrade_args manager package_name]).
Proof.
  intros [-> | [(m & H) | H]].
  - split; [reflexivity |]. intros Hne. contradiction Hne. reflexivity.
  - apply (scan_and_upgrade_effects platform) in H.
    destruct H as (Hst & H). split; [exact Hst |].
    intros Hne. destruct (H Hne) as (ts & rest & manager & head & -> & Hscan
                                     & Hlk & Hh & Hc).
    exists [], ts, m, rest, manager, head. repeat split; assumption.
  - destruct H as (reply & rest & -> & H).
    destruct (selected names reply) as [m | e].
    + destruct H as (b & o' & Hb & Hc).
      apply caught_effects in Hc.
      destruct Hc as (tail & -> & Htl & Hts & Htc & _ & _).
      apply (scan_and_upgrade_effects platform) in Hb.
      destruct Hb as (Hst & Hb).
      observe. rewrite Hst, Hts, Htc, ?app_nil_r.
      change (changing_commands [St (SelectManager _) reply])
        with (@nil (list string)).
      simpl. split; [reflexivity |].
      rewrite ?app_nil_r.
      intros Hne. destruct (Hb Hne) as (ts & rest & manager & head & -> & Hscan
                                        & Hlk & Hh & Hc).
      exists [St (SelectManager (Z.of_nat (List.length names))) reply],
        ts, m, (rest ++ tail), manager, head.
      rewrite changing_commands_app, Hc, Htc, <- !app_assoc.
      repeat split; try assumption; reflexivity.
    + apply caught_effects in H.
      destruct H as (tail & -> & Htl & Hts & Htc & _ & _). simpl.
      observe. rewrite Hts, Htc.
      split; [reflexivity |]. intros Hne. contradiction Hne. reflexivity.
Qed.

(** X25.  [upgrade_package] changes nothing before the scan has cleared the
    package: the command that upgrades ([npm update -g] or
    [pip3 install --upgrade]) is launched only after a complete run of
    [_virustotal_scan] for this package and the chosen manager that returned
    [True]; no manager command was launched before that run, it is the only
    command that changes packages, and nothing is sent to the cache. *)
Theorem upgrade_waits_for_the_scan (platform : string)
  (available_managers : list (string * unified_cli.Manager))
  (package_name : string) (manager_name : option string)
  (t : list Step) (o : Outcome unit) (c : list string) :
  texec (unified_cli.upgrade_package platform available_managers package_name
           manager_name) t o ->
  In c (changing_commands t) ->
  exists pre ts m post manager head,
    t = pre ++ map base ts ++ post /\
    exec (cli._virustotal_scan package_name (Some m)) ts (Returned true) /\
    launched pre = [] /\
    unified_cli.lookup_manager available_managers m = Ok manager /\
    (String.eqb platform "win32" = false ->
     head = base_manager.command (unified_cli.fields manager)) /\
    c = head :: upgrade_args manager package_name /\
    changing_commands post = [c] /\
    statements t = [].
Proof.
  intros Hex Hin.
  pose proof (proj1 (twp_exec _ _)
                (upgrade_package_spec platform available_managers
                   package_name manager_name) t o Hex) as H.
  cbv beta in H.
  destruct H as (header & body & -> & (Hhl & Hhs & Hhb & Hhsel) & H).
  apply upgrade_body_effects in H. destruct H as (Hst & H).
  assert (Hhc : changing_commands header = []).
  { unfold changing_commands. rewrite Hhl. reflexivity. }
  rewrite changing_commands_app, Hhc in Hin. simpl in Hin.
  assert (Hne : changing_commands body <> []).
  { intros E. rewrite E in Hin. destruct Hin. }
  destruct (H Hne) as (pre & ts & m & post & manager & head & -> & Hscan
                       & Hpl & Hlk & Hh & Hc).
  assert (Hpc : changing_commands pre = []).
  { unfold changing_commands. rewrite Hpl. reflexivity. }
  rewrite !changing_commands_app, changing_commands_base, Hpc, Hc in Hin.
  destruct Hin as [<- | []].
  exists (header ++ pre), ts, m, post, manager, head.
  rewrite launched_app, Hhl, Hpl, statements_app, Hhs, Hst, <- !app_assoc.
  repeat split; try assumption; reflexivity.
Qed.

Lemma upgrade_waits_for_the_scan_witness :
  let r := trun reply
             (unified_cli.upgrade_package "linux" unified_cli.managers
                "left-pad" (Some "npm"%string))
             (host (npm_world (JDict left_pad_doc) 200
                      (Ok (found_response 0 0 60 4)))
                0 "{}" (Ok "1"%string)) in
  exists pre ts m post manager head,
    steps_of r = pre ++ map base ts ++ post /\
    exec (cli._virustotal_scan "left-pad" (Some m)) ts (Returned true) /\
    launched pre = [] /\
    unified_cli.lookup_manager unified_cli.managers m = Ok manager /\
    (String.eqb "linux" "win32" = false ->
     head = base_manager.command (unified_cli.fields manager)) /\
    ["npm"; "update"; "-g"; "left-pad"]%string
    = head :: upgrade_args manager "left-pad" /\
    changing_commands post = [["npm"; "update"; "-g"; "left-pad"]%string] /\
    statements (steps_of r) = [].
Proof.
  intros r.
  apply (upgrade_waits_for_the_scan "linux" unified_cli.managers "left-pad"
           (Some "npm"%string) (steps_of r) (result_of r)
           ["npm"; "update"; "-g"; "left-pad"]%string).
  - exact (trun_texec reply _ _).
  - vm_compute. left. reflexivity.
Defined.

Lemma detect_spec (platform : string)
  (managers : list (string * unified_cli.Manager)) (package_name : string) :
  twp (unified_cli.detect platform managers package_name)
    (fun t o =>
       statements t = [] /\ selections t = [] /\ changing_commands t = []).
Proof.
  induction managers as [| [name manager] rest IH]; simpl.
  - repeat split; reflexivity.
  - apply twp_bind.
    eapply twp_mono; [| apply manager_list_spec].
    cbv beta. intros t1 o1 (Hst & Hsel & Hch & _).
    destruct o1 as [packages | e]; [| repeat split; assumption].
    apply twp_bind.
    destruct (unified_cli.any_named packages package_name) as [found | e];
      simpl; [| rewrite app_nil_r; repeat split; assumption].
    apply twp_bind.
    eapply twp_mono; [| exact IH].
    cbv beta. intros t2 o2 (Hst2 & Hsel2 & Hch2).
    destruct o2 as [others | e]; simpl.
    all: observe; rewrite Hst, Hsel, Hch, Hst2, Hsel2, Hch2.
    all: repeat split; reflexivity.
Qed.

Lemma update_package_spec (platform : string)
  (available_managers : list (string * unified_cli.Manager))
  (package_name : string) :
  twp (unified_cli.update_package platform available_managers package_name)
    (fun t o =>
       exists header body names,
         t = header ++ body /\
         statements header = [] /\ selections header = [] /\
         changing_commands header = [] /\
         (body = [] \/
          (exists m,
             match unified_cli.lookup_manager available_managers m with
             | Ok manager =>
                 scan_then package_name m
                   (upgrade platform manager package_name) body o
             | Err e => body = [] /\ o = Raised e
             end) \/
          chosen names
            (fun m b o' =>
               match unified_cli.lookup_manager available_managers m with
               | Ok manager =>
                   scan_then package_name m
                     (upgrade platform manager package_name) b o'
               | Err e => b = [] /\ o' = Raised e
               end)
            body o)).
Proof.
  unfold unified_cli.update_package.
  apply twp_bind. simpl. intros [].
  apply twp_bind.
  eapply twp_mono; [| apply detect_spec].
  cbv beta. intros t1 o1 (Hst & Hsel & Hch).
  assert (Hquiet : forall tail,
            statements tail = [] -> selections tail = [] ->
            changing_commands tail = [] ->
            statements ((St (Say (LineDetecting package_name)) tt :: t1)
                        ++ tail) = [] /\
            selections ((St (Say (LineDetecting package_name)) tt :: t1)
                        ++ tail) = [] /\
            changing_commands ((St (Say (LineDetecting package_name)) tt :: t1)
                               ++ tail) = []).
  { intros tail H1 H2 H3. observe. rewrite Hst, Hsel, Hch, H1, H2, H3.
    repeat split; reflexivity. }
  destruct o1 as [found | e].
  - destruct found as [| m [| m' more]].
    + simpl. intros [] [].
      exists ((St (Say (LineDetecting package_name)) tt :: t1)
              ++ [St (Say (LineNotFound package_name)) tt;
                  St (Say (LineTip package_name)) tt]), [], [].
      split; [rewrite ?app_nil_r, <- ?app_assoc; reflexivity |].
      destruct (Hquiet [St (Say (LineNotFound package_name)) tt;
                        St (Say (LineTip package_name)) tt])
        as (H1 & H2 & H3); try reflexivity.
      repeat split; try assumption. left. reflexivity.
    + cbn [and_then say twp]. intros [].
      eapply twp_mono; [| apply scan_and_upgrade_spec].
      cbv beta. intros body o H.
      exists ((St (Say (LineDetecting package_name)) tt :: t1)
              ++ [St (Say (LineFoundIn package_name m)) tt]), body, [].
      split; [rewrite <- ?app_assoc; reflexivity |].
      destruct (Hquiet [St (Say (LineFoundIn package_name m)) tt])
        as (H1 & H2 & H3); try reflexivity.
      repeat split; try assumption. right. left. exists m. exact H.
    + cbn [and_then say twp]. intros [].
      apply twp_bind.
      eapply twp_mono; [| apply say_numbered_spec].
      cbv beta. intros t2 o2 (-> & Hl2 & Hst2 & Hb2 & Hsel2).
      eapply twp_mono;
        [| apply choose_spec with
             (R := fun m b o' =>
                 match unified_cli.lookup_manager available_managers m with
                 | Ok manager =>
                     scan_then package_name m
                       (upgrade platform manager package_name) b o'
                 | Err e => b = [] /\ o' = Raised e
                 end);
           intros m0; apply scan_and_upgrade_spec].
      cbv beta. intros body o Hc.
      exists ((St (Say (LineDetecting package_name)) tt :: t1)
              ++ St (Say (LineFoundInSeveral package_name)) tt :: t2),
        body, (m :: m' :: more).
      split; [rewrite <- ?app_assoc; reflexivity |].
      destruct (Hquiet (St (Say (LineFoundInSeveral package_name)) tt :: t2))
        as (H1 & H2 & H3).
      { observe. rewrite Hst2. reflexivity. }
      { observe. rewrite Hsel2. reflexivity. }
      { observe. unfold changing_commands. rewrite Hl2. reflexivity. }
      repeat split; try assumption. right. right. exact Hc.
  - exists (St (Say (LineDetecting package_name)) tt :: t1), [], [].
    split; [rewrite app_nil_r; reflexivity |].
    destruct (Hquiet []) as (H1 & H2 & H3); try reflexivity.
    rewrite app_nil_r in H1, H2, H3.
    repeat split; try assumption. left. reflexivity.
Qed.

(** X26.  [update_package] changes nothing before the scan has cleared the
    package.  The listings it runs to find the manager change nothing; the
    command that upgrades is launched only after a complete run of
    [_virustotal_scan] for this package and the manager found (or picked)
    that returned [True]; it is the only command that changes packages, and
    nothing is sent to the cache. *)
Theorem update_waits_for_the_scan (platform : string)
  (available_managers : list (string * unified_cli.Manager))
  (package_name : string)
  (t : list Step) (o : Outcome unit) (c : list string) :
  texec (unified_cli.update_package platform available_managers package_name)
    t o ->
  In c (changing_commands t) ->
  exists pre ts m post manager head,
    t = pre ++ map base ts ++ post /\
    exec (cli._virustotal_scan package_name (Some m)) ts (Returned true) /\
    changing_commands pre = [] /\
    unified_cli.lookup_manager available_managers m = Ok manager /\
    (String.eqb platform "win32" = false ->
     head = base_manager.command (unified_cli.fields manager)) /\
    c = head :: upgrade_args manager package_name /\
    changing_commands post = [c] /\
    statements t = [].
Proof.
  intros Hex Hin.
  pose proof (proj1 (twp_exec _ _)
                (update_package_spec platform available_managers
                   package_name) t o Hex) as H.
  cbv beta in H.
  destruct H as (header & body & names & -> & Hhs & Hhsel & Hhc & H).
  apply upgrade_body_effects in H. destruct H as (Hst & H).
  rewrite changing_commands_app, Hhc in Hin. simpl in Hin.
  assert (Hne : changing_commands body <> []).
  { intros E. rewrite E in Hin. destruct Hin. }
  destruct (H Hne) as (pre & ts & m & post & manager & head & -> & Hscan
                       & Hpl & Hlk & Hh & Hc).
  assert (Hpc : changing_commands pre = []).
  { unfold changing_commands. rewrite Hpl. reflexivity. }
  rewrite !changing_commands_app, changing_commands_base, Hpc, Hc in Hin.
  destruct Hin as [<- | []].
  exists (header ++ pre), ts, m, post, manager, head.
  rewrite changing_commands_app, Hhc, Hpc, statements_app, Hhs, Hst,
    <- !app_assoc.
  repeat split; try assumption; reflexivity.
Qed.

Lemma update_waits_for_the_scan_witness :
  let listing :=
    JDict (("dependencies",
            JDict [("left-pad", JDict [("version", JStr "1.3.0")])])
           :: left_pad_doc)%string in
  let r := trun reply
             (unified_cli.update_package "linux" unified_cli.managers
                "left-pad")
             (host (npm_world listing 200 (Ok (found_response 0 0 60 4)))
                0 "{}" (Ok "1"%string)) in
  exists pre ts m post manager head,
    steps_of r = pre ++ map base ts ++ post /\
    exec (cli._virustotal_scan "left-pad" (Some m)) ts (Returned true) /\
    changing_commands pre = [] /\
    unified_cli.lookup_manager unified_cli.managers m = Ok manager /\
    (String.eqb "linux" "win32" = false ->
     head = base_manager.command (unified_cli.fields manager)) /\
    ["npm"; "update"; "-g"; "left-pad"]%string
    = head :: upgrade_args manager "left-pad" /\
    changing_commands post = [["npm"; "update"; "-g"; "left-pad"]%string] /\
    statements (steps_of r) = [].
Proof.
  intros listing r.
  apply (update_waits_for_the_scan "linux" unified_cli.managers "left-pad"
           (steps_of r) (result_of r)
           ["npm"; "update"; "-g"; "left-pad"]%string).
  - exact (trun_texec reply _ _).
  - vm_compute. left. reflexivity.
Defined.

(* ------------------------------------------------------------------------- *)
(** ** The managers by themselves *)

Lemma run_command_error_plain (e : exn) :
  is_TimeoutExpired (run_command_error e) = false /\
  is_FileNotFoundError (run_command_error e) = false.
Proof.
  unfold run_command_error.
  destruct (is_TimeoutExpired e) eqn:Ht; simpl; [split; reflexivity |].
  destruct (is_FileNotFoundError e) eqn:Hf; simpl; split;
    try reflexivity; assumption.
Qed.

(** What [_run_command] does, case by case. *)
Lemma run_command_cases (platform : string)
  (self : base_manager.BasePackageManager) (args : list string)
  (capture_output : bool) :
  twp (base_manager._run_command platform self args capture_output)
    (fun t o =>
       if String.eqb platform "win32"
       then
         exists found,
           lookups t = [(base_manager.command self, found)] /\
           match found with
           | Ok (Some command_path) =>
               exists r,
                 launched t = [(command_path :: args, capture_output, r)] /\
                 o = run_command_end r
           | Ok None => launched t = [] /\ o = Raised PlainException
           | Err e => launched t = [] /\ o = Raised (run_command_error e)
           end
       else
         lookups t = [] /\
         exists r,
           launched t
           = [(base_manager.command self :: args, capture_output, r)] /\
           o = run_command_end r).
Proof.
  unfold base_manager._run_command, invoke, run_command_end,
    run_command_error.
  destruct (String.eqb platform "win32").
  all: repeat (simpl; twp_step).
  all: simpl.
  all: try (split; [reflexivity |]).
  all: try (eexists; split; [reflexivity |]; simpl).
  all: try (eexists; split; [reflexivity |]; simpl).
  all: repeat match goal with
       | H : is_TimeoutExpired _ = _ |- _ => rewrite H; clear H
       | H : is_FileNotFoundError _ = _ |- _ => rewrite H; clear H
       end.
  all: simpl; try reflexivity; try (split; reflexivity).
Qed.

(** X27.  [_run_command] replaces a [TimeoutExpired] and a
    [FileNotFoundError] raised inside it by a plain [Exception], and lets
    any other exception through as it is; neither of the two ever leaves it.
    Off Windows no look-up is made and one process is started, whose command
    line is the manager's command followed by the arguments.  On Windows the
    command is looked up once: when the look-up finds a path, one process is
    started with that path in front of the arguments; when it finds nothing,
    no process is started and a plain [Exception] is raised; when the
    look-up itself raises, no process is started either.  A process that
    was started decides the end: its result is returned, or what it raised
    leaves, replaced as said. *)
Theorem run_command_converts_errors (platform : string)
  (self : base_manager.BasePackageManager) (args : list string)
  (capture_output : bool) (t : list Step) (o : Outcome CompletedProcess) :
  texec (base_manager._run_command platform self args capture_output) t o ->
  (forall e, o = Raised e ->
     is_TimeoutExpired e = false /\ is_FileNotFoundError e = false) /\
  (if String.eqb platform "win32"
   then
     exists found,
       lookups t = [(base_manager.command self, found)] /\
       match found with
       | Ok (Some command_path) =>
           exists r,
             launched t = [(command_path :: args, capture_output, r)] /\
             o = match r with
                 | Ok p => Returned p
                 | Err e =>
                     Raised (if is_TimeoutExpired e || is_FileNotFoundError e
                             then PlainException else e)
                 end
       | Ok None => launched t = [] /\ o = Raised PlainException
       | Err e =>
           launched t = [] /\
           o = Raised (if is_TimeoutExpired e || is_FileNotFoundError e
                       then PlainException else e)
       end
   else
     lookups t = [] /\
     exists r,
       launched t = [(base_manager.command self :: args, capture_output, r)] /\
       o = match r with
           | Ok p => Returned p
           | Err e =>
               Raised (if is_TimeoutExpired e || is_FileNotFoundError e
                       then PlainException else e)
           end).
Proof.
  intros Hex.
  pose proof (proj1 (twp_exec _ _)
                (run_command_cases platform self args capture_output)
                t o Hex) as H.
  cbv beta in H.
  split; [| exact H].
  intros e ->.
  assert (Hend : forall r, Raised e = run_command_end r ->
            is_TimeoutExpired e = false /\ is_FileNotFoundError e = false).
  { intros [p | e0]; simpl; [discriminate |].
    intros [= ->]. apply run_command_error_plain. }
  destruct (String.eqb platform "win32").
  - destruct H as (found & _ & H).
    destruct found as [[command_path |] | e0].
    + destruct H as (r & _ & H). exact (Hend r H).
    + destruct H as (_ & [= ->]). split; reflexivity.
    + destruct H as (_ & [= ->]). apply run_command_error_plain.
  - destruct H as (_ & r & _ & H). exact (Hend r H).
Qed.

(** On Windows, with the tool not on the path. *)
Lemma run_command_converts_errors_witness :
  let r := trun reply
             (base_manager._run_command "win32" pip_manager.PipManager
                ["install"; "requests"]%string false)
             (host pip_missing_world 0 "" (Ok "1"%string)) in
  (forall e, result_of r = Raised e ->
     is_TimeoutExpired e = false /\ is_FileNotFoundError e = false) /\
  exists found,
    lookups (steps_of r) = [("pip3"%string, found)] /\
    match found with
    | Ok (Some command_path) =>
        exists x,
          launched (steps_of r)
          = [(command_path :: ["install"; "requests"]%string, false, x)] /\
          result_of r
          = match x with
            | Ok p => Returned p
            | Err e =>
                Raised (if is_TimeoutExpired e || is_FileNotFoundError e
                        then PlainException else e)
            end
    | Ok None =>
        launched (steps_of r) = [] /\ result_of r = Raised PlainException
    | Err e =>
        launched (steps_of r) = [] /\
        result_of r
        = Raised (if is_TimeoutExpired e || is_FileNotFoundError e
                  then PlainException else e)
    end.
Proof.
  intros r.
  apply (run_command_converts_errors "win32" pip_manager.PipManager
           ["install"; "requests"]%string false (steps_of r) (result_of r)).
  exact (trun_texec reply _ _).
Defined.

(** That run, computed. *)
Example tool_not_on_the_path :
  let r := trun reply
             (base_manager._run_command "win32" pip_manager.PipManager
                ["install"; "requests"]%string false)
             (host pip_missing_world 0 "" (Ok "1"%string)) in
  lookups (steps_of r) = [("pip3"%string, Ok None)] /\
  launched (steps_of r) = [] /\
  result_of r = Raised PlainException.
Proof. repeat split. Qed.

(** X28.  The functions of the managers that install or upgrade launch at
    most one command, without capturing its output, and they return [True]
    exactly when that command exited with status 0 and the line that
    reports the success, which starts with a check mark, was printed.  An
    exit status 0 alone is not enough: when the [print] of that line
    raises, the result is not [True]. *)
Theorem manager_reports_exit_status (platform : string)
  (manager : unified_cli.Manager) (package_name : string)
  (t : list Step) (o : Outcome bool) :
  texec (unified_cli.manager_install_package platform manager package_name)
    t o \/
  texec (unified_cli.manager_upgrade_package platform manager package_name)
    t o ->
  (launched t = [] \/ exists cmd r, launched t = [(cmd, false, r)]) /\
  (o = Returned true <->
   exists cmd p l,
     launched t = [(cmd, false, Ok p)] /\ returncode p = 0 /\
     marked t = [(l, Ok tt)]) /\
  (forall l x, In (l, x) (marked t) ->
     l = LineInstalled package_name \/ l = LineNotInstalled package_name \/
     l = LineUpgraded package_name \/ l = LineNotUpgraded package_name).
Proof.
  intros Hex.
  assert (H : exists args ok ko,
            guarded_run platform (unified_cli.fields manager) args ok ko t o /\
            (ok = LineInstalled package_name \/ ok = LineUpgraded package_name)
            /\
            (ko = LineNotInstalled package_name \/
             ko = LineNotUpgraded package_name)).
  { destruct Hex as [Hex | Hex].
    - exists ["install"; package_name]%string,
        (LineInstalled package_name), (LineNotInstalled package_name).
      split; [| split; left; reflexivity].
      exact (proj1 (twp_exec _ _)
               (manager_install_spec platform manager package_name) t o Hex).
    - exists (upgrade_args manager package_name),
        (LineUpgraded package_name), (LineNotUpgraded package_name).
      split; [| split; right; reflexivity].
      exact (proj1 (twp_exec _ _)
               (manager_upgrade_spec platform manager package_name) t o Hex). }
  destruct H as (args & ok & ko & (_ & _ & _ & H) & Hok & Hko).
  destruct H as [(Hl & _ & Hm & Ho) | (head & r & Hl & _ & Ho)].
  - rewrite Hl, Hm. split; [left; reflexivity |]. split.
    + split.
      * intros ->. destruct Ho as [Ho | (e' & Ho & _)]; discriminate.
      * intros (cmd & p & l & H & _). discriminate.
    + intros l x [].
  - rewrite Hl. split; [right; exists (head :: args), r; reflexivity |].
    destruct r as [p | e].
    + destruct Ho as (x & Hm & Ho). rewrite Hm. split.
      * split.
        -- intros ->. destruct x as [[] | e];
             [| destruct (is_Exception e); discriminate].
           injection Ho as Ho. symmetry in Ho.
           exists (head :: args), p, ok. rewrite Ho.
           apply Z.eqb_eq in Ho. repeat split. exact Ho.
        -- intros (cmd & p' & l & [= _ <-] & Hrc & [= _ ->]).
           rewrite Ho. apply Z.eqb_eq in Hrc. rewrite Hrc. reflexivity.
      * intros l x' [[= <- _] | []].
        destruct (returncode p =? 0).
        -- destruct Hok as [-> | ->]; tauto.
        -- destruct Hko as [-> | ->]; tauto.
    + destruct Ho as (Hm & Ho). rewrite Hm. split.
      * split.
        -- intros ->. destruct (is_Exception e); discriminate.
        -- intros (cmd & p & l & [= H] & _).
      * intros l x [].
Qed.

Lemma manager_reports_exit_status_witness :
  let r := trun reply
             (unified_cli.manager_install_package "linux"
                unified_cli.NPMManager "left-pad")
             (host pip_missing_world 0 "" (Ok "1"%string)) in
  (launched (steps_of r) = [] \/
   exists cmd x, launched (steps_of r) = [(cmd, false, x)]) /\
  (result_of r = Returned true <->
   exists cmd p l,
     launched (steps_of r) = [(cmd, false, Ok p)] /\ returncode p = 0 /\
     marked (steps_of r) = [(l, Ok tt)]) /\
  (forall l x, In (l, x) (marked (steps_of r)) ->
     l = LineInstalled "left-pad" \/ l = LineNotInstalled "left-pad" \/
     l = LineUpgraded "left-pad" \/ l = LineNotUpgraded "left-pad").
Proof.
  intros r.
  apply (manager_reports_exit_status "linux" unified_cli.NPMManager
           "left-pad" (steps_of r) (result_of r)).
  left. exact (trun_texec reply _ _).
Defined.

(** On a standard output in cp1252 the command exits with status 0 and
    [False] is returned: the [print] of the line of success raises
    [UnicodeEncodeError], and the [except] clause takes it for a failed
    installation. *)
Example success_reported_as_failure :
  let r := trun (reply_on cp1252_console)
             (unified_cli.manager_install_package "linux"
                unified_cli.NPMManager "left-pad")
             (host pip_missing_world 0 "" (Ok "1"%string)) in
  launched (steps_of r)
  = [(["npm"; "install"; "left-pad"]%string, false,
      Ok {| returncode := 0; stdout := "" |})] /\
  marked (steps_of r) = [(LineInstalled "left-pad", Err UnicodeEncodeError)] /\
  said (steps_of r)
  = [LineInstalling "left-pad" "npm"; LineInstallError UnicodeEncodeError] /\
  result_of r = Returned false.
Proof. repeat split. Qed.

(** The same installation seen from [install_package]: the scan clears the
    package, [pip3 install] exits with status 0, the manager returns [False]
    as above, and the [print] of the line of failure raises in its turn;
    nothing is written to the cache and [UnicodeEncodeError] leaves the
    command. *)
Example installed_but_reported_failed :
  let r := trun (reply_on cp1252_console)
             (unified_cli.install_package "linux" unified_cli.managers
                "requests" (Some "pip3"%string))
             (host (pip_world (Ok (found_response 0 0 60 4)) (Ok "n"%string))
                0 "[]" (Ok "1"%string)) in
  changing_commands (steps_of r) = [["pip3"; "install"; "requests"]%string] /\
  marked (steps_of r)
  = [(LineInstalled "requests", Err UnicodeEncodeError);
     (LineInstallFailed "requests", Err UnicodeEncodeError)] /\
  statements (steps_of r) = [] /\
  result_of r = Raised UnicodeEncodeError.
Proof. repeat split. Qed.

(** X29.  Off Windows, [UnifiedCLI()] probes the two managers in the order
    npm, pip3 with [<tool> --version], and when it returns a manager is
    available exactly when its probe ran and exited with status 0: a probe
    that raised counts as unavailable.  One line is printed per manager, and
    the constructor scans nothing and sends nothing to the cache. *)
Theorem available_iff_probe_succeeds (platform : string)
  (t : list Step) (o : Outcome (list (string * unified_cli.Manager)))
  (available_managers : list (string * unified_cli.Manager)) :
  texec (unified_cli.__init__ platform) t o ->
  String.eqb platform "win32" = false ->
  o = Returned available_managers ->
  exists r1 r2,
    launched t = [(["npm"; "--version"]%string, true, r1);
                  (["pip3"; "--version"]%string, true, r2)] /\
    available_managers
    = (if exited_zero r1 then [("npm"%string, unified_cli.NPMManager)] else [])
      ++ (if exited_zero r2 then [("pip3"%string, unified_cli.PipManager)]
          else []) /\
    said t = [if exited_zero r1 then LineAvailable "npm"
              else LineUnavailable "npm";
              if exited_zero r2 then LineAvailable "pip3"
              else LineUnavailable "pip3"] /\
    base_events t = [] /\ statements t = [].
Proof.
  intros Hex Hw. revert available_managers.
  pattern t, o. revert t o Hex.
  apply (proj1 (twp_exec (unified_cli.__init__ platform) _)).
  unfold unified_cli.__init__, unified_cli.managers.
  cbn [unified_cli.probe].
  unfold unified_cli.manager_is_available, base_manager.is_available,
    base_manager._run_command, say_marked, invoke, except_Exception, say.
  rewrite Hw.
  repeat (simpl; twp_step).
  all: simpl; intros; try discriminate.
  all: match goal with
       | H : Returned _ = Returned _ |- _ => injection H as <-
       end.
  all: eexists; eexists; split; [reflexivity |].
  all: unfold exited_zero.
  all: repeat match goal with
       | H : (_ =? _) = _ |- _ => rewrite H; clear H
       end.
  all: repeat split; reflexivity.
Qed.

Lemma available_iff_probe_succeeds_witness :
  let r := trun reply (unified_cli.__init__ "linux")
             {| h_world := pip_missing_world;
                h_which := Ok None;
                h_run := fun cmd _ =>
                  match cmd with
                  | "npm"%string :: _ => Err FileNotFoundError
                  | _ => Ok {| returncode := 0; stdout := "pip 24.0" |}
                  end;
                h_select := Ok "1"%string;
                h_sqlite := fun _ => Ok tt |} in
  exists r1 r2,
    launched (steps_of r)
    = [(["npm"; "--version"]%string, true, r1);
       (["pip3"; "--version"]%string, true, r2)] /\
    [("pip3"%string, unified_cli.PipManager)]
    = (if exited_zero r1 then [("npm"%string, unified_cli.NPMManager)] else [])
      ++ (if exited_zero r2 then [("pip3"%string, unified_cli.PipManager)]
          else []) /\
    said (steps_of r)
    = [if exited_zero r1 then LineAvailable "npm"
       else LineUnavailable "npm";
       if exited_zero r2 then LineAvailable "pip3"
       else LineUnavailable "pip3"] /\
    base_events (steps_of r) = [] /\ statements (steps_of r) = [].
Proof.
  intros r.
  apply (available_iff_probe_succeeds "linux" (steps_of r) (result_of r)
           [("pip3"%string, unified_cli.PipManager)]).
  - exact (trun_texec reply _ _).
  - reflexivity.
  - reflexivity.
Defined.

Lemma npm_packages_of_spec (deps : list (string * JSON))
  (pkgs : list Package) :
  npm_manager.packages_of deps = Ok pkgs ->
  map pkg_name pkgs = map (fun entry => JStr (fst entry)) deps /\
  Forall (fun entry => exists info, snd entry = JDict info) deps.
Proof.
  revert pkgs. induction deps as [| [name info] rest IH]; simpl; intros pkgs H.
  - injection H as <-. split; [reflexivity | constructor].
  - destruct info as [| | | | | | d]; simpl in H; try discriminate.
    destruct (npm_manager.packages_of rest) as [ps | e]; [| discriminate].
    injection H as <-. destruct (IH ps eq_refl) as (Hn & Hf).
    simpl. rewrite Hn. split; [reflexivity |].
    constructor; [exists d; reflexivity | exact Hf].
Qed.

Lemma npm_decode_packages_spec (data : JSON) (pkgs : list Package) :
  npm_manager.decode_packages data = Ok pkgs ->
  pkgs <> [] ->
  exists d deps,
    data = JDict d /\
    Py.lookup d "dependencies" = Some (JDict deps) /\
    map pkg_name pkgs = map (fun entry => JStr (fst entry)) deps /\
    Forall (fun entry => exists info, snd entry = JDict info) deps.
Proof.
  unfold npm_manager.decode_packages. intros H Hne.
  destruct data as [| | | | s | l | d]; simpl in H; try discriminate.
  - destruct (contains_str "dependencies" s); [discriminate |].
    injection H as <-. contradiction Hne. reflexivity.
  - destruct (existsb _ l); [discriminate |].
    injection H as <-. contradiction Hne. reflexivity.
  - unfold Py.contains in H.
    destruct (Py.lookup d "dependencies") as [deps |] eqn:Hlk.
    + destruct deps as [| | | | | | deps]; simpl in H; try discriminate.
      exists d, deps. split; [reflexivity |]. split; [exact Hlk |].
      apply npm_packages_of_spec. exact H.
    + injection H as <-. contradiction Hne. reflexivity.
Qed.

(** X30.  [NPMManager.list_packages] never lets an [Exception] out, and its
    listing is all or nothing.  It is non-empty only when [npm list] exited
    with status 0 and printed a JSON object whose [dependencies] is an object
    all of whose values are objects; the listing then has one package per
    dependency, in order, named by its key.  One value that is not an object
    empties the whole listing. *)
Theorem npm_listing_is_all_or_nothing (platform : string)
  (t : list Step) (o : Outcome (list Package)) :
  texec (npm_manager.list_packages platform) t o ->
  (forall e, o = Raised e -> is_Exception e = false) /\
  (forall pkgs, o = Returned pkgs -> pkgs <> [] ->
     exists head p d deps,
       launched t
       = [(head :: ["list"; "-g"; "--depth=0"; "--json"]%string, true, Ok p)] /\
       returncode p = 0 /\
       base_events t = [Ev (JsonLoads (stdout p)) (Ok (JDict d))] /\
       Py.lookup d "dependencies" = Some (JDict deps) /\
       map pkg_name pkgs = map (fun entry => JStr (fst entry)) deps /\
       Forall (fun entry => exists info, snd entry = JDict info) deps).
Proof.
  intros Hex.
  pose proof (proj1 (twp_exec _ _)
                (listing_spec platform npm_manager.NPMManager
                   ["list"; "-g"; "--depth=0"; "--json"]%string "npm"
                   npm_manager.decode_packages) t o Hex)
    as (_ & _ & _ & He & _ & Hp).
  split; [exact He |].
  intros pkgs Ho Hne.
  destruct (Hp pkgs Ho) as [-> | (head & p & data & Hl & Hrc & Hb & Hd)];
    [contradiction Hne; reflexivity |].
  destruct (npm_decode_packages_spec data pkgs Hd Hne)
    as (d & deps & -> & Hlk & Hn & Hf).
  exists head, p, d, deps. repeat split; assumption.
Qed.

Lemma npm_listing_is_all_or_nothing_witness :
  let listing :=
    JDict [("dependencies",
            JDict [("left-pad", JDict [("version", JStr "1.3.0")]);
                   ("npm", JDict [])])]%string in
  let r := trun reply (npm_manager.list_packages "linux")
             (host (npm_world listing 200 (Err ConnectionError))
                0 "{...}" (Ok "1"%string)) in
  exists head p d deps,
    launched (steps_of r)
    = [(head :: ["list"; "-g"; "--depth=0"; "--json"]%string, true, Ok p)] /\
    returncode p = 0 /\
    base_events (steps_of r) = [Ev (JsonLoads (stdout p)) (Ok (JDict d))] /\
    Py.lookup d "dependencies" = Some (JDict deps) /\
    map pkg_name
      [{| pkg_name := JStr "left-pad"; pkg_id := JStr "left-pad";
          pkg_version := JStr "1.3.0"; pkg_manager := "npm" |};
       {| pkg_name := JStr "npm"; pkg_id := JStr "npm";
          pkg_version := JStr "unknown"; pkg_manager := "npm" |}]
    = map (fun entry => JStr (fst entry)) deps /\
    Forall (fun entry => exists info, snd entry = JDict info) deps.
Proof.
  intros listing r.
  refine (proj2 (npm_listing_is_all_or_nothing "linux" (steps_of r)
                   (result_of r) (trun_texec reply _ _)) _ _ _).
  - reflexivity.
  - discriminate.
Defined.

(* ------------------------------------------------------------------------- *)
(** ** The scan on a standard output that may refuse a line *)

(** A [try] statement, by cases on how its block ends. *)
Lemma texec_try_catch {A : Type} (body : Task A)
  (handler : exn -> option (Task A)) (t : list Step) (o : Outcome A) :
  texec (try_catch body handler) t o <->
  exists tb ob,
    texec body tb ob /\
    match ob with
    | Returned a => t = tb /\ o = Returned a
    | Raised e =>
        match handler e with
        | Some h => exists th, t = tb ++ th /\ texec h th o
        | None => t = tb /\ o = Raised e
        end
    end.
Proof.
  revert t; induction body as [a | e | X c k IH]; intros t; simpl.
  - split.
    + intros [-> ->]. exists [], (Returned a). repeat split.
    + intros (tb & ob & [-> ->] & -> & ->). split; reflexivity.
  - split.
    + intros H. exists [], (Raised e). split; [split; reflexivity |].
      destruct (handler e); [exists t; split; [reflexivity | exact H] |].
      exact H.
    + intros (tb & ob & [-> ->] & H).
      destruct (handler e); [| exact H].
      destruct H as (th & -> & H). exact H.
  - split.
    + intros (x & t' & -> & H). apply IH in H.
      destruct H as (tb & ob & Hb & H).
      exists (St c x :: tb), ob.
      split; [exists x, tb; split; [reflexivity | exact Hb] |].
      destruct ob as [a | e].
      * destruct H as [-> ->]. split; reflexivity.
      * destruct (handler e).
        -- destruct H as (th & -> & H). exists th.
           split; [reflexivity | exact H].
        -- destruct H as [-> ->]. split; reflexivity.
    + intros (tb & ob & (x & t' & -> & Hb) & H).
      assert (Hk : exists rest,
                t = St c x :: rest /\
                texec (try_catch (k x) handler) rest o).
      { destruct ob as [a | e].
        - destruct H as [-> ->]. exists t'. split; [reflexivity |].
          apply IH. exists t', (Returned a).
          split; [exact Hb | split; reflexivity].
        - destruct (handler e) as [h |] eqn:Hh.
          + destruct H as (th & -> & H). exists (t' ++ th).
            split; [reflexivity |].
            apply IH. exists t', (Raised e). split; [exact Hb |].
            rewrite Hh. exists th. split; [reflexivity | exact H].
          + destruct H as [-> ->]. exists t'. split; [reflexivity |].
            apply IH. exists t', (Raised e). split; [exact Hb |].
            rewrite Hh. split; reflexivity. }
      destruct Hk as (rest & -> & Hk). exists x, rest.
      split; [reflexivity | exact Hk].
Qed.

(** The [except] clause: one [print], and [True] when it returned. *)
Lemma on_exception_texec (ex : exn) (t : list Step) (o : Outcome bool) :
  texec (cli_io.on_exception ex) t o <->
  exists r,
    t = [St (PrintLine (MsgScanSkipped ex)) r] /\
    o = match r with
        | Ok _ => Returned true
        | Err e => Raised e
        end.
Proof.
  unfold cli_io.on_exception, cli_io.print, invoke. simpl. split.
  - intros ([u | e] & t' & -> & H); simpl in H; destruct H as [-> ->].
    + exists (Ok u). split; reflexivity.
    + exists (Err e). split; reflexivity.
  - intros (r & -> & ->). exists r, []. split; [reflexivity |].
    destruct r; simpl; split; reflexivity.
Qed.

(** C10 (as the code has it).  The executions of the scan are those of its
    [try] block, followed by the [except] clause when the block raised an
    instance of [Exception], whatever stage raised it (the artifact
    download, hashing, the reputation query, the parsing of the result, the
    operator prompt or a [print]): the skipped line is handed to [print] and
    the scan returns [True] when that [print] returns; what that [print]
    raises leaves the scan.  What the block returns is returned.  An
    exception of the block that is not an instance of [Exception]
    ([KeyboardInterrupt], [SystemExit], [GeneratorExit]) leaves the scan as
    it is, and nothing more is printed. *)
Theorem exception_fails_open (package_name : string)
  (manager_name : option string) (t : list Step) (o : Outcome bool) :
  texec (cli_io._virustotal_scan package_name manager_name) t o <->
  exists tb ob,
    texec (cli_io.scan_body package_name manager_name) tb ob /\
    match ob with
    | Returned proceed => t = tb /\ o = Returned proceed
    | Raised e =>
        if is_Exception e
        then
          exists r,
            t = tb ++ [St (PrintLine (MsgScanSkipped e)) r] /\
            o = match r with
                | Ok _ => Returned true
                | Err e' => Raised e'
                end
        else t = tb /\ o = Raised e
    end.
Proof.
  unfold cli_io._virustotal_scan. rewrite texec_try_catch.
  split; intros (tb & ob & Hb & H); exists tb, ob; (split; [exact Hb |]).
  - destruct ob as [proceed | e]; [exact H |].
    unfold except_Exception in H. destruct (is_Exception e); [| exact H].
    destruct H as (th & -> & H). apply on_exception_texec in H.
    destruct H as (r & -> & ->). exists r. split; reflexivity.
  - destruct ob as [proceed | e]; [exact H |].
    unfold except_Exception. destruct (is_Exception e); [| exact H].
    destruct H as (r & -> & ->).
    exists [St (PrintLine (MsgScanSkipped e)) r]. split; [reflexivity |].
    apply on_exception_texec. exists r. split; reflexivity.
Qed.

(** With [pip3] missing the download raises [FileNotFoundError]. *)
Lemma exception_fails_open_witness :
  let r := trun reply (cli_io._virustotal_scan "requests" (Some "pip3"%string))
             (host pip_missing_world 0 "" (Ok "1"%string)) in
  exists tb ob,
    texec (cli_io.scan_body "requests" (Some "pip3"%string)) tb ob /\
    match ob with
    | Returned proceed =>
        steps_of r = tb /\ result_of r = Returned proceed
    | Raised e =>
        if is_Exception e
        then
          exists x,
            steps_of r = tb ++ [St (PrintLine (MsgScanSkipped e)) x] /\
            result_of r = match x with
                          | Ok _ => Returned true
                          | Err e' => Raised e'
                          end
        else steps_of r = tb /\ result_of r = Raised e
    end.
Proof.
  intros r.
  apply (proj1 (exception_fails_open "requests" (Some "pip3"%string)
                  (steps_of r) (result_of r))).
  exact (trun_texec reply _ _).
Defined.

(** What that run is: the scan returns [True] after the skipped line. *)
Example missing_tool_fails_open :
  let r := trun reply (cli_io._virustotal_scan "requests" (Some "pip3"%string))
             (host pip_missing_world 0 "" (Ok "1"%string)) in
  prints (steps_of r)
  = [(MsgPreparing "requests" "pip3", Ok tt);
     (MsgScanSkipped FileNotFoundError, Ok tt)] /\
  result_of r = Returned true.
Proof. split; reflexivity. Qed.

(** On a standard output that is closed the first [print] of the block
    raises [ValueError], the [except] clause catches it, and the [print] of
    the clause raises in its turn: an instance of [Exception] leaves the
    scan. *)
Example closed_stdout_leaves_the_scan :
  let r := trun (reply_on closed_console)
             (cli_io._virustotal_scan "requests" (Some "pip3"%string))
             (host pip_missing_world 0 "" (Ok "1"%string)) in
  prints (steps_of r)
  = [(MsgPreparing "requests" "pip3", Err ValueError);
     (MsgScanSkipped ValueError, Err ValueError)] /\
  result_of r = Raised ValueError.
Proof. split; reflexivity. Qed.

(* ------------------------------------------------------------------------- *)
(** ** The two embeddings of the scan agree

    The executions of [cli._virustotal_scan] are the executions of
    [cli_io._virustotal_scan] in which every [print] returned. *)

Lemma calls_in_weaken {A : Type} (P Q : forall X : Type, Ext X -> Prop)
  (p : Prog A) :
  (forall (X : Type) (c : Ext X), P X c -> Q X c) ->
  calls_in P p -> calls_in Q p.
Proof.
  intros HPQ. induction p as [a | e | X c k IH]; simpl; try trivial.
  intros [Hc Hk]. split; [apply HPQ, Hc | intros x; apply IH, Hk].
Qed.

Lemma refines_bind {A B : Type} (p : Prog A) (q : Task A)
  (f : A -> Prog B) (g : A -> Task B) :
  refines p q -> (forall a, refines (f a) (g a)) ->
  refines (bind p f) (and_then q g).
Proof.
  intros H Hf. induction H as [a | e | m k k' H IH | X c k k' Hc H IH]; simpl.
  - apply Hf.
  - constructor.
  - constructor. exact IH.
  - constructor; [exact Hc | exact IH].
Qed.

Lemma refines_try {A : Type} (p : Prog A) (q : Task A)
  (h : exn -> Prog A) (h' : exn -> Task A) :
  refines p q -> (forall e, refines (h e) (h' e)) ->
  refines (try_except p h) (try_catch q (except_Exception h')).
Proof.
  intros H Hh. induction H as [a | e | m k k' H IH | X c k k' Hc H IH]; simpl.
  - constructor.
  - unfold except_Exception. destruct (is_Exception e);
      [apply Hh | constructor].
  - constructor. exact IH.
  - constructor; [exact Hc | exact IH].
Qed.

(** A part of the scan that prints nothing is the same in both. *)
Lemma refines_of_prog {A : Type} (p : Prog A) :
  calls_in not_print p -> refines p (of_prog p).
Proof.
  induction p as [a | e | X c k IH]; simpl.
  - constructor.
  - constructor.
  - intros [Hc Hk]. constructor; [exact Hc | intros x; apply IH, Hk].
Qed.

Lemma print_refines (m : Msg) : refines (print m) (cli_io.print m).
Proof.
  unfold print, ask, cli_io.print, invoke. constructor. constructor.
Qed.

Lemma refines_exec {A : Type} (p : Prog A) (q : Task A) :
  refines p q ->
  forall ts o, exec p ts o -> texec q (map printing ts) o.
Proof.
  intros H. induction H as [a | e | m k k' H IH | X c k k' Hc H IH];
    intros ts o; simpl.
  - intros [-> ->]. split; reflexivity.
  - intros [-> ->]. split; reflexivity.
  - intros ([] & t' & -> & Hex). exists (Ok tt), (map printing t').
    split; [reflexivity | exact (IH t' o Hex)].
  - intros (x & t' & -> & Hex). exists x, (map printing t').
    split; [| exact (IH x t' o Hex)].
    simpl. f_equal. destruct c; try reflexivity. destruct Hc.
Qed.

Lemma refines_texec {A : Type} (p : Prog A) (q : Task A) :
  refines p q ->
  forall t o, texec q t o -> prints_returned t = true ->
  exists ts, t = map printing ts /\ exec p ts o.
Proof.
  intros H. induction H as [a | e | m k k' H IH | X c k k' Hc H IH];
    intros t o; simpl.
  - intros [-> ->] _. exists []. repeat split.
  - intros [-> ->] _. exists []. repeat split.
  - intros (r & t' & -> & Hex) Hp. simpl in Hp.
    destruct r as [[] | e]; [| discriminate Hp].
    destruct (IH t' o Hex Hp) as (ts & -> & Hts).
    exists (Ev (Print m) tt :: ts). split; [reflexivity |].
    exists tt, ts. split; [reflexivity | exact Hts].
  - intros (x & t' & -> & Hex) Hp.
    assert (Hp' : prints_returned t' = true).
    { exact Hp. }
    destruct (IH x t' o Hex Hp') as (ts & -> & Hts).
    exists (Ev c x :: ts). split.
    + simpl. f_equal. destruct c; try reflexivity. destruct Hc.
    + exists x, ts. split; [reflexivity | exact Hts].
Qed.

Ltac refines_step :=
  first
    [ apply print_refines
    | apply refines_bind
    | apply refines_of_prog
    | match goal with
      | |- forall _, _ => intro
      | |- refines (match ?x with _ => _ end) _ => destruct x
      | |- refines (if ?b then _ else _) _ => destruct b
      | |- refines (Ret _) _ => constructor
      | |- refines (Raise _) _ => constructor
      | |- calls_in _ _ => repeat calls_step
      end ].

Lemma confirm_refines (p : Prompt) (proceeding : Msg) :
  refines (cli.confirm p proceeding) (cli_io.confirm p proceeding).
Proof.
  unfold cli.confirm, cli_io.confirm, cli_io.read_choice, cli.read_choice.
  repeat refines_step.
Qed.

Lemma report_refines (package_name : string) (result : JSON) :
  refines (cli.report package_name result)
    (cli_io.report package_name result).
Proof.
  unfold cli.report, cli_io.report, cli.as_dict, cli.stat_required,
    cli.stat_optional, cli.lift.
  repeat first [apply confirm_refines | refines_step].
Qed.

Lemma scan_body_refines (package_name : string)
  (manager_name : option string) :
  refines (cli.scan_body package_name manager_name)
    (cli_io.scan_body package_name manager_name).
Proof.
  unfold cli.scan_body, cli_io.scan_body.
  apply refines_bind; [apply print_refines | intros _].
  apply refines_bind.
  { apply refines_of_prog.
    apply calls_in_weaken with (P := resolver_call);
      [| apply resolver_calls].
    intros X c; destruct c; simpl; tauto. }
  intros file_hash. cbv zeta.
  destruct (negb (virustotal.truthy_opt file_hash)).
  - apply refines_bind; [apply print_refines | intros _].
    apply confirm_refines.
  - apply refines_bind; [apply print_refines | intros _].
    apply refines_bind; [apply print_refines | intros _].
    apply refines_bind.
    { apply refines_of_prog. unfold virustotal.get_virustotal_api_key.
      repeat calls_step. }
    intros api_key. apply refines_bind.
    { apply refines_of_prog.
      unfold virustotal.scan_file_hash_with_virustotal,
        virustotal.decode_reply.
      repeat calls_step. }
    intros result. apply report_refines.
Qed.

Lemma scan_refines (package_name : string) (manager_name : option string) :
  refines (cli._virustotal_scan package_name manager_name)
    (cli_io._virustotal_scan package_name manager_name).
Proof.
  unfold cli._virustotal_scan, cli_io._virustotal_scan.
  apply refines_try; [apply scan_body_refines |].
  intros e. unfold cli.on_exception, cli_io.on_exception.
  repeat refines_step.
Qed.

(** Every execution of the scan of the earlier sections is an execution of
    the scan of this one, with each [print] returning; and an execution of
    the scan of this one in which every [print] returned is one of the
    earlier sections. *)
Lemma prints_return (package_name : string) (manager_name : option string) :
  (forall ts o,
     exec (cli._virustotal_scan package_name manager_name) ts o ->
     texec (cli_io._virustotal_scan package_name manager_name)
       (map printing ts) o) /\
  (forall t o,
     texec (cli_io._virustotal_scan package_name manager_name) t o ->
     prints_returned t = true ->
     exists ts,
       t = map printing ts /\
       exec (cli._virustotal_scan package_name manager_name) ts o).
Proof.
  split.
  - apply refines_exec, scan_refines.
  - apply refines_texec, scan_refines.
Qed.
